(** * POS backend: order aggregation, cashier sessions and cash tally

    A shallow embedding of the request handlers of the Sales and Session
    services (routers/purchase_order.py, cancelled_order.py, top_products.py,
    session.py, cash_tally.py) together with the properties of the
    specification that concern them.

    Conventions of the embedding.
    - Python [int] is [Z]; [str] is [string]; [Optional[T]] and SQL NULL are
      [option].
    - [decimal.Decimal] is a coefficient and an exponent with the arithmetic
      of the default context (28 significant digits, ROUND_HALF_EVEN).
    - A Python [dict] is an association list in insertion order.
    - The relational store is a record of tables (lists of rows); a handler
      is a function from the store (and the request) to an HTTP result and
      the store it leaves behind. *)

From Stdlib Require Import ZArith QArith List String Ascii Bool Lia.
From Stdlib Require Import Permutation Sorted DecimalString.
Import ListNotations.

Local Open Scope string_scope.
Local Open Scope Z_scope.

(* ===================================================================== *)
(** ** Python's decimal.Decimal in the default context *)
(* ===================================================================== *)

Module PyDecimal.

(** A finite Decimal: the number [coefficient * 10 ^ exponent].  The sign
    lives in the coefficient; NaN, the infinities and the negative zero do
    not occur in the handlers modelled here (their running sums start from
    a positive zero, and the sum of a positive and a negative zero is the
    positive one under ROUND_HALF_EVEN). The exponent limits Emax and Emin
    of the context (999999) are out of reach and are not modelled. *)
Record Decimal : Type := mkDecimal { coefficient : Z; exponent : Z }.

(** getcontext().prec *)
Definition prec : Z := 28.

(** How many digits [a >= 10^prec] has beyond [prec]: the least [k >= 1]
    with [a < 10 ^ (prec + k)]. *)
Fixpoint excess_digits (fuel : nat) (a : Z) (k : Z) : Z :=
  match fuel with
  | O => k
  | S fuel' =>
      if a <? 10 ^ (prec + k) then k
      else excess_digits fuel' a (k + 1)
  end.

(** Decimal._fix: round the exact result to [prec] significant digits,
    ties to even; a coefficient that rounds up to [10^prec] loses its last
    digit. *)
Definition fix_ctx (d : Decimal) : Decimal :=
  let c := coefficient d in
  let a := Z.abs c in
  if a <? 10 ^ prec then d
  else
    let k := excess_digits (Z.to_nat (Z.log2 a)) a 1 in
    let q := a / 10 ^ k in
    let r := a mod 10 ^ k in
    let half := 5 * 10 ^ (k - 1) in
    let q' := if (half <? r) || ((r =? half) && Z.odd q) then q + 1 else q in
    if q' =? 10 ^ prec
    then mkDecimal (Z.sgn c * 10 ^ (prec - 1)) (exponent d + k + 1)
    else mkDecimal (Z.sgn c * q') (exponent d + k).

(** Decimal(n) for an int [n]: exact. *)
Definition of_int (n : Z) : Decimal := mkDecimal n 0.

(** Decimal(f) for a finite float [f = n / 2^k] (as_integer_ratio, with
    [2^k] the denominator): the exact expansion [n * 5^k * 10^-k]. *)
Definition of_float_ratio (n : Z) (k : Z) : Decimal :=
  mkDecimal (n * 5 ^ k) (- k).

(** Decimal('0.0') *)
Definition zero_1 : Decimal := mkDecimal 0 (-1).

(** bool(d): a Decimal is falsy exactly when it is zero. *)
Definition truthy (d : Decimal) : bool := negb (coefficient d =? 0).

(** Decimal.__mul__ *)
Definition mul (a b : Decimal) : Decimal :=
  fix_ctx (mkDecimal (coefficient a * coefficient b) (exponent a + exponent b)).

(** The exact sum, at the smaller of the two exponents. *)
Definition add_exact (a b : Decimal) : Decimal :=
  let e := Z.min (exponent a) (exponent b) in
  mkDecimal (coefficient a * 10 ^ (exponent a - e)
             + coefficient b * 10 ^ (exponent b - e)) e.

(** Decimal.__add__ *)
Definition add (a b : Decimal) : Decimal := fix_ctx (add_exact a b).

(** Decimal.__neg__ of a non-zero operand, and of the zeros up to sign. *)
Definition neg (a : Decimal) : Decimal :=
  mkDecimal (- coefficient a) (exponent a).

(** Decimal.__sub__ *)
Definition sub (a b : Decimal) : Decimal := add a (neg b).

(** The rational number a Decimal denotes. *)
Definition value (d : Decimal) : Q :=
  if 0 <=? exponent d
  then inject_Z (coefficient d * 10 ^ exponent d)
  else Qmake (coefficient d) 1 / inject_Z (10 ^ (- exponent d)).

(** The amount in units of [10^-s] (for [s = 2]: in centavos); exact when
    [- s <= exponent d]. *)
Definition units (s : Z) (d : Decimal) : Z :=
  coefficient d * 10 ^ (exponent d + s).

End PyDecimal.

Import PyDecimal.

(* ===================================================================== *)
(** ** Runtime services outside the embedding *)
(* ===================================================================== *)

(** What the handlers take from the Python runtime without looking inside:
    the binary floating-point numbers of the response models and the
    conversion [float(d)] of a Decimal, the values the field
    [addons: Optional[dict]] holds, the rendering of a timestamp, and
    [int(s)] of a string ([None] for ValueError).  [json_loads a] is the
    value of [json.loads(a)] when the field accepts it, and [None] when
    [json.loads] raises or the field rejects the value. *)
Class PyRuntime : Type := {
  float : Type;
  float_of_Decimal : Decimal -> float;
  json : Type;
  json_loads : string -> option json;
  json_empty : json;
  strftime : Z -> string;
  py_int : string -> option Z
}.

(** What a try block ends with: its value, or a raised exception, which is
    an HTTPException or an error of the database driver. *)
Inductive exn : Type :=
| HTTPExc (status_code : Z) (detail : string)
| DBError.

Inductive attempt (A : Type) : Type :=
| Done (a : A)
| Raise (e : exn).
Arguments Done {A} a.
Arguments Raise {A} e.

(** An HTTP outcome: a response with its status code, or a raised
    HTTPException. *)
Inductive http (A : Type) : Type :=
| Response (status_code : Z) (body : A)
| HTTPException (status_code : Z) (detail : string).
Arguments Response {A} status_code body.
Arguments HTTPException {A} status_code detail.

(** f"{n}" for an int. *)
Definition str_of_int (n : Z) : string := NilZero.string_of_int (Z.to_int n).

(** [x in xs] for a list of strings. *)
Definition str_in (x : string) (xs : list string) : bool :=
  existsb (String.eqb x) xs.

(* ===================================================================== *)
(** ** Dictionaries in insertion order *)
(* ===================================================================== *)

Section Dict.
Context {V : Type}.

Definition dict : Type := list (Z * V).

(** d.get(k) *)
Fixpoint dict_get (d : dict) (k : Z) : option V :=
  match d with
  | [] => None
  | (k', v) :: d' => if k' =? k then Some v else dict_get d' k
  end.

(** k in d *)
Definition dict_mem (d : dict) (k : Z) : bool :=
  match dict_get d k with Some _ => true | None => false end.

(** d[k] = v: an existing key keeps its place, a new key goes last. *)
Fixpoint dict_set (d : dict) (k : Z) (v : V) : dict :=
  match d with
  | [] => [(k, v)]
  | (k', v') :: d' =>
      if k' =? k then (k', v) :: d' else (k', v') :: dict_set d' k v
  end.

(** d[k] = f(d[k]) for a key that is present; KeyError is [None]. *)
Definition dict_update (d : dict) (k : Z) (f : V -> V) : option dict :=
  match dict_get d k with
  | Some v => Some (dict_set d k (f v))
  | None => None
  end.
End Dict.
Arguments dict V : clear implicits.

(* ===================================================================== *)
(** ** The Order Aggregator (purchase_order.py, cancelled_order.py) *)
(* ===================================================================== *)

(** A fetched row of the Sales LEFT JOIN SaleItems queries.  The order
    columns are never NULL; the item columns are NULL together when the
    order has no item; Quantity and UnitPrice are the two item columns the
    loop reads defensively, and Category and Addons are the two that the
    INSERT of save_online_order may bind to NULL. *)
Record ItemColumns : Type := mkItemColumns {
  SaleItemID : Z;
  ItemName : string;
  Quantity : option Z;
  UnitPrice : option Decimal;
  Category : option string;
  Addons : option string
}.

Record Row : Type := mkRow {
  SaleID : Z;
  OrderType : string;
  PaymentMethod : string;
  CreatedAt : Z;
  CashierName : string;
  TotalDiscountAmount : Decimal;
  Status : string;
  GCashReferenceNumber : option string;
  item : option ItemColumns
}.

(** [if row.SaleItemID:] holds for an item key that is neither NULL nor 0. *)
Definition has_item (row : Row) : option ItemColumns :=
  match item row with
  | Some it => if SaleItemID it =? 0 then None else Some it
  | None => None
  end.

(** [row.Quantity or 0] *)
Definition item_quantity (it : ItemColumns) : Z :=
  match Quantity it with Some q => q | None => 0 end.

(** [row.UnitPrice or Decimal('0.0')] *)
Definition item_price (it : ItemColumns) : Decimal :=
  match UnitPrice it with
  | Some p => if truthy p then p else zero_1
  | None => zero_1
  end.

Section Aggregator.
Context {RT : PyRuntime}.

Record ProcessingSaleItem : Type := mkProcessingSaleItem {
  name : string;
  quantity : Z;
  price : float;
  category : string;
  addons : json
}.

Record ProcessingOrder : Type := mkProcessingOrder {
  id : string;
  date : string;
  items : Z;
  total : float;
  status : string;
  orderType : string;
  paymentMethod : string;
  cashierName : string;
  gcashReferenceNumber : option string;
  orderItems : list ProcessingSaleItem
}.

(** The value of [orders_dict[sale_id]] while the rows are scanned. *)
Record order_data : Type := mkOrderData {
  od_id : string;
  od_date : string;
  od_status : string;
  od_orderType : string;
  od_paymentMethod : string;
  od_cashierName : string;
  od_GCashReferenceNumber : option string;
  od_items : Z;
  od_orderItems : list ProcessingSaleItem;
  od_totalDiscount : Decimal
}.

Definition new_order_data (with_gcash : bool) (row : Row) : order_data :=
  {| od_id := "SO-" ++ str_of_int (SaleID row);
     od_date := strftime (CreatedAt row);
     od_status := Status row;
     od_orderType := OrderType row;
     od_paymentMethod := PaymentMethod row;
     od_cashierName := CashierName row;
     od_GCashReferenceNumber :=
       if with_gcash then GCashReferenceNumber row else None;
     od_items := 0;
     od_orderItems := [];
     od_totalDiscount := TotalDiscountAmount row |}.

(** [json.loads(row.Addons) if row.Addons else {}]; [None] when
    json.loads raises or the field does not accept the value. *)
Definition addons_of (it : ItemColumns) : option json :=
  match Addons it with
  | Some a => if String.eqb a "" then Some json_empty else json_loads a
  | None => Some json_empty
  end.

(** ProcessingSaleItem(name=..., quantity=..., price=..., category=...,
    addons=...): [None] when evaluating the add-ons or validating the
    model raises, which a NULL category makes it do ([category: str]). *)
Definition sale_item_of (it : ItemColumns) : option ProcessingSaleItem :=
  match addons_of it, Category it with
  | Some decoded, Some c =>
      Some {| name := ItemName it;
              quantity := item_quantity it;
              price := float_of_Decimal (item_price it);
              category := c;
              addons := decoded |}
  | _, _ => None
  end.

(** The two updates of [orders_dict[sale_id]] for an item row:
    ["items"] += item_quantity and ["orderItems"].append(p). *)
Definition add_item (it : ItemColumns) (p : ProcessingSaleItem)
    (o : order_data) : order_data :=
  {| od_id := od_id o;
     od_date := od_date o;
     od_status := od_status o;
     od_orderType := od_orderType o;
     od_paymentMethod := od_paymentMethod o;
     od_cashierName := od_cashierName o;
     od_GCashReferenceNumber := od_GCashReferenceNumber o;
     od_items := od_items o + item_quantity it;
     od_orderItems := od_orderItems o ++ [p];
     od_totalDiscount := od_totalDiscount o |}.

(** The two dictionaries of the loop. *)
Definition agg_state : Type := (dict order_data * dict Decimal)%type.

(** One iteration of [for row in rows]; [None] when the iteration raises,
    which ends the scan: the dictionaries it leaves are not read again. *)
Definition scan_row (with_gcash : bool) (st : agg_state) (row : Row)
  : option agg_state :=
  let '(orders_dict, item_subtotals) := st in
  let sale_id := SaleID row in
  let '(orders_dict, item_subtotals) :=
    if negb (dict_mem orders_dict sale_id)
    then (dict_set orders_dict sale_id (new_order_data with_gcash row),
          dict_set item_subtotals sale_id zero_1)
    else (orders_dict, item_subtotals) in
  match has_item row with
  | Some it =>
      match sale_item_of it with
      | Some p =>
          match dict_get orders_dict sale_id,
                dict_get item_subtotals sale_id with
          | Some o, Some sub_ =>
              Some (dict_set orders_dict sale_id (add_item it p o),
                    dict_set item_subtotals sale_id
                      (add sub_ (mul (item_price it)
                                   (of_int (item_quantity it)))))
          | _, _ => Some (orders_dict, item_subtotals)
          end
      | None => None
      end
  | None => Some (orders_dict, item_subtotals)
  end.

Definition scan_rows (with_gcash : bool) (rows : list Row)
  : option agg_state :=
  fold_left
    (fun st row =>
       match st with
       | Some st => scan_row with_gcash st row
       | None => None
       end)
    rows (Some ([], [])).

(** One iteration of [for sale_id, order_data in orders_dict.items()]. *)
Definition finish_order (item_subtotals : dict Decimal)
    (entry : Z * order_data) : ProcessingOrder :=
  let '(sale_id, o) := entry in
  let subtotal :=
    match dict_get item_subtotals sale_id with
    | Some d => d
    | None => zero_1
    end in
  let final_total := sub subtotal (od_totalDiscount o) in
  {| id := od_id o;
     date := od_date o;
     items := od_items o;
     total := float_of_Decimal final_total;
     status := od_status o;
     orderType := od_orderType o;
     paymentMethod := od_paymentMethod o;
     cashierName := od_cashierName o;
     gcashReferenceNumber := od_GCashReferenceNumber o;
     orderItems := od_orderItems o |}.

(** The aggregation shared by get_processing_orders ([with_gcash] false:
    the query does not select GCashReferenceNumber), get_all_orders and
    get_todays_cancelled_orders; [None] when an exception ends it, which
    the [except Exception] of each handler turns into a 500. *)
Definition aggregate (with_gcash : bool) (rows : list Row)
  : option (list ProcessingOrder) :=
  match scan_rows with_gcash rows with
  | Some (orders_dict, item_subtotals) =>
      Some (map (finish_order item_subtotals) orders_dict)
  | None => None
  end.
End Aggregator.

(* ===================================================================== *)
(** ** The relational store *)
(* ===================================================================== *)

(** The tables the handlers read and write (database.py and the schema are
    outside the sources; the columns are those named in the SQL text).
    Timestamps are seconds on the store's clock, and a column to which
    every INSERT of the sources binds a value is not nullable here; the
    category and the add-ons of an item are nullable, since
    save_online_order may bind None to them.  String comparison is exact:
    the store's collation is not modelled. *)
Record Sale : Type := mkSale {
  s_SaleID : Z;
  s_OrderType : string;
  s_PaymentMethod : string;
  s_CashierName : string;
  s_TotalDiscountAmount : Decimal;
  s_Status : string;
  s_GCashReferenceNumber : option string;
  s_CreatedAt : Z;
  s_UpdatedAt : option Z
}.

Record SaleItem : Type := mkSaleItem {
  si_SaleItemID : Z;
  si_SaleID : Z;
  si_ItemName : string;
  si_Quantity : Z;
  si_UnitPrice : Decimal;
  si_Category : option string;
  si_Addons : option string
}.

Record CancelledOrder : Type := mkCancelledOrder {
  co_SaleID : Z;
  co_ManagerUsername : string;
  co_CancelledAt : Z
}.

(** InitialCash is written from a finite float of the request; a finite
    float is a rational number.  ClosingCash and CashSalesAtClose hold the
    Decimals bound to the UPDATE of close_session; the types of the two
    columns are not in the sources, so what a column of a given scale
    keeps of its parameter is a matter of the properties
    ([nearest_at_scale]), not of the table. *)
Record CashierSession : Type := mkCashierSession {
  cs_SessionID : Z;
  cs_CashierName : string;
  cs_Status : string;
  cs_InitialCash : Q;
  cs_SessionStart : Z;
  cs_SessionEnd : option Z;
  cs_ClosingCash : option Decimal;
  cs_CashSalesAtClose : option Decimal
}.

Record Store : Type := mkStore {
  Sales : list Sale;
  SaleItems : list SaleItem;
  CancelledOrders : list CancelledOrder;
  CashierSessions : list CashierSession
}.

(** CAST(t AS DATE): the day a timestamp falls on. *)
Definition date_of (t : Z) : Z := t / 86400.

(** ORDER BY: a stable insertion sort by a total preorder. *)
Section OrderBy.
Context {A : Type} (leb : A -> A -> bool).

Fixpoint insert_by (x : A) (l : list A) : list A :=
  match l with
  | [] => [x]
  | y :: l' => if leb x y then x :: l else y :: insert_by x l'
  end.

Definition order_by (l : list A) : list A := fold_right insert_by [] l.
End OrderBy.

(** The authenticated caller, as the auth service describes it. *)
Record User : Type := mkUser {
  username : option string;
  userRole : option string;
  access_token : string
}.

(** [current_user.get("userRole") in allowed_roles] *)
Definition role_in (u : User) (allowed_roles : list string) : bool :=
  match userRole u with
  | Some r => str_in r allowed_roles
  | None => false
  end.

(** Sales LEFT JOIN SaleItems ON s.SaleID = si.SaleID, for one sale. *)
Definition row_of (s : Sale) (it : option SaleItem) : Row :=
  {| SaleID := s_SaleID s;
     OrderType := s_OrderType s;
     PaymentMethod := s_PaymentMethod s;
     CreatedAt := s_CreatedAt s;
     CashierName := s_CashierName s;
     TotalDiscountAmount := s_TotalDiscountAmount s;
     Status := s_Status s;
     GCashReferenceNumber := s_GCashReferenceNumber s;
     item := match it with
             | Some i =>
                 Some {| SaleItemID := si_SaleItemID i;
                         ItemName := si_ItemName i;
                         Quantity := Some (si_Quantity i);
                         UnitPrice := Some (si_UnitPrice i);
                         Category := si_Category i;
                         Addons := si_Addons i |}
             | None => None
             end |}.

Definition items_of (st : Store) (sale_id : Z) : list SaleItem :=
  filter (fun i => si_SaleID i =? sale_id) (SaleItems st).

(** Sales LEFT JOIN SaleItems ON s.SaleID = si.SaleID, for one sale: the
    sale with each of its items, or with no item when it has none.  The
    order of the pairs is immaterial: the engine rearranges them. *)
Definition left_join_items (st : Store) (s : Sale)
  : list (Sale * option SaleItem) :=
  match items_of st (s_SaleID s) with
  | [] => [(s, None)]
  | its => map (fun i => (s, Some i)) its
  end.

(** The fetched row of a joined pair. *)
Definition joined_row (p : Sale * option SaleItem) : Row :=
  row_of (fst p) (snd p).

(** The rows of a query come in an order of the engine's choosing
    wherever the ORDER BY clause leaves them tied (the item rows of one
    sale always are: the queries order by sale or cancellation columns
    only).  The engine produces the joined rows in some order, any
    rearrangement [scan_order] of them, and ORDER BY sorts them, keeping
    tied rows as they were produced; every sorted rearrangement of the
    joined rows is the result under some engine. *)
Class SqlEngine : Type := {
  scan_order : forall A : Type, list A -> list A;
  scan_order_perm :
    forall (A : Type) (l : list A), Permutation (scan_order A l) l
}.
Arguments scan_order {SqlEngine A} l.

(** WHERE s.Status IN ('processing', 'completed', 'cancelled') *)
Definition status_listed (s : Sale) : bool :=
  str_in (s_Status s) ["processing"; "completed"; "cancelled"].

(** [s.CashierName = ?] with a bound parameter; a NULL parameter makes the
    comparison unknown, which selects no row. *)
Definition cashier_is (param : option string) (s : Sale) : bool :=
  match param with
  | Some n => String.eqb (s_CashierName s) n
  | None => false
  end.

(** ORDER BY s.CreatedAt ASC, s.SaleID ASC *)
Definition created_asc (a b : Sale) : bool :=
  (s_CreatedAt a <? s_CreatedAt b)
  || ((s_CreatedAt a =? s_CreatedAt b) && (s_SaleID a <=? s_SaleID b)).

(** ORDER BY s.CreatedAt DESC, s.SaleID DESC *)
Definition created_desc (a b : Sale) : bool := created_asc b a.

(* ===================================================================== *)
(** ** Order queries (purchase_order.py, cancelled_order.py) *)
(* ===================================================================== *)

Section OrderQueries.
Context {RT : PyRuntime} {E : SqlEngine}.

(** The WHERE clause get_processing_orders builds: [None] when no
    cashier condition is appended, [Some p] when [s.CashierName = ?] is
    appended with parameter [p]. *)
Definition processing_filter (cashierName : option string) (u : User)
  : option (option string) :=
  if role_in u ["admin"; "manager"]
  then match cashierName with
       | Some n => if String.eqb n "" then None else Some (Some n)
       | None => None
       end
  else Some (username u).

Definition processing_rows (st : Store) (flt : option (option string))
  : list Row :=
  let selected :=
    filter (fun s => status_listed s
                     && match flt with
                        | Some p => cashier_is p s
                        | None => true
                        end) (Sales st) in
  map joined_row
    (order_by (fun a b => created_asc (fst a) (fst b))
       (scan_order (flat_map (left_join_items st) selected))).

(** GET /auth/purchase_orders/status/processing *)
Definition get_processing_orders (cashierName : option string)
    (current_user : User) (st : Store) : http (list ProcessingOrder) :=
  if negb (role_in current_user ["admin"; "manager"; "staff"; "cashier"])
  then HTTPException 403 "You do not have permission to view orders."
  else
    let rows :=
      processing_rows st (processing_filter cashierName current_user) in
    match aggregate false rows with
    | Some response_list => Response 200 response_list
    | None => HTTPException 500 "Failed to fetch processing orders."
    end.

Definition all_rows (st : Store) : list Row :=
  map joined_row
    (order_by (fun a b => created_desc (fst a) (fst b))
       (scan_order
          (flat_map (left_join_items st)
             (filter status_listed (Sales st))))).

(** GET /auth/purchase_orders/all *)
Definition get_all_orders (current_user : User) (st : Store)
  : http (list ProcessingOrder) :=
  if negb (role_in current_user ["admin"; "manager"])
  then HTTPException 403 "You do not have permission to view all orders."
  else
    match aggregate true (all_rows st) with
    | Some response_list => Response 200 response_list
    | None => HTTPException 500 "Failed to fetch all orders."
    end.

(** Sales JOIN CancelledOrders ON s.SaleID = co.SaleID for the sales and
    the records the WHERE clause keeps. *)
Definition cancelled_today_pairs (st : Store) (cashier : string) (now : Z)
  : list (Sale * CancelledOrder) :=
  flat_map
    (fun s =>
       map (fun co => (s, co))
         (filter (fun co => (co_SaleID co =? s_SaleID s)
                            && (date_of (co_CancelledAt co)
                                =? date_of now))
            (CancelledOrders st)))
    (filter (fun s => String.eqb (s_Status s) "cancelled"
                      && String.eqb (s_CashierName s) cashier)
       (Sales st)).

(** ... LEFT JOIN SaleItems ... ORDER BY co.CancelledAt DESC *)
Definition cancelled_today_rows (st : Store) (cashier : string) (now : Z)
  : list Row :=
  map (fun t => joined_row (snd t))
    (order_by (fun a b => co_CancelledAt (fst b) <=? co_CancelledAt (fst a))
       (scan_order
          (flat_map
             (fun p => map (pair (snd p)) (left_join_items st (fst p)))
             (cancelled_today_pairs st cashier now)))).

(** POST /auth/cancelled_orders/today *)
Definition get_todays_cancelled_orders (cashierName : string)
    (current_user : User) (now : Z) (st : Store)
  : http (list ProcessingOrder) :=
  if negb (role_in current_user ["admin"; "manager"; "cashier"])
  then HTTPException 403 "You do not have permission to view this data."
  else
    match aggregate true (cancelled_today_rows st cashierName now) with
    | Some response_list => Response 200 response_list
    | None => HTTPException 500 "Failed to fetch today's cancelled orders."
    end.
End OrderQueries.

(* ===================================================================== *)
(** ** Order status update and restock fan-out (purchase_order.py) *)
(* ===================================================================== *)

(** UpdateOrderStatusRequest.  [newStatus] is one of the three literals;
    [cancelDetails] carries managerUsername when present. *)
Inductive OrderStatus : Type := completed | cancelled | processing.

Definition status_name (s : OrderStatus) : string :=
  match s with
  | completed => "completed"
  | cancelled => "cancelled"
  | processing => "processing"
  end.

Record UpdateOrderStatusRequest : Type := mkUpdateOrderStatusRequest {
  newStatus : OrderStatus;
  cancelDetails : option string
}.

(** One entry of the "cancelled_items" payload. *)
Record CancelledItem : Type := mkCancelledItem {
  product_name : string;
  cancelled_quantity : Z;
  cancelled_category : option string
}.

(** An outbound POST of the fan-out. *)
Record RestockCall : Type := mkRestockCall {
  url : string;
  bearer : string;
  cancelled_items : list CancelledItem
}.

(** What asyncio.gather(..., return_exceptions=True) collects for a call:
    the response, or the exception the call raised. *)
Inductive CallResult : Type :=
| Returned (status_code : Z) (text : string)
| Raised (exc : string).

Inductive LogEntry : Type :=
| RestockCallFailed (service : string) (exc : string)
| RestockRejected (service : string) (status_code : Z) (text : string).

Definition ingredients_url : string :=
  "http://127.0.0.1:8002/ingredients/restock-from-cancelled-order".
Definition materials_url : string :=
  "http://127.0.0.1:8002/materials/restock-from-cancelled-order".

(** What a handler leaves behind: its HTTP outcome, the committed store,
    the calls it issued to the inventory service and what it logged. *)
Record Outcome (A : Type) : Type := mkOutcome {
  result : http A;
  db : Store;
  sent : list RestockCall;
  logged : list LogEntry
}.
Arguments mkOutcome {A} result db sent logged.
Arguments result {A} o.
Arguments db {A} o.
Arguments sent {A} o.
Arguments logged {A} o.

(** order_id.split('-')[-1]: the part after the last '-'. *)
Fixpoint last_segment (s acc : string) : string :=
  match s with
  | EmptyString => acc
  | String c s' =>
      if Ascii.eqb c "-"%char then last_segment s' EmptyString
      else last_segment s' (acc ++ String c EmptyString)
  end.

(** UPDATE Sales SET Status = ?, UpdatedAt = GETDATE() WHERE SaleID = ? *)
Definition set_status (new_status : string) (now : Z) (sale_id : Z)
    (s : Sale) : Sale :=
  if s_SaleID s =? sale_id
  then {| s_SaleID := s_SaleID s;
          s_OrderType := s_OrderType s;
          s_PaymentMethod := s_PaymentMethod s;
          s_CashierName := s_CashierName s;
          s_TotalDiscountAmount := s_TotalDiscountAmount s;
          s_Status := new_status;
          s_GCashReferenceNumber := s_GCashReferenceNumber s;
          s_CreatedAt := s_CreatedAt s;
          s_UpdatedAt := Some now |}
  else s.

(** cursor.rowcount after that UPDATE *)
Definition rowcount (sale_id : Z) (st : Store) : nat :=
  List.length (filter (fun s => s_SaleID s =? sale_id) (Sales st)).

Definition update_sales (new_status : string) (now : Z) (sale_id : Z)
    (st : Store) : Store :=
  {| Sales := map (set_status new_status now sale_id) (Sales st);
     SaleItems := SaleItems st;
     CancelledOrders := CancelledOrders st;
     CashierSessions := CashierSessions st |}.

Definition same_cancellation (a b : CancelledOrder) : bool :=
  (co_SaleID a =? co_SaleID b)
  && String.eqb (co_ManagerUsername a) (co_ManagerUsername b)
  && (co_CancelledAt a =? co_CancelledAt b).

(** Modelled from the spec: the CancelledOrders table, whose schema is not
    in the sources.  A Cancellation Record is identified by (sale id,
    manager username, cancellation timestamp): the INSERT fails on a record
    with the identity of an existing one and appends the record otherwise. *)
Definition insert_cancellation (rec : CancelledOrder) (st : Store)
  : option Store :=
  if existsb (same_cancellation rec) (CancelledOrders st) then None
  else Some {| Sales := Sales st;
               SaleItems := SaleItems st;
               CancelledOrders := CancelledOrders st ++ [rec];
               CashierSessions := CashierSessions st |}.

Section StatusUpdate.
Context {RT : PyRuntime}.

Definition restock_payload (items_to_restock : list SaleItem)
  : list CancelledItem :=
  map (fun i => {| product_name := si_ItemName i;
                   cancelled_quantity := si_Quantity i;
                   cancelled_category := si_Category i |})
    items_to_restock.

(** The body of the inner try of the cancellation: UPDATE, INSERT,
    SELECT.  It ends with the store to commit and the fetched items. *)
Definition cancel_body (order_id : string) (parsed_id : Z)
    (manager : string) (now : Z) (st : Store)
  : attempt (Store * list SaleItem) :=
  if Nat.eqb (rowcount parsed_id st) 0
  then Raise (HTTPExc 404 ("Order '" ++ order_id ++ "' not found."))
  else
    let st1 := update_sales "cancelled" now parsed_id st in
    match insert_cancellation
            {| co_SaleID := parsed_id;
               co_ManagerUsername := manager;
               co_CancelledAt := now |} st1 with
    | None => Raise DBError
    | Some st2 => Done (st2, items_of st2 parsed_id)
    end.

(** for i, res in enumerate(results) *)
Definition restock_log_entry (i : nat) (res : CallResult) : list LogEntry :=
  let service := if Nat.eqb i 0 then "Ingredients" else "Materials" in
  match res with
  | Raised e => [RestockCallFailed service e]
  | Returned code text =>
      if code =? 200 then [] else [RestockRejected service code text]
  end.

Fixpoint restock_log (i : nat) (results : list CallResult) : list LogEntry :=
  match results with
  | [] => []
  | res :: results' => restock_log_entry i res ++ restock_log (S i) results'
  end.

(** The body of the answer to a cancellation. *)
Definition cancelled_message : string :=
  "Order has been cancelled and inventory restock initiated.".

Definition failed {A} (code : Z) (detail : string) (st : Store)
  : Outcome A :=
  mkOutcome (HTTPException code detail) st [] [].

(** PATCH /auth/purchase_orders/{order_id}/status.  [network] answers the
    calls of the fan-out; both calls are created before either answer is
    looked at. *)
Definition update_order_status (order_id : string)
    (request : UpdateOrderStatusRequest) (current_user : User)
    (now : Z) (network : RestockCall -> CallResult) (st : Store)
  : Outcome string :=
  if negb (role_in current_user ["admin"; "manager"; "staff"; "cashier"])
  then failed 403 "Permission denied." st
  else
    match py_int (last_segment order_id "") with
    | None => failed 400 "Invalid order ID format." st
    | Some parsed_id =>
        match newStatus request with
        | cancelled =>
            match cancelDetails request with
            | None =>
                failed 400 "Manager username required for cancellation." st
            | Some manager =>
                if String.eqb manager "" then
                  failed 400 "Manager username required for cancellation."
                    st
                else
                  match cancel_body order_id parsed_id manager now st with
                  | Raise _ =>
                      (* except Exception: rollback *)
                      failed 500 "Failed to save cancellation to DB." st
                  | Done (st', items_to_restock) =>
                      match items_to_restock with
                      | [] =>
                          mkOutcome (Response 200 cancelled_message) st' [] []
                      | _ :: _ =>
                          let payload := restock_payload items_to_restock in
                          let token := access_token current_user in
                          let tasks :=
                            [ {| url := ingredients_url;
                                 bearer := token;
                                 cancelled_items := payload |};
                              {| url := materials_url;
                                 bearer := token;
                                 cancelled_items := payload |} ] in
                          let results := map network tasks in
                          mkOutcome (Response 200 cancelled_message) st'
                            tasks (restock_log 0 results)
                      end
                  end
            end
        | other =>
            if Nat.eqb (rowcount parsed_id st) 0
            then failed 404 ("Order '" ++ order_id ++ "' not found.") st
            else
              mkOutcome
                (Response 200
                   ("Order status successfully updated to '"
                    ++ status_name other ++ "'."))
                (update_sales (status_name other) now parsed_id st) [] []
        end
    end.
End StatusUpdate.

(* ===================================================================== *)
(** ** Cashier sessions (session.py) *)
(* ===================================================================== *)

(** The value of a field of a JSON response body. *)
Inductive JValue : Type :=
| JStr (s : string)
| JInt (n : Z).

(** A JSON object: the dict a handler returns. *)
Definition JObject : Type := list (string * JValue).

Fixpoint field (body : JObject) (key : string) : option JValue :=
  match body with
  | [] => None
  | (k, v) :: body' => if String.eqb k key then Some v else field body' key
  end.

(** WHERE CashierName = ? AND Status = 'Active' *)
Definition active_for (cashier_name : string) (cs : CashierSession) : bool :=
  String.eqb (cs_CashierName cs) cashier_name
  && String.eqb (cs_Status cs) "Active".

Definition active_sessions (cashier_name : string) (st : Store)
  : list CashierSession :=
  filter (active_for cashier_name) (CashierSessions st).

(** Modelled from the spec: the identity column SessionID of the
    CashierSessions table, whose schema is not in the sources; a new row
    takes an id above every id in the table. *)
Definition next_session_id (st : Store) : Z :=
  1 + fold_right Z.max 0 (map cs_SessionID (CashierSessions st)).

(** Modelled from the spec: the column defaults of the CashierSessions
    table, whose schema is not in the sources; a session is created with
    status Active and its start stamped with the store's clock.  The
    statement is
    INSERT INTO CashierSessions (CashierName, InitialCash) VALUES (?, ?). *)
Definition insert_session (cashier_name : string) (initial_cash : Q)
    (now : Z) (st : Store) : Store :=
  {| Sales := Sales st;
     SaleItems := SaleItems st;
     CancelledOrders := CancelledOrders st;
     CashierSessions :=
       CashierSessions st ++
       [ {| cs_SessionID := next_session_id st;
            cs_CashierName := cashier_name;
            cs_Status := "Active";
            cs_InitialCash := initial_cash;
            cs_SessionStart := now;
            cs_SessionEnd := None;
            cs_ClosingCash := None;
            cs_CashSalesAtClose := None |} ] |}.

(** POST /session/start, run with no other request writing between its
    SELECT and its INSERT.  [user_data] is what the auth service returned
    for the token; the role check is that of validate_token_and_roles. *)
Definition start_session (initial_cash : Q) (user_data : User) (now : Z)
    (st : Store) : http JObject * Store :=
  match userRole user_data with
  | None =>
      (HTTPException 403
         "Access denied. Role 'None' is not authorized for this action.", st)
  | Some role =>
      if negb (str_in role ["cashier"; "manager"; "admin"]) then
        (HTTPException 403
           ("Access denied. Role '" ++ role
            ++ "' is not authorized for this action."), st)
      else
        match username user_data with
        | None =>
            (HTTPException 400 "Username not found in authentication token.",
             st)
        | Some cashier_name =>
            if String.eqb cashier_name "" then
              (HTTPException 400
                 "Username not found in authentication token.", st)
            else if Qlt_le_dec initial_cash 0 then
              (HTTPException 400 "Initial cash amount cannot be negative.",
               st)
            else
              match active_sessions cashier_name st with
              | _ :: _ =>
                  (HTTPException 409
                     "An active session already exists for this cashier.",
                   st)
              | [] =>
                  (Response 201
                     [("message",
                       JStr ("Cashier session for '" ++ cashier_name
                             ++ "' started successfully."))],
                   insert_session cashier_name initial_cash now st)
              end
        end
  end.

(** start_session in its two steps.  The handler is a coroutine on a
    connection of its own and awaits the database at every statement, so
    another request can run between two of them.  First it reads
    (the role, the username and the amount, then SELECT 1 ... WHERE
    CashierName = ? AND Status = 'Active'), which ends in an error or in
    the cashier name to insert. *)
Definition start_session_check (initial_cash : Q) (user_data : User)
    (st : Store) : http JObject + string :=
  match userRole user_data with
  | None =>
      inl (HTTPException 403
             "Access denied. Role 'None' is not authorized for this action.")
  | Some role =>
      if negb (str_in role ["cashier"; "manager"; "admin"]) then
        inl (HTTPException 403
               ("Access denied. Role '" ++ role
                ++ "' is not authorized for this action."))
      else
        match username user_data with
        | None =>
            inl (HTTPException 400
                   "Username not found in authentication token.")
        | Some cashier_name =>
            if String.eqb cashier_name "" then
              inl (HTTPException 400
                     "Username not found in authentication token.")
            else if Qlt_le_dec initial_cash 0 then
              inl (HTTPException 400
                     "Initial cash amount cannot be negative.")
            else
              match active_sessions cashier_name st with
              | _ :: _ =>
                  inl (HTTPException 409
                         "An active session already exists for this cashier.")
              | [] => inr cashier_name
              end
        end
  end.

(** Then it writes (INSERT INTO CashierSessions ..., commit) on the store
    as it is by then, which other requests may have written to since the
    check. *)
Definition start_session_write (cashier_name : string) (initial_cash : Q)
    (now : Z) (st : Store) : http JObject * Store :=
  (Response 201
     [("message",
       JStr ("Cashier session for '" ++ cashier_name
             ++ "' started successfully."))],
   insert_session cashier_name initial_cash now st).

(* ===================================================================== *)
(** ** Cash tally (cash_tally.py) *)
(* ===================================================================== *)

(** A value of the denominations table: an int literal, or a float literal
    given by its exact ratio [n / 2^k]. *)
Inductive Number : Type :=
| Int (n : Z)
| Float (n : Z) (k : Z).

(** The literals 0.25, 0.10 and 0.05 as binary64 numbers:
    0.25 = 1/2^2, 0.10 = 3602879701896397/2^55 and
    0.05 = 3602879701896397/2^56. *)
Definition denominations : list (string * Number) :=
  [ ("bills1000", Int 1000); ("bills500", Int 500); ("bills200", Int 200);
    ("bills100", Int 100); ("bills50", Int 50); ("bills20", Int 20);
    ("coins10", Int 10); ("coins5", Int 5); ("coins1", Int 1);
    ("cents25", Float 1 2);
    ("cents10", Float 3602879701896397 55);
    ("cents05", Float 3602879701896397 56) ].

(** Decimal(x) for a value of the table. *)
Definition Decimal_of (x : Number) : Decimal :=
  match x with
  | Int n => of_int n
  | Float n k => of_float_ratio n k
  end.

Fixpoint denomination (key : string) (table : list (string * Number))
  : option Number :=
  match table with
  | [] => None
  | (k, v) :: table' =>
      if String.eqb k key then Some v else denomination key table'
  end.

(** One iteration of [for key, count in request.cashCounts.items()]. *)
Definition count_entry (closing_cash : Decimal) (entry : string * Z)
  : Decimal :=
  match denomination (fst entry) denominations with
  | Some v => add closing_cash (mul (Decimal_of v) (of_int (snd entry)))
  | None => closing_cash
  end.

Definition counted_cash (cashCounts : list (string * Z)) : Decimal :=
  fold_left count_entry cashCounts (of_int 0).

(** CloseSessionRequest: the dict cashCounts in insertion order. *)
Record CloseSessionRequest : Type := mkCloseSessionRequest {
  sessionId : Z;
  cashCounts : list (string * Z)
}.

(** SELECT ... FROM CashierSessions WHERE SessionID = ? AND Status = 'Active' *)
Definition find_active_session (session_id : Z) (st : Store)
  : option CashierSession :=
  find (fun cs => (cs_SessionID cs =? session_id)
                  && String.eqb (cs_Status cs) "Active")
    (CashierSessions st).

(** The rows of Sales JOIN SaleItems that the cash-sales query sums over. *)
Definition cash_sale_items (cashier : string) (since : Z) (st : Store)
  : list SaleItem :=
  flat_map
    (fun s => items_of st (s_SaleID s))
    (filter (fun s => String.eqb (s_CashierName s) cashier
                      && String.eqb (s_PaymentMethod s) "Cash"
                      && String.eqb (s_Status s) "completed"
                      && (since <=? s_CreatedAt s))
       (Sales st)).

(** ISNULL(SUM(si.UnitPrice * si.Quantity), 0): the store's arithmetic is
    exact. *)
Definition sum_line_totals (its : list SaleItem) : Decimal :=
  fold_left
    (fun acc i =>
       add_exact acc
         (mkDecimal (coefficient (si_UnitPrice i) * si_Quantity i)
                    (exponent (si_UnitPrice i))))
    its (of_int 0).

(** UPDATE CashierSessions SET Status = 'Closed', SessionEnd = GETDATE(),
    ClosingCash = ?, CashSalesAtClose = ? WHERE SessionID = ? *)
Definition close_row (session_id : Z) (now : Z)
    (closing_cash cash_sales_at_close : Decimal) (cs : CashierSession)
  : CashierSession :=
  if cs_SessionID cs =? session_id
  then {| cs_SessionID := cs_SessionID cs;
          cs_CashierName := cs_CashierName cs;
          cs_Status := "Closed";
          cs_InitialCash := cs_InitialCash cs;
          cs_SessionStart := cs_SessionStart cs;
          cs_SessionEnd := Some now;
          cs_ClosingCash := Some closing_cash;
          cs_CashSalesAtClose := Some cash_sales_at_close |}
  else cs.

(** The body of the try of close_session. *)
Definition close_session_body (request : CloseSessionRequest) (now : Z)
    (st : Store) : attempt (JObject * Store) :=
  match find_active_session (sessionId request) st with
  | None =>
      Raise (HTTPExc 404 "No active session found with the provided ID.")
  | Some session_row =>
      let cash_sales_at_close :=
        sum_line_totals
          (cash_sale_items (cs_CashierName session_row)
             (cs_SessionStart session_row) st) in
      let closing_cash := counted_cash (cashCounts request) in
      Done
        ([("message", JStr "Session closed successfully");
          ("sessionId", JInt (sessionId request))],
         {| Sales := Sales st;
            SaleItems := SaleItems st;
            CancelledOrders := CancelledOrders st;
            CashierSessions :=
              map (close_row (sessionId request) now closing_cash
                     cash_sales_at_close) (CashierSessions st) |})
  end.

(** POST /auth/cash_tally/close_session.  The handler's only except clause
    is [except Exception], which also catches the HTTPException raised
    inside the try. *)
Definition close_session (request : CloseSessionRequest)
    (current_user : User) (now : Z) (st : Store) : http JObject * Store :=
  if negb (role_in current_user ["admin"; "manager"; "cashier"])
  then (HTTPException 403 "Permission denied.", st)
  else
    match close_session_body request now st with
    | Done (body, st') => (Response 200 body, st')
    | Raise _ =>
        (HTTPException 500 "An error occurred while closing the session.",
         st)
    end.

(* ===================================================================== *)
(** ** Top products (top_products.py) *)
(* ===================================================================== *)

Record TopProductItem : Type := mkTopProductItem {
  tp_name : string;
  sales : Z
}.

(** WHERE s.Status = 'completed' AND s.CashierName = ?
      AND CAST(s.CreatedAt AS DATE) = CAST(GETDATE() AS DATE) *)
Definition completed_today (cashier : string) (now : Z) (s : Sale) : bool :=
  String.eqb (s_Status s) "completed"
  && String.eqb (s_CashierName s) cashier
  && (date_of (s_CreatedAt s) =? date_of now).

(** The rows of Sales JOIN SaleItems the query groups. *)
Definition sold_today (cashier : string) (now : Z) (st : Store)
  : list SaleItem :=
  flat_map (fun s => items_of st (s_SaleID s))
    (filter (completed_today cashier now) (Sales st)).

(** GROUP BY si.ItemName with SUM(si.Quantity): one group per name, in the
    order the names first occur. *)
Fixpoint add_to_group (nm : string) (q : Z) (groups : list (string * Z))
  : list (string * Z) :=
  match groups with
  | [] => [(nm, q)]
  | (n', q') :: groups' =>
      if String.eqb n' nm then (n', q' + q) :: groups'
      else (n', q') :: add_to_group nm q groups'
  end.

Definition group_by_name (its : list SaleItem) : list (string * Z) :=
  fold_left (fun g i => add_to_group (si_ItemName i) (si_Quantity i) g)
    its [].

(** ORDER BY TotalQuantitySold DESC *)
Definition sold_desc (a b : string * Z) : bool := snd b <=? snd a.

(** SELECT TOP 10 ... *)
Definition top_products_rows (cashier : string) (now : Z) (st : Store)
  : list (string * Z) :=
  firstn 10 (order_by sold_desc (group_by_name (sold_today cashier now st))).

(** POST /auth/top_products/today *)
Definition get_top_products_today (cashierName : string)
    (current_user : User) (now : Z) (st : Store)
  : http (list TopProductItem) :=
  if negb (role_in current_user ["admin"; "manager"; "cashier"])
  then HTTPException 403 "Permission denied."
  else
    Response 200
      (map (fun row => {| tp_name := fst row; sales := snd row |})
         (top_products_rows cashierName now st)).

(* ===================================================================== *)
(** ** A runtime to evaluate the handlers with *)
(* ===================================================================== *)

(** An instance of the runtime for evaluating the handlers on concrete
    inputs: a float is stood for by the rational it would round, an add-on
    object by its text, which decodes when it opens with a brace, a
    timestamp by its number, and [int] reads an optionally signed digit
    string. *)
Definition plain_runtime : PyRuntime :=
  {| float := Q;
     float_of_Decimal := value;
     json := string;
     json_loads := fun s => match s with
                            | String "{" _ => Some s
                            | _ => None
                            end;
     json_empty := "{}";
     strftime := str_of_int;
     py_int := fun s => option_map Z.of_int (NilZero.int_of_string s) |}.

(** The engine that produces the joined rows in table order. *)
Definition table_order : SqlEngine :=
  {| scan_order := fun A l => l;
     scan_order_perm := fun A l => Permutation_refl l |}.

(** The engine that produces them in the reverse of the table order. *)
Definition reverse_order : SqlEngine :=
  {| scan_order := fun A l => rev l;
     scan_order_perm := fun A l => Permutation_sym (Permutation_rev l) |}.

Definition empty_store : Store :=
  {| Sales := []; SaleItems := []; CancelledOrders := [];
     CashierSessions := [] |}.

Definition cashier_ana : User :=
  {| username := Some "ana"; userRole := Some "cashier";
     access_token := "t0" |}.

(** A processing order SO-1 of cashier ana with two line items. *)
Definition one_order_store : Store :=
  {| Sales :=
       [ {| s_SaleID := 1; s_OrderType := "Dine in";
            s_PaymentMethod := "Cash"; s_CashierName := "ana";
            s_TotalDiscountAmount := mkDecimal 500 (-2);
            s_Status := "processing"; s_GCashReferenceNumber := None;
            s_CreatedAt := 86400; s_UpdatedAt := None |} ];
     SaleItems :=
       [ {| si_SaleItemID := 1; si_SaleID := 1; si_ItemName := "tea";
            si_Quantity := 3; si_UnitPrice := mkDecimal 4500 (-2);
            si_Category := Some "Drinks"; si_Addons := None |};
         {| si_SaleItemID := 2; si_SaleID := 1; si_ItemName := "bun";
            si_Quantity := 3; si_UnitPrice := mkDecimal 2550 (-2);
            si_Category := Some "Food"; si_Addons := None |} ];
     CancelledOrders := [];
     CashierSessions := [] |}.

(* ===================================================================== *)
(** ** What the aggregation is expected to produce *)
(* ===================================================================== *)

Local Open Scope list_scope.

(** The distinct keys of a sequence, in the order they are first seen. *)
Definition first_seen (ks : list Z) : list Z :=
  fold_left
    (fun (acc : list Z) k =>
       if existsb (Z.eqb k) acc then acc else (acc ++ [k])%list)
    ks [].

(** The item rows of order [k], in row order. *)
Definition key_items (k : Z) (rows : list Row) : list ItemColumns :=
  flat_map
    (fun r =>
       if SaleID r =? k
       then match has_item r with Some it => [it] | None => [] end
       else [])
    rows.

(** The first row of order [k]. *)
Definition first_row (k : Z) (rows : list Row) : option Row :=
  find (fun r => SaleID r =? k) rows.


Definition sum_Z (l : list Z) : Z := fold_right Z.add 0 l.

Section Expected.
Context {RT : PyRuntime}.

(** An item row can be shown: it has a category, and its add-ons are
    NULL, empty, or a text that decodes to a value the field accepts. *)
Definition item_converts (it : ItemColumns) : bool :=
  match Category it with
  | Some _ =>
      match Addons it with
      | Some a =>
          String.eqb a ""
          || match json_loads a with Some _ => true | None => false end
      | None => true
      end
  | None => false
  end.

(** Every row whose item key is neither NULL nor 0 can be shown. *)
Definition rows_convert (rows : list Row) : bool :=
  forallb
    (fun r =>
       match item r with
       | Some it => (SaleItemID it =? 0) || item_converts it
       | None => true
       end)
    rows.

(** What an item row is shown as: its name, its quantity (0 for NULL),
    the float of its unit price (of a zero for NULL), its category, and
    its decoded add-ons (the empty object for NULL or empty text). *)
Definition item_shown (it : ItemColumns) (p : ProcessingSaleItem) : Prop :=
  name p = ItemName it
  /\ quantity p = match Quantity it with Some q => q | None => 0 end
  /\ (exists d,
        price p = float_of_Decimal d
        /\ (value d
            == match UnitPrice it with Some u => value u | None => 0 end)%Q)
  /\ Category it = Some (category p)
  /\ match Addons it with
     | Some a =>
         if String.eqb a "" then addons p = json_empty
         else json_loads a = Some (addons p)
     | None => addons p = json_empty
     end.

(** The item appended for an item row that can be shown (for one that
    cannot, nothing is appended and the value here is immaterial). *)
Definition shown_item (it : ItemColumns) : ProcessingSaleItem :=
  match sale_item_of it with
  | Some p => p
  | None =>
      {| name := ItemName it;
         quantity := item_quantity it;
         price := float_of_Decimal (item_price it);
         category := "";
         addons := json_empty |}
  end.

(** The accumulator of order [k] once every row has been scanned: the
    order columns of its first row, and its items in row order. *)
Definition expected_order (with_gcash : bool) (rows : list Row) (k : Z)
  : option order_data :=
  match first_row k rows with
  | Some r =>
      Some (fold_left (fun o it => add_item it (shown_item it) o)
              (key_items k rows) (new_order_data with_gcash r))
  | None => None
  end.

(** The running subtotal after the item rows [its] of an order. *)
Definition running_subtotal (its : list ItemColumns) : Decimal :=
  fold_left
    (fun acc it => add acc (mul (item_price it) (of_int (item_quantity it))))
    its zero_1.

(** The entry of order [k] in item_subtotals once every row has been
    scanned. *)
Definition expected_subtotal (rows : list Row) (k : Z) : option Decimal :=
  match first_row k rows with
  | Some _ => Some (running_subtotal (key_items k rows))
  | None => None
  end.
End Expected.






Section Emitted.
Context {RT : PyRuntime}.

(** What the scan holds after the rows [rows]. *)
Definition scan_inv (with_gcash : bool) (rows : list Row) (st : agg_state)
  : Prop :=
  map fst (fst st) = first_seen (map SaleID rows)
  /\ map fst (snd st) = first_seen (map SaleID rows)
  /\ (forall k, dict_get (fst st) k = expected_order with_gcash rows k)
  /\ (forall k, dict_get (snd st) k = expected_subtotal rows k).

(** The order emitted for key [k]. *)
Definition emitted (with_gcash : bool) (rows : list Row) (k : Z)
    (o : ProcessingOrder) : Prop :=
  exists r,
    first_row k rows = Some r
    /\ id o = ("SO-" ++ str_of_int k)%string
    /\ date o = strftime (CreatedAt r)
    /\ status o = Status r
    /\ orderType o = OrderType r
    /\ paymentMethod o = PaymentMethod r
    /\ cashierName o = CashierName r
    /\ gcashReferenceNumber o
       = (if with_gcash then GCashReferenceNumber r else None)
    /\ items o = sum_Z (map item_quantity (key_items k rows))
    /\ orderItems o = map shown_item (key_items k rows)
    /\ total o
       = float_of_Decimal
           (sub (running_subtotal (key_items k rows))
              (TotalDiscountAmount r)).
End Emitted.

(* ===================================================================== *)
(** ** Sequences of status updates *)
(* ===================================================================== *)

(** One status-update request as the service receives it, with the
    store's clock at that moment and the inventory service's answers. *)
Record StatusUpdateCall : Type := mkStatusUpdateCall {
  call_order_id : string;
  call_request : UpdateOrderStatusRequest;
  call_user : User;
  call_now : Z;
  call_network : RestockCall -> CallResult
}.

Section Runs.
Context {RT : PyRuntime}.

Definition apply_call (c : StatusUpdateCall) (st : Store) : Outcome string :=
  update_order_status (call_order_id c) (call_request c) (call_user c)
    (call_now c) (call_network c) st.

(** The store after the requests are served one after the other. *)
Fixpoint run_calls (calls : list StatusUpdateCall) (st : Store) : Store :=
  match calls with
  | [] => st
  | c :: calls' => run_calls calls' (db (apply_call c st))
  end.

(** The Cancellation Record a request asks for: that of a status update
    to cancelled which names its order and its manager. *)
Definition cancellation_record (c : StatusUpdateCall)
  : option CancelledOrder :=
  match newStatus (call_request c),
        py_int (last_segment (call_order_id c) ""),
        cancelDetails (call_request c) with
  | cancelled, Some parsed_id, Some manager =>
      Some (mkCancelledOrder parsed_id manager (call_now c))
  | _, _, _ => None
  end.

(** The request is a cancellation of order [k] and it succeeds. *)
Definition cancels (k : Z) (c : StatusUpdateCall) (st : Store) : bool :=
  match cancellation_record c, result (apply_call c st) with
  | Some rec, Response _ _ => co_SaleID rec =? k
  | _, _ => false
  end.

(** How many requests of the sequence are successful cancellations of
    order [k]. *)
Fixpoint cancellations_of (k : Z) (calls : list StatusUpdateCall)
    (st : Store) : nat :=
  match calls with
  | [] => 0
  | c :: calls' =>
      ((if cancels k c st then 1 else 0)
       + cancellations_of k calls' (db (apply_call c st)))%nat
  end.
End Runs.

(** The Cancellation Records of order [k]. *)
Definition records_of (k : Z) (st : Store) : list CancelledOrder :=
  filter (fun co => co_SaleID co =? k) (CancelledOrders st).

Definition manager_bea : User :=
  {| username := Some "bea"; userRole := Some "manager";
     access_token := "t1" |}.

Definition no_answer (c : RestockCall) : CallResult := Raised "ConnectError".

(** Two cancellation requests for SO-1, at times 100 and 200. *)
Definition cancel_twice : list StatusUpdateCall :=
  [ {| call_order_id := "SO-1";
       call_request := {| newStatus := cancelled;
                          cancelDetails := Some "bea" |};
       call_user := manager_bea; call_now := 100;
       call_network := no_answer |};
    {| call_order_id := "SO-1";
       call_request := {| newStatus := cancelled;
                          cancelDetails := Some "bea" |};
       call_user := manager_bea; call_now := 200;
       call_network := no_answer |} ].

(** The part of the store that belongs to the caller: the sales whose
    cashier name is the caller's username, and their items. *)
Definition own_sales (u : User) (st : Store) : Store :=
  {| Sales := filter (cashier_is (username u)) (Sales st);
     SaleItems :=
       filter
         (fun i =>
            existsb (fun s => cashier_is (username u) s
                              && (s_SaleID s =? si_SaleID i)) (Sales st))
         (SaleItems st);
     CancelledOrders := [];
     CashierSessions := [] |}.

(* ===================================================================== *)
(** ** Sample data and auxiliary functions of the properties *)
(* ===================================================================== *)

(** The monetary values of the Cash Denomination Table as the
    specification words them, in centavos. *)
Definition spec_denomination_centavos : list (string * Z) :=
  [ ("bills1000", 100000); ("bills500", 50000); ("bills200", 20000);
    ("bills100", 10000); ("bills50", 5000); ("bills20", 2000);
    ("coins10", 1000); ("coins5", 500); ("coins1", 100);
    ("cents25", 25); ("cents10", 10); ("cents05", 5) ].

Fixpoint spec_centavos_in (table : list (string * Z)) (key : string) : Z :=
  match table with
  | [] => 0
  | (k, v) :: table' =>
      if String.eqb k key then v else spec_centavos_in table' key
  end.

(** The counted cash the specification expects, in centavos:
    denominationValue times count over the recognized keys. *)
Definition spec_counted_centavos (cashCounts : list (string * Z)) : Z :=
  sum_Z (map (fun e => spec_centavos_in spec_denomination_centavos (fst e)
                       * snd e) cashCounts).

Definition gross_centavos (cashCounts : list (string * Z)) : Z :=
  sum_Z (map (fun e => Z.abs (spec_centavos_in spec_denomination_centavos
                                (fst e) * snd e)) cashCounts).

(** Two item rows of order 1 and an order 2 without items. *)
Definition sample_rows : list Row :=
  [ row_of (mkSale 1 "Dine in" "Cash" "ana" (mkDecimal 500 (-2)) "processing"
              None 86400 None)
      (Some (mkSaleItem 1 1 "tea" 3 (mkDecimal 4500 (-2)) (Some "Drinks") None));
    row_of (mkSale 2 "Take out" "GCash" "ana" (mkDecimal 0 (-2)) "completed"
              None 86500 None) None;
    row_of (mkSale 1 "Dine in" "Cash" "ana" (mkDecimal 500 (-2)) "processing"
              None 86400 None)
      (Some (mkSaleItem 2 1 "bun" 3 (mkDecimal 2550 (-2)) (Some "Food") None)) ].


(** A store whose only session, of id 7, is Closed. *)
Definition closed_session_store : Store :=
  {| Sales := []; SaleItems := []; CancelledOrders := [];
     CashierSessions :=
       [ {| cs_SessionID := 7; cs_CashierName := "ana";
            cs_Status := "Closed"; cs_InitialCash := 100 # 1;
            cs_SessionStart := 86400; cs_SessionEnd := Some 90000;
            cs_ClosingCash := Some (of_int 710);
            cs_CashSalesAtClose := Some (of_int 610) |} ] |}.

(** Session 7 of cashier ana is Active. *)
Definition open_session_store : Store :=
  {| Sales := Sales one_order_store;
     SaleItems := SaleItems one_order_store;
     CancelledOrders := [];
     CashierSessions :=
       [ {| cs_SessionID := 7; cs_CashierName := "ana";
            cs_Status := "Active"; cs_InitialCash := 100 # 1;
            cs_SessionStart := 86400; cs_SessionEnd := None;
            cs_ClosingCash := None; cs_CashSalesAtClose := None |} ] |}.

(** The quantity sold under a name. *)
Definition quantity_sold (nm : string) (its : list SaleItem) : Z :=
  sum_Z (map si_Quantity
           (filter (fun i => String.eqb (si_ItemName i) nm) its)).

Fixpoint group_get (groups : list (string * Z)) (nm : string) : option Z :=
  match groups with
  | [] => None
  | (n', q') :: groups' =>
      if String.eqb n' nm then Some q' else group_get groups' nm
  end.

(** Two names sold three times each today. *)
Definition tied_store : Store :=
  {| Sales :=
       [ {| s_SaleID := 1; s_OrderType := "Dine in";
            s_PaymentMethod := "Cash"; s_CashierName := "ana";
            s_TotalDiscountAmount := mkDecimal 0 (-2);
            s_Status := "completed"; s_GCashReferenceNumber := None;
            s_CreatedAt := 86400; s_UpdatedAt := None |} ];
     SaleItems := SaleItems one_order_store;
     CancelledOrders := [];
     CashierSessions := [] |}.

(* ===================================================================== *)
(** ** Further definitions: listings, sessions, metrics *)
(* ===================================================================== *)

(** A row of an order 2 without items. *)
Definition order_2_row : Row :=
  row_of (mkSale 2 "Take out" "GCash" "ana" (mkDecimal 0 (-2)) "completed"
            None 86500 None) None.

(** Item keys come from an identity column that counts from 1. *)
Definition item_ids_nonzero (st : Store) : Prop :=
  forall i, In i (SaleItems st) -> si_SaleItemID i <> 0.

(** The item columns of a joined row. *)
Definition columns_of (i : SaleItem) : ItemColumns :=
  {| SaleItemID := si_SaleItemID i;
     ItemName := si_ItemName i;
     Quantity := Some (si_Quantity i);
     UnitPrice := Some (si_UnitPrice i);
     Category := si_Category i;
     Addons := si_Addons i |}.

Section Listed.
Context {RT : PyRuntime}.

(** What a listing shows of a sale: its order columns, the payment
    reference when the query selects it, the sum of the quantities of its
    items, and its items, each shown field by field, in an order of the
    engine's choosing. *)
Definition lists_sale (with_gcash : bool) (st : Store) (s : Sale)
    (o : ProcessingOrder) : Prop :=
  id o = ("SO-" ++ str_of_int (s_SaleID s))%string
  /\ date o = strftime (s_CreatedAt s)
  /\ status o = s_Status s
  /\ orderType o = s_OrderType s
  /\ paymentMethod o = s_PaymentMethod s
  /\ cashierName o = s_CashierName s
  /\ gcashReferenceNumber o
     = (if with_gcash then s_GCashReferenceNumber s else None)
  /\ items o = sum_Z (map si_Quantity (items_of st (s_SaleID s)))
  /\ exists its,
       Permutation its (items_of st (s_SaleID s))
       /\ Forall2 (fun i p => item_shown (columns_of i) p) its
            (orderItems o).

(** Every item of the sales can be shown. *)
Definition sales_convert (st : Store) (sales : list Sale) : bool :=
  forallb
    (fun s =>
       forallb (fun i => item_converts (columns_of i))
         (items_of st (s_SaleID s)))
    sales.
End Listed.

(** The caller is an admin or a manager. *)
Definition sees_all_cashiers (u : User) : Prop :=
  userRole u = Some "admin" \/ userRole u = Some "manager".

(** The sales a processing-orders request shows to its caller: those of a
    listed status, of the requested cashier if an admin or a manager
    names one, and of the caller's own username otherwise. *)
Definition shown_to (cashierName : option string) (u : User) (s : Sale)
  : Prop :=
  In (s_Status s) ["processing"; "completed"; "cancelled"]
  /\ (sees_all_cashiers u ->
      match cashierName with
      | Some n => n = ""%string \/ s_CashierName s = n
      | None => True
      end)
  /\ (~ sees_all_cashiers u -> username u = Some (s_CashierName s)).

(** The sales a processing-orders request selects. *)
Definition selected_sales (flt : option (option string)) (st : Store)
  : list Sale :=
  filter (fun s => status_listed s
                   && match flt with
                      | Some p => cashier_is p s
                      | None => true
                      end) (Sales st).

(** The items of joined pairs, in their order. *)
Definition pair_items (l : list (Sale * option SaleItem)) : list SaleItem :=
  flat_map (fun p => match snd p with Some i => [i] | None => [] end) l.

(** The joined pairs of sale [s]. *)
Definition of_sale {X : Type} (s : Sale) (p : Sale * X) : bool :=
  s_SaleID (fst p) =? s_SaleID s.

(** The rows of one sale: joined pairs that all carry the sale. *)
Definition group_of (s : Sale) (g : list (Sale * option SaleItem)) : Prop :=
  g <> [] /\ forall p, In p g -> fst p = s.

(** The fetched rows of the groups [G] of the sales [l]. *)
Definition group_rows (G : Sale -> list (Sale * option SaleItem))
    (l : list Sale) : list Row :=
  flat_map (fun s => map joined_row (G s)) l.

(** Sale [a] comes no later than sale [b] in the order of creation time
    and then id. *)
Definition created_before (a b : Sale) : Prop :=
  s_CreatedAt a < s_CreatedAt b
  \/ (s_CreatedAt a = s_CreatedAt b /\ s_SaleID a <= s_SaleID b).

(** The Cancellation Records of order [k] dated today. *)
Definition todays_records (k : Z) (now : Z) (st : Store)
  : list CancelledOrder :=
  filter (fun co => (co_SaleID co =? k)
                    && (date_of (co_CancelledAt co) =? date_of now))
    (CancelledOrders st).

(** SO-1 after the two cancellation requests: cancelled, with two
    Cancellation Records dated the same day. *)
Definition twice_cancelled_store : Store :=
  Eval vm_compute in
    run_calls (RT := plain_runtime) cancel_twice one_order_store.

(** The order columns a status update leaves alone. *)
Definition same_order_columns (s s' : Sale) : Prop :=
  s_SaleID s' = s_SaleID s
  /\ s_OrderType s' = s_OrderType s
  /\ s_PaymentMethod s' = s_PaymentMethod s
  /\ s_CashierName s' = s_CashierName s
  /\ s_TotalDiscountAmount s' = s_TotalDiscountAmount s
  /\ s_GCashReferenceNumber s' = s_GCashReferenceNumber s
  /\ s_CreatedAt s' = s_CreatedAt s.

(** A string without the separator of order ids. *)
Fixpoint no_dash (s : string) : bool :=
  match s with
  | EmptyString => true
  | String c s' => negb (Ascii.eqb c "-"%char) && no_dash s'
  end.

(** A completed order SO-2 of cashier ana that has no line item. *)
Definition itemless_store : Store :=
  {| Sales :=
       [ {| s_SaleID := 2; s_OrderType := "Take out";
            s_PaymentMethod := "GCash"; s_CashierName := "ana";
            s_TotalDiscountAmount := mkDecimal 0 (-2);
            s_Status := "completed"; s_GCashReferenceNumber := None;
            s_CreatedAt := 86500; s_UpdatedAt := None |} ];
     SaleItems := []; CancelledOrders := []; CashierSessions := [] |}.

(** An order SO-3 of cashier ana. *)
Definition order_3 : Sale :=
  {| s_SaleID := 3; s_OrderType := "Dine in";
     s_PaymentMethod := "Cash"; s_CashierName := "ana";
     s_TotalDiscountAmount := mkDecimal 0 (-2);
     s_Status := "processing"; s_GCashReferenceNumber := None;
     s_CreatedAt := 86600; s_UpdatedAt := None |}.

(** The order SO-1 and the order SO-3 with an item whose add-on text does
    not decode. *)
Definition undecodable_store : Store :=
  {| Sales := Sales one_order_store ++ [order_3];
     SaleItems :=
       SaleItems one_order_store ++
       [ {| si_SaleItemID := 3; si_SaleID := 3; si_ItemName := "pie";
            si_Quantity := 1; si_UnitPrice := mkDecimal 6000 (-2);
            si_Category := Some "Food"; si_Addons := Some "oops" |} ];
     CancelledOrders := []; CashierSessions := [] |}.

(** The value of a field of the session-status answer: the dict holds a
    bool, strings, the session id and the initial cash as the store has
    it. *)
Inductive StatusValue : Type :=
| SBool (b : bool)
| SStr (s : string)
| SInt (n : Z)
| SNum (q : Q).

Section SessionStatus.
(** datetime.isoformat of a timestamp of the store. *)
Variable isoformat : Z -> string.

(** GET /session/status.  [user_data] is what the auth service returned for
    the token; the role check is that of validate_token_and_roles.  The
    handler only reads: fetchone takes the first Active row of the
    cashier. *)
Definition get_session_status (cashier_name : string) (user_data : User)
    (st : Store) : http (list (string * StatusValue)) :=
  match userRole user_data with
  | None =>
      HTTPException 403
        "Access denied. Role 'None' is not authorized for this action."
  | Some role =>
      if negb (str_in role ["manager"; "admin"; "cashier"]) then
        HTTPException 403
          ("Access denied. Role '" ++ role
           ++ "' is not authorized for this action.")
      else
        match active_sessions cashier_name st with
        | active_session :: _ =>
            Response 200
              [("hasActiveSession", SBool true);
               ("cashierName", SStr cashier_name);
               ("sessionId", SInt (cs_SessionID active_session));
               ("initialCash", SNum (cs_InitialCash active_session));
               ("sessionStart",
                SStr (isoformat (cs_SessionStart active_session)))]
        | [] =>
            Response 200
              [("hasActiveSession", SBool false);
               ("cashierName", SStr cashier_name)]
        end
  end.
End SessionStatus.

(** Session ids are keys of the CashierSessions table. *)
Definition session_ids_unique (st : Store) : Prop :=
  NoDup (map cs_SessionID (CashierSessions st)).

(** No cashier has two Active sessions. *)
Definition one_active_session_each (st : Store) : Prop :=
  forall cashier_name,
    (List.length (active_sessions cashier_name st) <= 1)%nat.

(** The session row a successful start appends. *)
Definition started_row (cashier_name : string) (initial_cash : Q) (now : Z)
    (st : Store) : CashierSession :=
  {| cs_SessionID := next_session_id st;
     cs_CashierName := cashier_name;
     cs_Status := "Active";
     cs_InitialCash := initial_cash;
     cs_SessionStart := now;
     cs_SessionEnd := None;
     cs_ClosingCash := None;
     cs_CashSalesAtClose := None |}.

(** The columns of a session row that closing leaves alone. *)
Definition same_session_columns (cs cs' : CashierSession) : Prop :=
  cs_SessionID cs' = cs_SessionID cs
  /\ cs_CashierName cs' = cs_CashierName cs
  /\ cs_InitialCash cs' = cs_InitialCash cs
  /\ cs_SessionStart cs' = cs_SessionStart cs.

(** si.UnitPrice * si.Quantity *)
Definition line_total (i : SaleItem) : Decimal :=
  mkDecimal (coefficient (si_UnitPrice i) * si_Quantity i)
            (exponent (si_UnitPrice i)).

(** Sales JOIN SaleItems ON s.SaleID = si.SaleID for the sales a WHERE
    clause keeps: the pairs of a sale and one of its items. *)
Definition joined_sales (keep : Sale -> bool) (st : Store)
  : list (Sale * SaleItem) :=
  flat_map (fun s => map (pair s) (items_of st (s_SaleID s)))
    (filter keep (Sales st)).

(** ISNULL(SUM(CASE WHEN s.PaymentMethod = ? THEN si.UnitPrice * si.Quantity
    ELSE 0 END), 0): the store's arithmetic is exact. *)
Definition sum_paid_by (method : string) (rows : list (Sale * SaleItem))
  : Decimal :=
  fold_left
    (fun acc r =>
       add_exact acc
         (if String.eqb (s_PaymentMethod (fst r)) method
          then line_total (snd r) else of_int 0))
    rows (of_int 0).

Section SalesMetrics.
Context {RT : PyRuntime}.

Record SalesMetricsResponse : Type := mkSalesMetricsResponse {
  totalSales : float;
  cashSales : float;
  gcashSales : float;
  itemsSold : Z
}.

(** SalesMetricsResponse(totalSales=0.0, cashSales=0.0, gcashSales=0.0,
    itemsSold=0); the float 0.0 is the one float(0) gives. *)
Definition zero_metrics : SalesMetricsResponse :=
  {| totalSales := float_of_Decimal (of_int 0);
     cashSales := float_of_Decimal (of_int 0);
     gcashSales := float_of_Decimal (of_int 0);
     itemsSold := 0 |}.

(** The row of the four aggregates, which the query always returns, as
    the response built from it. *)
Definition metrics_of (rows : list (Sale * SaleItem))
  : SalesMetricsResponse :=
  {| totalSales := float_of_Decimal (sum_line_totals (map snd rows));
     cashSales := float_of_Decimal (sum_paid_by "Cash" rows);
     gcashSales := float_of_Decimal (sum_paid_by "GCash" rows);
     itemsSold := sum_Z (map (fun r => si_Quantity (snd r)) rows) |}.

(** WHERE s.Status = 'completed' AND s.CashierName = ?
      AND s.CreatedAt >= ? *)
Definition completed_since (cashier : string) (since : Z) (s : Sale) : bool :=
  String.eqb (s_Status s) "completed"
  && String.eqb (s_CashierName s) cashier
  && (since <=? s_CreatedAt s).

(** POST /auth/sales_metrics/current_session.  fetchone takes the first
    Active session row of the cashier. *)
Definition get_current_session_sales_metrics (cashierName : string)
    (current_user : User) (st : Store) : http SalesMetricsResponse :=
  if negb (role_in current_user ["admin"; "manager"; "cashier"])
  then HTTPException 403 "Permission denied."
  else
    match active_sessions cashierName st with
    | [] => Response 200 zero_metrics
    | session_row :: _ =>
        Response 200
          (metrics_of
             (joined_sales
                (completed_since cashierName (cs_SessionStart session_row))
                st))
    end.

(** POST /auth/sales_metrics/today *)
Definition get_todays_sales_metrics (cashierName : string)
    (current_user : User) (now : Z) (st : Store)
  : http SalesMetricsResponse :=
  if negb (role_in current_user ["admin"; "manager"; "cashier"])
  then HTTPException 403
         "You do not have permission to view sales metrics."
  else
    Response 200 (metrics_of (joined_sales (completed_today cashierName now)
                                st)).
End SalesMetrics.

(** The sum of rationals. *)
Definition sum_Q (l : list Q) : Q := fold_right Qplus 0%Q l.

(** The payment methods the metrics tell apart. *)
Definition cash_or_gcash (s : Sale) : Prop :=
  s_PaymentMethod s = "Cash" \/ s_PaymentMethod s = "GCash".

(** key in denominations *)
Definition known_denomination (entry : string * Z) : bool :=
  match denomination (fst entry) denominations with
  | Some _ => true
  | None => false
  end.



(* ===================================================================== *)
(** ** Properties: Decimal arithmetic *)
(* ===================================================================== *)

Example Decimal_of_float_tenth :
  of_float_ratio 3602879701896397 55
  = mkDecimal 1000000000000000055511151231257827021181583404541015625 (-55).
Proof. reflexivity. Qed.

Example Decimal_tenth_times_one :
  mul (of_float_ratio 3602879701896397 55) (of_int 1)
  = mkDecimal 1000000000000000055511151231 (-28).
Proof. vm_compute. reflexivity. Qed.

Example Decimal_round_up_carry :
  fix_ctx (mkDecimal 99999999999999999999999999995 0) = mkDecimal (10 ^ 27) 2.
Proof. vm_compute. reflexivity. Qed.

Example Decimal_half_even :
  fix_ctx (mkDecimal 12345678901234567890123456785 0)
  = mkDecimal 1234567890123456789012345678 1.
Proof. vm_compute. reflexivity. Qed.

(** A coefficient of at most [prec] digits is left alone. *)
Lemma fix_ctx_small (d : Decimal) :
  Z.abs (coefficient d) < 10 ^ prec -> fix_ctx d = d.
Proof.
  intros H. unfold fix_ctx.
  destruct (Z.ltb_spec (Z.abs (coefficient d)) (10 ^ prec));
    [reflexivity | lia].
Qed.

Lemma units_bound (s : Z) (d : Decimal) :
  - s <= exponent d -> Z.abs (coefficient d) <= Z.abs (units s d).
Proof.
  intros H. unfold units. rewrite Z.abs_mul.
  assert (1 <= 10 ^ (exponent d + s))
    by (apply Z.lt_pred_le, Z.pow_pos_nonneg; lia).
  rewrite (Z.abs_eq (10 ^ _)) by lia. nia.
Qed.

Lemma units_add_exact (s : Z) (a b : Decimal) :
  - s <= exponent a -> - s <= exponent b ->
  units s (add_exact a b) = units s a + units s b.
Proof.
  intros Ha Hb. unfold units, add_exact. simpl.
  set (e := Z.min (exponent a) (exponent b)).
  assert (He : - s <= e) by (unfold e; lia).
  assert (Hea : e <= exponent a) by (unfold e; lia).
  assert (Heb : e <= exponent b) by (unfold e; lia).
  rewrite Z.mul_add_distr_r, <- !Z.mul_assoc, <- !Z.pow_add_r by lia.
  f_equal; f_equal; f_equal; lia.
Qed.

Lemma exponent_add_exact (a b : Decimal) :
  exponent (add_exact a b) = Z.min (exponent a) (exponent b).
Proof. reflexivity. Qed.

(** An addition whose exact result fits the context is exact. *)
Lemma add_fits (s : Z) (a b : Decimal) :
  - s <= exponent a -> - s <= exponent b ->
  Z.abs (units s a + units s b) < 10 ^ prec ->
  add a b = add_exact a b.
Proof.
  intros Ha Hb H. unfold add. apply fix_ctx_small.
  pose proof (units_bound s (add_exact a b)) as Hu.
  rewrite exponent_add_exact, units_add_exact in Hu by assumption.
  specialize (Hu ltac:(lia)). lia.
Qed.

(** A product by an int that fits the context is exact. *)
Lemma mul_int_fits (s : Z) (p : Decimal) (q : Z) :
  - s <= exponent p ->
  Z.abs (units s p * q) < 10 ^ prec ->
  mul p (of_int q) = mkDecimal (coefficient p * q) (exponent p).
Proof.
  intros Hp H. unfold mul, of_int.
  cbn [coefficient exponent]. rewrite Z.add_0_r.
  apply fix_ctx_small.
  pose proof (units_bound s (mkDecimal (coefficient p * q) (exponent p)) Hp)
    as Hu.
  unfold units in Hu, H. cbn [coefficient exponent] in Hu |- *.
  replace (coefficient p * q * 10 ^ (exponent p + s))
    with (coefficient p * 10 ^ (exponent p + s) * q) in Hu by ring.
  lia.
Qed.

(** [units] counts the amount in units of [10^-s]. *)
Lemma value_units (s : Z) (d : Decimal) :
  - s <= exponent d -> 0 <= s ->
  (value d == inject_Z (units s d) / inject_Z (10 ^ s))%Q.
Proof.
  intros Hd Hs. unfold value, units.
  assert (H10 : forall n, 0 <= n -> ~ (inject_Z (10 ^ n) == 0)%Q).
  { intros n Hn. unfold Qeq; simpl.
    pose proof (Z.pow_pos_nonneg 10 n ltac:(lia) Hn). lia. }
  destruct (Z.leb_spec 0 (exponent d)).
  - assert (E : coefficient d * 10 ^ (exponent d + s)
                = coefficient d * 10 ^ exponent d * 10 ^ s)
      by (rewrite Z.pow_add_r by lia; ring).
    rewrite E, (inject_Z_mult _ (10 ^ s)). field. apply H10; lia.
  - assert (E : 10 ^ s = 10 ^ (exponent d + s) * 10 ^ (- exponent d))
      by (rewrite <- Z.pow_add_r by lia; f_equal; lia).
    rewrite E, !inject_Z_mult.
    change (coefficient d # 1)%Q with (inject_Z (coefficient d)).
    field. split; apply H10; lia.
Qed.

(* ===================================================================== *)
(** ** Properties: dictionaries *)
(* ===================================================================== *)

Section DictFacts.
Context {V : Type}.
Implicit Types (d : dict V) (k : Z) (v : V).

Lemma dict_get_set d k v k' :
  dict_get (dict_set d k v) k' = if k =? k' then Some v else dict_get d k'.
Proof.
  induction d as [|[k1 v1] d IH]; simpl.
  - destruct (Z.eqb_spec k k'); reflexivity.
  - destruct (Z.eqb_spec k1 k) as [->|Hk]; simpl.
    + destruct (Z.eqb_spec k k'); reflexivity.
    + rewrite IH. destruct (Z.eqb_spec k1 k') as [->|]; [|reflexivity].
      destruct (Z.eqb_spec k k'); congruence.
Qed.

Lemma dict_mem_keys d k :
  dict_mem d k = existsb (Z.eqb k) (map fst d).
Proof.
  unfold dict_mem. induction d as [|[k1 v1] d IH]; simpl; [reflexivity|].
  rewrite (Z.eqb_sym k k1). destruct (k1 =? k); simpl; [reflexivity|exact IH].
Qed.

Lemma dict_keys_set d k v :
  map fst (dict_set d k v)
  = if dict_mem d k then map fst d else map fst d ++ [k].
Proof.
  unfold dict_mem. induction d as [|[k1 v1] d IH]; simpl; [reflexivity|].
  destruct (Z.eqb_spec k1 k) as [->|Hk]; simpl; [reflexivity|].
  rewrite IH. destruct (dict_get d k); reflexivity.
Qed.

Lemma dict_get_In d k v :
  NoDup (map fst d) -> In (k, v) d -> dict_get d k = Some v.
Proof.
  induction d as [|[k1 v1] d IH]; simpl; [tauto|].
  intros Hnd [E|Hin].
  - inversion E; subst. now rewrite Z.eqb_refl.
  - inversion Hnd as [|? ? Hnotin Hnd']; subst.
    destruct (Z.eqb_spec k1 k) as [->|]; [|auto].
    exfalso. apply Hnotin. change k with (fst (k, v)). now apply in_map.
Qed.
End DictFacts.

Lemma first_seen_snoc (ks : list Z) (k : Z) :
  first_seen (ks ++ [k])
  = if existsb (Z.eqb k) (first_seen ks) then first_seen ks
    else first_seen ks ++ [k].
Proof. unfold first_seen. now rewrite fold_left_app. Qed.

Lemma existsb_eqb_In (k : Z) (l : list Z) :
  existsb (Z.eqb k) l = true <-> In k l.
Proof.
  rewrite existsb_exists. split.
  - intros [x [Hin E]]. apply Z.eqb_eq in E. now subst.
  - intros Hin. exists k. split; [assumption|apply Z.eqb_refl].
Qed.

Lemma first_seen_In (ks : list Z) (k : Z) :
  In k (first_seen ks) <-> In k ks.
Proof.
  induction ks as [|k1 ks IH] using rev_ind; [reflexivity|].
  rewrite first_seen_snoc, in_app_iff. simpl.
  destruct (existsb (Z.eqb k1) (first_seen ks)) eqn:E.
  - apply existsb_eqb_In in E. rewrite IH. split; [tauto|].
    intros [H|[<-|[]]]; [assumption|now apply IH].
  - rewrite in_app_iff, IH. simpl. tauto.
Qed.

Lemma first_seen_NoDup (ks : list Z) : NoDup (first_seen ks).
Proof.
  induction ks as [|k1 ks IH] using rev_ind; [constructor|].
  rewrite first_seen_snoc.
  destruct (existsb (Z.eqb k1) (first_seen ks)) eqn:E; [assumption|].
  apply NoDup_app; [assumption|repeat constructor; simpl; tauto|].
  intros x Hx [<-|[]].
  apply existsb_eqb_In in Hx. congruence.
Qed.

Lemma first_row_snoc (k : Z) (rows : list Row) (r : Row) :
  first_row k (rows ++ [r])
  = match first_row k rows with
    | Some x => Some x
    | None => if SaleID r =? k then Some r else None
    end.
Proof.
  unfold first_row. induction rows as [|r1 rows IH]; simpl.
  - destruct (SaleID r =? k); reflexivity.
  - destruct (SaleID r1 =? k); [reflexivity|exact IH].
Qed.

Lemma first_row_seen (k : Z) (rows : list Row) :
  existsb (Z.eqb k) (first_seen (map SaleID rows))
  = match first_row k rows with Some _ => true | None => false end.
Proof.
  destruct (first_row k rows) as [r|] eqn:E.
  - apply existsb_eqb_In, first_seen_In.
    apply find_some in E. destruct E as [Hin Hk].
    apply Z.eqb_eq in Hk. subst. now apply in_map.
  - apply not_true_is_false. intros H.
    apply existsb_eqb_In, first_seen_In, in_map_iff in H.
    destruct H as [r [Hk Hin]].
    eapply find_none in E; [|exact Hin]. simpl in E.
    subst. now rewrite Z.eqb_refl in E.
Qed.

Lemma key_items_snoc (k : Z) (rows : list Row) (r : Row) :
  key_items k (rows ++ [r])
  = key_items k rows
    ++ (if SaleID r =? k
        then match has_item r with Some it => [it] | None => [] end
        else []).
Proof.
  unfold key_items. rewrite flat_map_app. simpl. now rewrite app_nil_r.
Qed.

(* ===================================================================== *)
(** ** Properties: the scan of the rows *)
(* ===================================================================== *)

Lemma first_row_none_items (k : Z) (rows : list Row) :
  first_row k rows = None -> key_items k rows = [].
Proof.
  unfold first_row, key_items.
  induction rows as [|r rows IH]; simpl; [reflexivity|].
  destruct (SaleID r =? k); [discriminate|]. exact IH.
Qed.

Lemma dict_mem_set_same {V} (d : dict V) k v :
  dict_mem (dict_set d k v) k = true.
Proof. unfold dict_mem. now rewrite dict_get_set, Z.eqb_refl. Qed.

Section ScanFacts.
Context {RT : PyRuntime}.
Variable with_gcash : bool.

(** The lookups after one more row: the key of the row, and the others. *)
Ltac lookup_after_row r rows Hg1 Hg2 Hfr Hnone Hit :=
  let k := fresh "k" in
  intros k;
  rewrite ?dict_get_set, ?Hg1, ?Hg2, first_row_snoc, key_items_snoc, Hit;
  destruct (Z.eqb_spec (SaleID r) k) as [<-|?];
  [ rewrite Hfr, ?fold_left_app, ?app_nil_r;
    try rewrite Hnone by reflexivity; reflexivity
  | rewrite app_nil_r; destruct (first_row k rows); reflexivity ].

Lemma scan_row_inv (rows : list Row) (st : agg_state) (r : Row) :
  scan_inv with_gcash rows st ->
  (forall it, has_item r = Some it ->
              sale_item_of it = Some (shown_item it)) ->
  exists st',
    scan_row with_gcash st r = Some st'
    /\ scan_inv with_gcash (rows ++ [r]) st'.
Proof.
  destruct st as [od sb]. intros (Hk1 & Hk2 & Hg1 & Hg2) Hconv. simpl in *.
  assert (Hmem : dict_mem od (SaleID r)
                 = match first_row (SaleID r) rows with
                   | Some _ => true | None => false end).
  { rewrite dict_mem_keys, Hk1. apply first_row_seen. }
  assert (Hmem2 : dict_mem sb (SaleID r) = dict_mem od (SaleID r)).
  { now rewrite !dict_mem_keys, Hk1, Hk2. }
  assert (Hkeys : first_seen (map SaleID (rows ++ [r]))
                  = if dict_mem od (SaleID r) then map fst od
                    else map fst od ++ [SaleID r]).
  { rewrite map_app. simpl. rewrite first_seen_snoc, <- Hk1, <- dict_mem_keys.
    reflexivity. }
  unfold scan_row.
  pose proof (Hg1 (SaleID r)) as Ho. pose proof (Hg2 (SaleID r)) as Hs.
  pose proof (first_row_none_items (SaleID r) rows) as Hnone.
  unfold expected_order, expected_subtotal, running_subtotal in *.
  destruct (first_row (SaleID r) rows) as [r0|] eqn:Hfr.
  - (* the key has been seen *)
    rewrite Hmem. simpl negb. cbv iota.
    destruct (has_item r) as [it|] eqn:Hit.
    + rewrite (Hconv it eq_refl), Ho, Hs.
      eexists. split; [reflexivity|]. unfold scan_inv.
      unfold expected_order, expected_subtotal, running_subtotal.
      simpl fst; simpl snd.
      rewrite !dict_keys_set, Hmem2, Hmem, Hkeys, Hmem, Hk2, Hk1.
      repeat split; try reflexivity.
      * lookup_after_row r rows Hg1 Hg2 Hfr Hnone Hit.
      * lookup_after_row r rows Hg1 Hg2 Hfr Hnone Hit.
    + eexists. split; [reflexivity|]. unfold scan_inv.
      unfold expected_order, expected_subtotal, running_subtotal.
      simpl fst; simpl snd. rewrite Hkeys, Hmem, Hk2, Hk1.
      repeat split; try reflexivity.
      * lookup_after_row r rows Hg1 Hg2 Hfr Hnone Hit.
      * lookup_after_row r rows Hg1 Hg2 Hfr Hnone Hit.
  - (* a new key *)
    rewrite Hmem. simpl negb. cbv iota.
    specialize (Hnone eq_refl).
    rewrite !dict_get_set, Z.eqb_refl.
    destruct (has_item r) as [it|] eqn:Hit;
      rewrite ?(Hconv _ eq_refl);
      (eexists; split; [reflexivity|]); unfold scan_inv;
      unfold expected_order, expected_subtotal, running_subtotal;
      simpl fst; simpl snd;
      rewrite ?(dict_keys_set (dict_set _ _ _)), ?dict_mem_set_same;
      rewrite !dict_keys_set, Hmem2, Hmem, Hkeys, Hmem, Hk2, Hk1;
      (repeat split; try reflexivity);
      lookup_after_row r rows Hg1 Hg2 Hfr Hnone Hit.
Qed.

(** A row raises exactly when it has an item that cannot be shown. *)
Lemma sale_item_of_converts (it : ItemColumns) :
  sale_item_of it
  = if item_converts it then Some (shown_item it) else None.
Proof.
  unfold shown_item, sale_item_of, addons_of, item_converts.
  destruct (Category it) as [c|], (Addons it) as [a|]; try reflexivity.
  - destruct (String.eqb a ""); [reflexivity|].
    destruct (json_loads a); reflexivity.
  - destruct (String.eqb a ""); [reflexivity|].
    destruct (json_loads a); reflexivity.
Qed.

Lemma has_item_converts (rows : list Row) (r : Row) (it : ItemColumns) :
  rows_convert rows = true -> In r rows -> has_item r = Some it ->
  sale_item_of it = Some (shown_item it).
Proof.
  intros Hc Hin Hit. unfold rows_convert in Hc.
  rewrite forallb_forall in Hc. specialize (Hc r Hin).
  unfold has_item in Hit. destruct (item r) as [it'|]; [|discriminate].
  destruct (SaleItemID it' =? 0); [discriminate|].
  injection Hit as ->. cbn [orb] in Hc.
  now rewrite sale_item_of_converts, Hc.
Qed.

Lemma rows_convert_app (rows1 rows2 : list Row) :
  rows_convert (rows1 ++ rows2)
  = rows_convert rows1 && rows_convert rows2.
Proof. unfold rows_convert. apply forallb_app. Qed.

Lemma scan_rows_snoc (rows : list Row) (r : Row) :
  scan_rows with_gcash (rows ++ [r])
  = match scan_rows with_gcash rows with
    | Some st => scan_row with_gcash st r
    | None => None
    end.
Proof. unfold scan_rows. now rewrite fold_left_app. Qed.

Lemma scan_rows_inv (rows : list Row) :
  rows_convert rows = true ->
  exists st,
    scan_rows with_gcash rows = Some st /\ scan_inv with_gcash rows st.
Proof.
  induction rows as [|r rows IH] using rev_ind; intros Hc.
  - exists ([], []). split; [reflexivity|]. repeat split; reflexivity.
  - rewrite rows_convert_app in Hc. apply andb_true_iff in Hc.
    destruct Hc as [Hc Hr]. destruct (IH Hc) as (st & Est & Hinv).
    rewrite scan_rows_snoc, Est. apply scan_row_inv; [exact Hinv|].
    intros it Hit. apply (has_item_converts [r] r); [exact Hr| |exact Hit].
    now left.
Qed.

(** The scan raises exactly when a row has an item that cannot be
    shown. *)
Lemma scan_rows_raises (rows : list Row) :
  rows_convert rows = false -> scan_rows with_gcash rows = None.
Proof.
  induction rows as [|r rows IH] using rev_ind; intros Hc; [discriminate|].
  rewrite scan_rows_snoc. rewrite rows_convert_app in Hc.
  destruct (rows_convert rows) eqn:Hrows.
  - destruct (scan_rows with_gcash rows) as [[od sb]|]; [|reflexivity].
    cbn [andb rows_convert forallb] in Hc. rewrite andb_true_r in Hc.
    unfold scan_row, has_item.
    destruct (item r) as [it|]; [|discriminate].
    destruct (SaleItemID it =? 0); [discriminate|]. cbn [orb] in Hc.
    rewrite sale_item_of_converts, Hc.
    destruct (negb (dict_mem od (SaleID r))); reflexivity.
  - now rewrite IH.
Qed.

(** What add_item leaves in the accumulator. *)
Lemma fold_add_item (its : list ItemColumns) (o : order_data) :
  let o' := fold_left (fun o it => add_item it (shown_item it) o) its o in
  od_id o' = od_id o /\ od_date o' = od_date o
  /\ od_status o' = od_status o /\ od_orderType o' = od_orderType o
  /\ od_paymentMethod o' = od_paymentMethod o
  /\ od_cashierName o' = od_cashierName o
  /\ od_GCashReferenceNumber o' = od_GCashReferenceNumber o
  /\ od_totalDiscount o' = od_totalDiscount o
  /\ od_items o' = od_items o + sum_Z (map item_quantity its)
  /\ od_orderItems o' = od_orderItems o ++ map shown_item its.
Proof.
  revert o. induction its as [|it its IH]; intros o; simpl.
  - rewrite Z.add_0_r, app_nil_r. repeat split; reflexivity.
  - specialize (IH (add_item it (shown_item it) o)). simpl in IH.
    destruct IH as (H1 & H2 & H3 & H4 & H5 & H6 & H7 & H8 & H9 & H10).
    rewrite H1, H2, H3, H4, H5, H6, H7, H8, H9, H10, <- app_assoc.
    simpl. repeat split; try reflexivity. lia.
Qed.

Lemma aggregate_emitted (rows : list Row) :
  rows_convert rows = true ->
  exists orders,
    aggregate with_gcash rows = Some orders
    /\ Forall2 (emitted with_gcash rows) (first_seen (map SaleID rows))
         orders.
Proof.
  intros Hc. unfold aggregate.
  destruct (scan_rows_inv rows Hc) as ([od sb] & Est & Hinv).
  rewrite Est. eexists. split; [reflexivity|].
  destruct Hinv as (Hk1 & Hk2 & Hg1 & Hg2). simpl in *.
  rewrite <- Hk1.
  assert (Hnd : NoDup (map fst od)) by (rewrite Hk1; apply first_seen_NoDup).
  assert (Hall : forall e, In e od ->
            emitted with_gcash rows (fst e) (finish_order sb e)).
  { intros [k o] Hin. simpl.
    pose proof (dict_get_In od k o Hnd Hin) as Hget.
    rewrite Hg1 in Hget. unfold expected_order in Hget.
    pose proof (Hg2 k) as Hsub. unfold expected_subtotal in Hsub.
    destruct (first_row k rows) as [r|] eqn:Hfr; [|discriminate].
    injection Hget as <-.
    pose proof (fold_add_item (key_items k rows)
                  (new_order_data with_gcash r)) as H.
    simpl in H.
    destruct H as (H1 & H2 & H3 & H4 & H5 & H6 & H7 & H8 & H9 & H10).
    exists r. split; [exact Hfr|]. rewrite Hsub. simpl.
    pose proof (find_some _ _ Hfr) as [_ Hk]. apply Z.eqb_eq in Hk.
    rewrite H1, H2, H3, H4, H5, H6, H7, H8, H9, H10, Hk.
    repeat split; reflexivity. }
  clear - Hall. induction od as [|e od IH]; simpl; constructor.
  - apply Hall. now left.
  - apply IH. intros e' He'. apply Hall. now right.
Qed.

(** The aggregation raises exactly when a row has an item that cannot be
    shown. *)
Lemma aggregate_raises (rows : list Row) :
  aggregate with_gcash rows = None <-> rows_convert rows = false.
Proof.
  split.
  - intros H. destruct (rows_convert rows) eqn:Hc; [|reflexivity].
    destruct (aggregate_emitted rows Hc) as (orders & E & _).
    rewrite E in H. discriminate.
  - intros Hc. unfold aggregate. now rewrite scan_rows_raises.
Qed.

Lemma item_price_value (it : ItemColumns) :
  (value (item_price it)
   == match UnitPrice it with Some u => value u | None => 0 end)%Q.
Proof.
  unfold item_price, truthy. destruct (UnitPrice it) as [u|]; [|reflexivity].
  destruct (Z.eqb_spec (coefficient u) 0) as [Hz|]; [|reflexivity].
  cbn [negb]. unfold value. rewrite Hz.
  destruct (0 <=? exponent u); cbn; reflexivity.
Qed.

(** An item row that can be shown is shown field by field. *)
Lemma shown_item_shown (it : ItemColumns) :
  item_converts it = true -> item_shown it (shown_item it).
Proof.
  intros Hc. unfold shown_item. rewrite sale_item_of_converts, Hc.
  unfold shown_item, sale_item_of, addons_of, item_converts in *.
  destruct (Category it) as [c|] eqn:Ec; [|discriminate].
  unfold item_shown. rewrite Ec.
  assert (Hp : forall decoded,
            exists d,
              price {| name := ItemName it; quantity := item_quantity it;
                       price := float_of_Decimal (item_price it);
                       category := c; addons := decoded |}
              = float_of_Decimal d
              /\ (value d
                  == match UnitPrice it with
                     | Some u => value u
                     | None => 0
                     end)%Q).
  { intros decoded. exists (item_price it).
    split; [reflexivity|apply item_price_value]. }
  destruct (Addons it) as [a|] eqn:Ea.
  - destruct (String.eqb a "") eqn:Eq.
    + split; [reflexivity|]. split; [reflexivity|].
      split; [apply Hp|]. split; reflexivity.
    + cbn [orb] in Hc. destruct (json_loads a) as [v|] eqn:Ev;
        [|discriminate].
      split; [reflexivity|]. split; [reflexivity|].
      split; [apply Hp|]. split; reflexivity.
  - split; [reflexivity|]. split; [reflexivity|].
    split; [apply Hp|]. split; reflexivity.
Qed.
End ScanFacts.


(* ===================================================================== *)
(** ** Properties: the totals are exact *)
(* ===================================================================== *)










(* ===================================================================== *)
(** ** Properties: the Order Aggregator *)
(* ===================================================================== *)


Lemma sum_Z_Permutation (l l' : list Z) :
  Permutation l l' -> sum_Z l = sum_Z l'.
Proof. induction 1; simpl; lia. Qed.


Example first_seen_keeps_first_occurrences :
  first_seen [3; 1; 3; 2; 1] = [3; 1; 2].
Proof. reflexivity. Qed.

(** The sample rows: order 1 with 3 tea at 45.00 and 3 bun at 25.50 less a
    discount of 5.00, then order 2 without items. *)
Example aggregate_sample_rows :
  option_map
    (map (fun o : @ProcessingOrder plain_runtime =>
            (id o, items o, Qred (total o), List.length (orderItems o))))
    (aggregate false sample_rows)
  = Some [ ("SO-1", 6, 413 # 2, 2%nat); ("SO-2", 0, 0 # 1, 0%nat) ].
Proof. vm_compute. reflexivity. Qed.

Section AggregatorProperties.
Context {RT : PyRuntime}.
Variable with_gcash : bool.





Lemma rows_convert_Permutation (rows rows' : list Row) :
  Permutation rows rows' -> rows_convert rows = rows_convert rows'.
Proof.
  unfold rows_convert.
  induction 1 as [|x l l' _ IH|x y l|l l' l'' _ IH1 _ IH2]; cbn [forallb].
  - reflexivity.
  - now rewrite IH.
  - destruct (match item y with Some _ => _ | None => _ end),
      (match item x with Some _ => _ | None => _ end); reflexivity.
  - now rewrite IH1.
Qed.

End AggregatorProperties.



(* ===================================================================== *)
(** ** Properties: closing a session *)
(* ===================================================================== *)

(** No session row with that id is Active: the id is unknown, or its
    session is Closed. *)
Lemma find_active_session_none (session_id : Z) (st : Store) :
  find_active_session session_id st = None <->
  (forall cs, In cs (CashierSessions st) -> cs_SessionID cs = session_id ->
              cs_Status cs <> "Active").
Proof.
  unfold find_active_session. split.
  - intros H cs Hin Hid Hst.
    eapply find_none in H; [|exact Hin]. simpl in H.
    rewrite Hid, Z.eqb_refl, Hst in H. discriminate.
  - intros H. destruct (find _ _) as [cs|] eqn:E; [|reflexivity].
    apply find_some in E. destruct E as [Hin Hc].
    apply andb_true_iff in Hc. destruct Hc as [Hid Hst].
    apply Z.eqb_eq in Hid. apply String.eqb_eq in Hst.
    exfalso. exact (H cs Hin Hid Hst).
Qed.

(** Closing a session that is not Active leaves the store as it was and
    answers 500: the 404 raised inside the try is caught by the handler's
    own except clause. *)
Lemma close_session_not_active (request : CloseSessionRequest)
    (current_user : User) (now : Z) (st : Store) :
  role_in current_user ["admin"; "manager"; "cashier"] = true ->
  find_active_session (sessionId request) st = None ->
  close_session request current_user now st
  = (HTTPException 500 "An error occurred while closing the session.", st).
Proof.
  intros Hrole Hnone. unfold close_session, close_session_body.
  now rewrite Hrole, Hnone.
Qed.

(** C3. Closing the already closed session 7, and closing the unknown
    session 8, mutates nothing but is answered with status 500, not with
    the not-found status 404. *)
Theorem close_session_inactive_answers_500 :
  close_session {| sessionId := 7; cashCounts := [] |} cashier_ana 95000
    closed_session_store
  = (HTTPException 500 "An error occurred while closing the session.",
     closed_session_store)
  /\ close_session {| sessionId := 8; cashCounts := [] |} cashier_ana 95000
       closed_session_store
     = (HTTPException 500 "An error occurred while closing the session.",
        closed_session_store).
Proof. split; reflexivity. Qed.

(** Closing an Active session answers 200 and rewrites the session rows
    with the counted cash, the cash sales since the session started, the
    status Closed and the end time. *)
Lemma close_session_active (request : CloseSessionRequest)
    (current_user : User) (now : Z) (st : Store)
    (session_row : CashierSession) :
  role_in current_user ["admin"; "manager"; "cashier"] = true ->
  find_active_session (sessionId request) st = Some session_row ->
  close_session request current_user now st
  = (Response 200
       [("message", JStr "Session closed successfully");
        ("sessionId", JInt (sessionId request))],
     {| Sales := Sales st;
        SaleItems := SaleItems st;
        CancelledOrders := CancelledOrders st;
        CashierSessions :=
          map (close_row (sessionId request) now
                 (counted_cash (cashCounts request))
                 (sum_line_totals
                    (cash_sale_items (cs_CashierName session_row)
                       (cs_SessionStart session_row) st)))
            (CashierSessions st) |}).
Proof.
  intros Hrole Hfind. unfold close_session, close_session_body.
  now rewrite Hrole, Hfind.
Qed.

(** The cash count of the specification's example. *)
Example counted_cash_710 :
  counted_cash [("bills500", 1); ("bills100", 2); ("coins10", 1)]
  = of_int 710.
Proof. vm_compute. reflexivity. Qed.

(** An entry whose key is not a denomination adds nothing. *)
Lemma count_entry_unknown (closing_cash : Decimal) (key : string) (n : Z) :
  denomination key denominations = None ->
  count_entry closing_cash (key, n) = closing_cash.
Proof. intros H. unfold count_entry. cbn [fst snd]. now rewrite H. Qed.

(** Away from the two float literals that are not exact, Decimal reads the
    table's value as the specification words it. *)
Lemma denomination_exact (key : string) :
  key <> "cents10"%string -> key <> "cents05"%string ->
  match denomination key denominations with
  | Some v =>
      - 2 <= exponent (Decimal_of v)
      /\ units 2 (Decimal_of v)
         = spec_centavos_in spec_denomination_centavos key
  | None => spec_centavos_in spec_denomination_centavos key = 0
  end.
Proof.
  intros H10 H05.
  unfold denominations, spec_denomination_centavos.
  cbn [denomination spec_centavos_in].
  repeat match goal with
         | |- context [String.eqb ?a key] =>
             destruct (String.eqb_spec a key) as [E|_];
             [ try (subst key; contradiction);
               try (split; [vm_compute; discriminate|reflexivity])
             | ]
         end.
  reflexivity.
Qed.

(** The counted cash is the specification's sum when the count has no
    10- or 5-centavo coins and the sum fits the Decimal context. *)
Lemma counted_cash_exact (cashCounts : list (string * Z)) :
  (forall key n, In (key, n) cashCounts ->
                 key <> "cents10"%string /\ key <> "cents05"%string) ->
  gross_centavos cashCounts < 10 ^ prec ->
  - 2 <= exponent (counted_cash cashCounts)
  /\ units 2 (counted_cash cashCounts) = spec_counted_centavos cashCounts.
Proof.
  intros Hkeys Hb. unfold counted_cash.
  assert (G : forall cc acc,
             (forall key n, In (key, n) cc ->
                key <> "cents10"%string /\ key <> "cents05"%string) ->
             - 2 <= exponent acc ->
             Z.abs (units 2 acc) + gross_centavos cc < 10 ^ prec ->
             - 2 <= exponent (fold_left count_entry cc acc)
             /\ units 2 (fold_left count_entry cc acc)
                = units 2 acc + spec_counted_centavos cc).
  { clear. induction cc as [|[key n] cc IH]; intros acc Hk He Hb.
    - unfold spec_counted_centavos, sum_Z. cbn [fold_left map fold_right].
      split; [exact He|lia].
    - assert (Hg : 0 <= gross_centavos cc).
      { unfold gross_centavos, sum_Z. clear.
        induction cc; cbn [map fold_right]; lia. }
      change (gross_centavos ((key, n) :: cc))
        with (Z.abs (spec_centavos_in spec_denomination_centavos key * n)
              + gross_centavos cc) in Hb.
      change (spec_counted_centavos ((key, n) :: cc))
        with (spec_centavos_in spec_denomination_centavos key * n
              + spec_counted_centavos cc).
      destruct (Hk key n (or_introl eq_refl)) as [H10 H05].
      pose proof (denomination_exact key H10 H05) as Hd.
      cbn [fold_left]. unfold count_entry at 2 4. cbn [fst snd].
      destruct (denomination key denominations) as [v|].
      + destruct Hd as [Hve Hvu].
        assert (Hm : mul (Decimal_of v) (of_int n)
                     = mkDecimal (coefficient (Decimal_of v) * n)
                         (exponent (Decimal_of v))).
        { apply (mul_int_fits 2); [exact Hve|]. rewrite Hvu. lia. }
        assert (Hmu : units 2 (mul (Decimal_of v) (of_int n))
                      = spec_centavos_in spec_denomination_centavos key * n).
        { rewrite Hm, <- Hvu. unfold units. simpl. ring. }
        assert (Hme : - 2 <= exponent (mul (Decimal_of v) (of_int n))).
        { rewrite Hm. exact Hve. }
        set (m := mul (Decimal_of v) (of_int n)) in *.
        assert (Ha : add acc m = add_exact acc m).
        { apply (add_fits 2); [assumption|assumption|]. rewrite Hmu. lia. }
        rewrite Ha.
        destruct (IH (add_exact acc m)) as [IH1 IH2].
        * intros k' n' Hin. apply (Hk k' n'). now right.
        * rewrite exponent_add_exact. lia.
        * rewrite units_add_exact, Hmu by assumption. lia.
        * split; [exact IH1|].
          rewrite IH2, units_add_exact, Hmu by assumption. lia.
      + rewrite Hd in *.
        destruct (IH acc) as [IH1 IH2].
        * intros k' n' Hin. apply (Hk k' n'). now right.
        * exact He.
        * lia.
        * split; [exact IH1|]. rewrite IH2. lia. }
  destruct (G cashCounts (of_int 0) Hkeys) as [H1 H2].
  - simpl. lia.
  - change (units 2 (of_int 0)) with 0. simpl Z.abs. lia.
  - split; [exact H1|]. rewrite H2. reflexivity.
Qed.

(** The Decimal bound to the UPDATE for the cash count {cents10: 1} is
    0.1000000000000000055511151231 and not 0.10 * 1: the table's 0.10 is
    a binary float when Decimal reads it. *)
Example close_session_cents10_counted_cash :
  exists body st',
    close_session {| sessionId := 7; cashCounts := [("cents10", 1)] |}
      cashier_ana 95000 open_session_store
    = (Response 200 body, st')
    /\ map cs_ClosingCash (CashierSessions st')
       = [Some (mkDecimal 1000000000000000055511151231 (-28))]
    /\ ~ (value (mkDecimal 1000000000000000055511151231 (-28)) == 1 # 10)%Q.
Proof.
  eexists. eexists. split; [|split].
  - apply close_session_active; reflexivity.
  - vm_compute. reflexivity.
  - vm_compute. discriminate.
Qed.

(* ===================================================================== *)
(** ** Properties: status updates *)
(* ===================================================================== *)

Section StatusUpdateProperties.
Context {RT : PyRuntime}.

(** C7. A status update to cancelled without a manager username
    (cancelDetails absent, or managerUsername empty) is rejected with a
    client error before anything is written: the store, and so the
    order's status, is unchanged, no restock call is issued, and for a
    caller whose role may update orders and a well-formed order id the
    error is the validation error 400. *)
Theorem cancel_without_manager_rejected (order_id : string)
    (request : UpdateOrderStatusRequest) (current_user : User) (now : Z)
    (network : RestockCall -> CallResult) (st : Store) :
  newStatus request = cancelled ->
  cancelDetails request = None \/ cancelDetails request = Some ""%string ->
  let o := update_order_status order_id request current_user now network st in
  db o = st
  /\ sent o = []
  /\ (exists code detail,
        result o = HTTPException code detail /\ (code = 400 \/ code = 403))
  /\ (role_in current_user ["admin"; "manager"; "staff"; "cashier"] = true ->
      forall parsed_id, py_int (last_segment order_id "") = Some parsed_id ->
      result o
      = HTTPException 400 "Manager username required for cancellation.").
Proof.
  intros Hnew Hman. unfold update_order_status.
  destruct (role_in current_user _); simpl.
  - destruct (py_int (last_segment order_id "")) as [parsed_id|]; simpl.
    + rewrite Hnew.
      destruct Hman as [-> | ->]; simpl;
        (split; [reflexivity|split; [reflexivity|split]];
         [eauto|intros; reflexivity]).
    + split; [reflexivity|split; [reflexivity|split]];
        [eauto|intros _ ? ?; discriminate].
  - split; [reflexivity|split; [reflexivity|split]];
      [eauto|intros; discriminate].
Qed.

(** C6. A cancellation that commits, of an order with at least one line
    item: whatever the two inventory calls answer (a response of any
    status, or an exception), the request answers 200, the committed
    cancellation stays in the store, and both calls were issued with the
    cancelled items. *)
Theorem cancellation_survives_restock_failure (order_id : string)
    (request : UpdateOrderStatusRequest) (current_user : User) (now : Z)
    (st : Store) (parsed_id : Z) (manager : string) :
  role_in current_user ["admin"; "manager"; "staff"; "cashier"] = true ->
  py_int (last_segment order_id "") = Some parsed_id ->
  newStatus request = cancelled ->
  cancelDetails request = Some manager ->
  manager <> ""%string ->
  rowcount parsed_id st <> 0%nat ->
  existsb (same_cancellation (mkCancelledOrder parsed_id manager now))
    (CancelledOrders st) = false ->
  items_of st parsed_id <> [] ->
  forall network : RestockCall -> CallResult,
    let o := update_order_status order_id request current_user now network st in
    result o
    = Response 200 "Order has been cancelled and inventory restock initiated."
    /\ db o
       = {| Sales := map (set_status "cancelled" now parsed_id) (Sales st);
            SaleItems := SaleItems st;
            CancelledOrders :=
              CancelledOrders st ++ [mkCancelledOrder parsed_id manager now];
            CashierSessions := CashierSessions st |}
    /\ sent o
       = [ {| url := ingredients_url;
              bearer := access_token current_user;
              cancelled_items := restock_payload (items_of st parsed_id) |};
           {| url := materials_url;
              bearer := access_token current_user;
              cancelled_items := restock_payload (items_of st parsed_id) |} ]
    /\ logged o = restock_log 0 (map network (sent o)).
Proof.
  intros Hrole Hid Hnew Hdet Hman Hrows Hfresh Hitems network.
  unfold update_order_status. rewrite Hrole, Hid, Hnew, Hdet. simpl.
  destruct (String.eqb_spec manager "") as [E|_]; [contradiction|].
  unfold cancel_body, insert_cancellation.
  destruct (Nat.eqb_spec (rowcount parsed_id st) 0) as [E|_]; [contradiction|].
  cbn [update_sales CancelledOrders]. rewrite Hfresh.
  change (items_of _ parsed_id) with (items_of st parsed_id).
  destruct (items_of st parsed_id) as [|i its] eqn:Eits; [contradiction|].
  repeat split; reflexivity.
Qed.
End StatusUpdateProperties.

Section CancellationRecords.
Context {RT : PyRuntime}.

(** What one request does to the CancelledOrders table: a successful
    cancellation appends its record, anything else leaves the table
    alone. *)
Lemma apply_call_records (c : StatusUpdateCall) (st : Store) :
  CancelledOrders (db (apply_call c st))
  = CancelledOrders st
    ++ match cancellation_record c, result (apply_call c st) with
       | Some rec, Response _ _ => [rec]
       | _, _ => []
       end.
Proof.
  unfold cancellation_record, apply_call, update_order_status.
  destruct c as [order_id [new_status details] user now network].
  cbn [call_order_id call_request call_user call_now call_network
       newStatus cancelDetails].
  destruct (py_int (last_segment order_id "")) as [parsed_id|];
    destruct (role_in user _); simpl;
    try (destruct new_status, details; simpl; now rewrite app_nil_r).
  destruct new_status; simpl.
  - destruct (Nat.eqb _ 0); simpl; now rewrite app_nil_r.
  - destruct details as [manager|]; simpl; [|now rewrite app_nil_r].
    destruct (String.eqb manager ""); simpl; [now rewrite app_nil_r|].
    unfold cancel_body, insert_cancellation.
    destruct (Nat.eqb _ 0); simpl; [now rewrite app_nil_r|].
    destruct (existsb _ _); simpl; [now rewrite app_nil_r|].
    destruct (items_of _ parsed_id); reflexivity.
  - destruct (Nat.eqb _ 0); simpl; now rewrite app_nil_r.
Qed.

(** A status update to cancelled that succeeds has its record. *)
Lemma cancellation_has_record (c : StatusUpdateCall) (st : Store)
    (code : Z) (body : string) :
  newStatus (call_request c) = cancelled ->
  result (apply_call c st) = Response code body ->
  exists parsed_id manager,
    py_int (last_segment (call_order_id c) "") = Some parsed_id
    /\ cancellation_record c
       = Some (mkCancelledOrder parsed_id manager (call_now c)).
Proof.
  unfold cancellation_record, apply_call, update_order_status.
  destruct c as [order_id [new_status details] user now network].
  cbn [call_order_id call_request call_user call_now call_network
       newStatus cancelDetails].
  intros ->.
  destruct (role_in user _); simpl; [|discriminate].
  destruct (py_int (last_segment order_id "")) as [parsed_id|]; simpl;
    [|discriminate].
  destruct details as [manager|]; simpl; [|discriminate].
  intros _. eauto.
Qed.

Lemma apply_call_records_of (k : Z) (c : StatusUpdateCall) (st : Store) :
  List.length (records_of k (db (apply_call c st)))
  = (List.length (records_of k st)
     + (if cancels k c st then 1 else 0))%nat.
Proof.
  unfold records_of, cancels.
  rewrite apply_call_records, filter_app, length_app.
  f_equal.
  destruct (cancellation_record c) as [rec|]; [|reflexivity].
  destruct (result (apply_call c st)); [|reflexivity].
  simpl. destruct (co_SaleID rec =? k); reflexivity.
Qed.

(** C5 (amended). Along every sequence of status updates, the number of
    Cancellation Records of an order is the number it had at the start
    plus the number of successful cancellation requests for it: a record
    is created only by a successful update to cancelled, one per such
    update; so an order without a record has at most one after a sequence
    in which at most one cancellation request for it succeeds. *)
Theorem cancellation_records_count (k : Z) (calls : list StatusUpdateCall)
    (st : Store) :
  List.length (records_of k (run_calls calls st))
  = (List.length (records_of k st) + cancellations_of k calls st)%nat
  /\ (records_of k st = [] ->
      (cancellations_of k calls st <= 1)%nat ->
      (List.length (records_of k (run_calls calls st)) <= 1)%nat).
Proof.
  assert (H : forall calls st,
             List.length (records_of k (run_calls calls st))
             = (List.length (records_of k st)
                + cancellations_of k calls st)%nat).
  { clear. induction calls as [|c calls IH]; intros st; simpl.
    - lia.
    - rewrite IH, apply_call_records_of. lia. }
  split; [apply H|].
  intros Hnil Hle. rewrite H, Hnil. simpl. exact Hle.
Qed.
End CancellationRecords.

(** C5. After two cancellation requests for SO-1, at times 100 and 200,
    the order has two Cancellation Records, not at most one. *)
Lemma cancel_twice_two_records :
  ~ (List.length
       (records_of 1
          (run_calls (RT := plain_runtime) cancel_twice one_order_store))
     <= 1)%nat.
Proof. intros H. vm_compute in H. lia. Qed.

(* ===================================================================== *)
(** ** Properties: starting a session *)
(* ===================================================================== *)

Lemma session_ids_below_next (st : Store) (cs : CashierSession) :
  In cs (CashierSessions st) -> cs_SessionID cs < next_session_id st.
Proof.
  unfold next_session_id.
  induction (CashierSessions st) as [|c l IH]; cbn [map fold_right In].
  - tauto.
  - intros [<-|Hin]; [lia|]. specialize (IH Hin). lia.
Qed.

(** C8 (amended). For a caller who may start sessions, with a username and
    a non-negative initial cash: when no Active session exists for that
    cashier, the start succeeds with status 201 and a confirmation message
    (the response carries no session id), and adds one Active session row
    for the cashier under an id no session had; a second start for the same
    cashier while that session is Active is answered with the conflict 409
    and leaves the store unchanged. *)
Theorem start_session_then_conflict (initial_cash : Q) (user_data : User)
    (role cashier_name : string) (now : Z) (st : Store) :
  userRole user_data = Some role ->
  str_in role ["cashier"; "manager"; "admin"] = true ->
  username user_data = Some cashier_name ->
  cashier_name <> ""%string ->
  (0 <= initial_cash)%Q ->
  active_sessions cashier_name st = [] ->
  let st' := insert_session cashier_name initial_cash now st in
  start_session initial_cash user_data now st
  = (Response 201
       [("message",
         JStr ("Cashier session for '" ++ cashier_name
               ++ "' started successfully.")%string)], st')
  /\ ~ In (next_session_id st) (map cs_SessionID (CashierSessions st))
  /\ active_sessions cashier_name st'
     = [ {| cs_SessionID := next_session_id st;
            cs_CashierName := cashier_name;
            cs_Status := "Active";
            cs_InitialCash := initial_cash;
            cs_SessionStart := now;
            cs_SessionEnd := None;
            cs_ClosingCash := None;
            cs_CashSalesAtClose := None |} ]
  /\ (forall (initial_cash2 : Q) (now2 : Z),
        (0 <= initial_cash2)%Q ->
        start_session initial_cash2 user_data now2 st'
        = (HTTPException 409
             "An active session already exists for this cashier.", st')).
Proof.
  intros Hrole Hallowed Hname Hne Hcash Hnone st'.
  assert (Hact : active_sessions cashier_name st'
                 = [ {| cs_SessionID := next_session_id st;
                        cs_CashierName := cashier_name;
                        cs_Status := "Active";
                        cs_InitialCash := initial_cash;
                        cs_SessionStart := now;
                        cs_SessionEnd := None;
                        cs_ClosingCash := None;
                        cs_CashSalesAtClose := None |} ]).
  { unfold active_sessions, st', insert_session in *. simpl.
    rewrite filter_app, Hnone. simpl. unfold active_for. simpl.
    now rewrite String.eqb_refl. }
  assert (Hstart : forall q t s,
             (0 <= q)%Q ->
             start_session q user_data t s
             = match active_sessions cashier_name s with
               | _ :: _ =>
                   (HTTPException 409
                      "An active session already exists for this cashier.", s)
               | [] =>
                   (Response 201
                      [("message",
                        JStr ("Cashier session for '" ++ cashier_name
                              ++ "' started successfully.")%string)],
                    insert_session cashier_name q t s)
               end).
  { intros q t s Hq. unfold start_session.
    rewrite Hrole, Hallowed, Hname. simpl.
    destruct (String.eqb_spec cashier_name "") as [E|_]; [contradiction|].
    destruct (Qlt_le_dec q 0) as [Hlt|_]; [|reflexivity].
    exfalso. exact (Qlt_not_le _ _ Hlt Hq). }
  split; [rewrite (Hstart _ _ _ Hcash), Hnone; reflexivity|].
  split.
  { intros Hin. apply in_map_iff in Hin. destruct Hin as [cs [E Hin]].
    pose proof (session_ids_below_next st cs Hin). lia. }
  split; [exact Hact|].
  intros q2 t2 Hq2. rewrite (Hstart _ _ _ Hq2), Hact. reflexivity.
Qed.

Lemma start_session_witness :
  start_session (100 # 1) cashier_ana 86400 empty_store
  = (Response 201
       [("message", JStr "Cashier session for 'ana' started successfully.")],
     insert_session "ana" (100 # 1) 86400 empty_store)
  /\ (forall (initial_cash2 : Q) (now2 : Z),
        (0 <= initial_cash2)%Q ->
        start_session initial_cash2 cashier_ana now2
          (insert_session "ana" (100 # 1) 86400 empty_store)
        = (HTTPException 409
             "An active session already exists for this cashier.",
           insert_session "ana" (100 # 1) 86400 empty_store)).
Proof.
  destruct (start_session_then_conflict (100 # 1) cashier_ana "cashier" "ana"
              86400 empty_store) as (H1 & _ & _ & H4);
    try reflexivity; try discriminate.
  split; [exact H1|exact H4].
Defined.

(** C8. The response of a successful start carries the confirmation
    message only: it has no field "sessionId", and no field holding a
    number at all. *)
Lemma start_session_returns_no_id :
  exists body st',
    start_session (100 # 1) cashier_ana 86400 empty_store
    = (Response 201 body, st')
    /\ field body "sessionId" = None
    /\ (forall key n, field body key <> Some (JInt n)).
Proof.
  eexists. eexists. split; [reflexivity|]. split; [reflexivity|].
  intros key n. cbn [field].
  destruct (String.eqb "message" key); intros H; discriminate H.
Qed.

(* ===================================================================== *)
(** ** Properties: ORDER BY *)
(* ===================================================================== *)

Section OrderByFacts.
Context {A : Type} (leb : A -> A -> bool).

Lemma insert_by_In (x y : A) (l : list A) :
  In y (insert_by leb x l) <-> y = x \/ In y l.
Proof.
  induction l as [|z l IH]; simpl.
  - intuition.
  - destruct (leb x z); simpl; [intuition|]. rewrite IH. intuition.
Qed.

Lemma order_by_In (y : A) (l : list A) :
  In y (order_by leb l) <-> In y l.
Proof.
  induction l as [|z l IH]; simpl; [reflexivity|].
  rewrite insert_by_In, IH. intuition.
Qed.

Hypothesis leb_total : forall a b, leb a b = true \/ leb b a = true.
Hypothesis leb_trans :
  forall a b c, leb a b = true -> leb b c = true -> leb a c = true.

Lemma insert_by_sorted (x : A) (l : list A) :
  StronglySorted (fun a b => leb a b = true) l ->
  StronglySorted (fun a b => leb a b = true) (insert_by leb x l).
Proof.
  induction 1 as [|z l Hs IH Hall]; simpl.
  - repeat constructor.
  - destruct (leb x z) eqn:E.
    + constructor; [now constructor|].
      constructor; [exact E|].
      eapply Forall_impl; [|exact Hall]. intros b Hb. eauto.
    + constructor; [exact IH|].
      apply Forall_forall. intros b Hb. apply insert_by_In in Hb.
      destruct Hb as [->|Hb].
      * destruct (leb_total x z) as [H|H]; [congruence|exact H].
      * rewrite Forall_forall in Hall. now apply Hall.
Qed.

Lemma order_by_sorted (l : list A) :
  StronglySorted (fun a b => leb a b = true) (order_by leb l).
Proof.
  induction l as [|z l IH]; simpl; [constructor|].
  now apply insert_by_sorted.
Qed.
End OrderByFacts.

Lemma StronglySorted_firstn {A} (R : A -> A -> Prop) (n : nat) (l : list A) :
  StronglySorted R l -> StronglySorted R (firstn n l).
Proof.
  intros H. revert n. induction H as [|a l Hs IH Hall]; intros [|n]; simpl;
    try constructor.
  - apply IH.
  - apply Forall_forall. intros b Hb. rewrite Forall_forall in Hall.
    apply Hall. revert Hb. clear. revert n.
    induction l as [|c l IHl]; intros [|n]; simpl; try tauto.
    intros [->|H]; eauto.
Qed.

Lemma firstn_incl {A} (n : nat) (l : list A) (x : A) :
  In x (firstn n l) -> In x l.
Proof.
  revert n. induction l as [|c l IHl]; intros [|n]; simpl; try tauto.
  intros [->|H]; eauto.
Qed.

(* ===================================================================== *)
(** ** Properties: top products *)
(* ===================================================================== *)

Lemma group_get_add (groups : list (string * Z)) (nm nm' : string) (q : Z) :
  group_get (add_to_group nm q groups) nm'
  = if String.eqb nm nm'
    then Some (match group_get groups nm with
               | Some q0 => q0 + q
               | None => q
               end)
    else group_get groups nm'.
Proof.
  induction groups as [|[n1 q1] groups IH]; simpl.
  - destruct (String.eqb nm nm'); reflexivity.
  - destruct (String.eqb_spec n1 nm) as [->|Hne]; simpl.
    + destruct (String.eqb nm nm'); reflexivity.
    + rewrite IH. destruct (String.eqb_spec n1 nm') as [->|]; [|reflexivity].
      destruct (String.eqb_spec nm nm'); [congruence|reflexivity].
Qed.

Lemma group_keys_add (groups : list (string * Z)) (nm : string) (q : Z) :
  map fst (add_to_group nm q groups)
  = match group_get groups nm with
    | Some _ => map fst groups
    | None => map fst groups ++ [nm]
    end.
Proof.
  induction groups as [|[n1 q1] groups IH]; simpl; [reflexivity|].
  destruct (String.eqb_spec n1 nm) as [->|Hne]; simpl; [reflexivity|].
  rewrite IH. destruct (group_get groups nm); reflexivity.
Qed.

Lemma group_get_keys (groups : list (string * Z)) (nm : string) :
  group_get groups nm = None <-> ~ In nm (map fst groups).
Proof.
  induction groups as [|[n1 q1] groups IH]; simpl; [tauto|].
  destruct (String.eqb_spec n1 nm) as [->|Hne].
  - split; [discriminate|tauto].
  - rewrite IH. tauto.
Qed.

Lemma group_get_In (groups : list (string * Z)) (nm : string) (q : Z) :
  NoDup (map fst groups) -> In (nm, q) groups -> group_get groups nm = Some q.
Proof.
  induction groups as [|[n1 q1] groups IH]; simpl; [tauto|].
  intros Hnd [E|Hin].
  - inversion E; subst. now rewrite String.eqb_refl.
  - inversion Hnd as [|? ? Hnotin Hnd']; subst.
    destruct (String.eqb_spec n1 nm) as [->|]; [|auto].
    exfalso. apply Hnotin. change nm with (fst (nm, q)). now apply in_map.
Qed.

(** What GROUP BY with SUM leaves for the items [its] added to the groups
    [groups]. *)
Lemma group_fold (its : list SaleItem) (groups : list (string * Z)) :
  let g := fold_left
             (fun g i => add_to_group (si_ItemName i) (si_Quantity i) g)
             its groups in
  (NoDup (map fst groups) -> NoDup (map fst g))
  /\ forall nm,
       group_get g nm
       = match group_get groups nm with
         | Some q0 => Some (q0 + quantity_sold nm its)
         | None =>
             if existsb (fun i => String.eqb (si_ItemName i) nm) its
             then Some (quantity_sold nm its)
             else None
         end.
Proof.
  revert groups. induction its as [|i its IH]; intros groups; simpl.
  - split; [tauto|]. intros nm. unfold quantity_sold. simpl.
    destruct (group_get groups nm); [f_equal; lia|reflexivity].
  - destruct (IH (add_to_group (si_ItemName i) (si_Quantity i) groups))
      as [IHnd IHget].
    split.
    + intros Hnd. apply IHnd. rewrite group_keys_add.
      destruct (group_get groups (si_ItemName i)) eqn:E; [exact Hnd|].
      apply group_get_keys in E.
      apply NoDup_app; [exact Hnd|repeat constructor; simpl; tauto|].
      intros x Hx [<-|[]]. contradiction.
    + intros nm. rewrite IHget, group_get_add. unfold quantity_sold. simpl.
      destruct (String.eqb_spec (si_ItemName i) nm) as [<-|Hne]; simpl.
      * destruct (group_get groups (si_ItemName i)); f_equal; lia.
      * reflexivity.
Qed.

Lemma existsb_name_In (nm : string) (its : list SaleItem) :
  existsb (fun i => String.eqb (si_ItemName i) nm) its = true ->
  exists i, In i its /\ si_ItemName i = nm.
Proof.
  intros H. apply existsb_exists in H. destruct H as [i [Hin E]].
  apply String.eqb_eq in E. eauto.
Qed.

Lemma group_by_name_In (its : list SaleItem) (nm : string) (q : Z) :
  In (nm, q) (group_by_name its) ->
  q = quantity_sold nm its /\ exists i, In i its /\ si_ItemName i = nm.
Proof.
  intros Hin. unfold group_by_name in Hin.
  destruct (group_fold its []) as [Hnd Hget]. simpl in Hnd, Hget.
  specialize (Hnd (NoDup_nil _)).
  pose proof (group_get_In _ _ _ Hnd Hin) as H. rewrite Hget in H.
  destruct (existsb _ its) eqn:E; [|discriminate].
  injection H as <-. split; [reflexivity|now apply existsb_name_In].
Qed.

Lemma sold_today_In (cashier : string) (now : Z) (st : Store) (i : SaleItem) :
  In i (sold_today cashier now st) ->
  In i (SaleItems st)
  /\ exists s, In s (Sales st)
               /\ si_SaleID i = s_SaleID s
               /\ s_Status s = "completed"
               /\ s_CashierName s = cashier
               /\ date_of (s_CreatedAt s) = date_of now.
Proof.
  unfold sold_today, items_of, completed_today. intros H.
  apply in_flat_map in H. destruct H as [s [Hs Hi]].
  apply filter_In in Hs. destruct Hs as [Hs Hc].
  apply filter_In in Hi. destruct Hi as [Hi Hid].
  apply andb_true_iff in Hc. destruct Hc as [Hc Hd].
  apply andb_true_iff in Hc. destruct Hc as [Hst Hcn].
  apply String.eqb_eq in Hst, Hcn. apply Z.eqb_eq in Hd, Hid.
  split; [exact Hi|]. exists s. auto.
Qed.

(** C9 (amended). For a caller who may query them, the top products are
    at most 10 entries, in descending order of summed quantity in which
    equal sums may follow one another, and every entry is a name with the
    sum of the quantities of the items of that name in the completed sales
    of the cashier dated today. *)
Theorem top_products_at_most_ten_descending (cashierName : string)
    (current_user : User) (now : Z) (st : Store) :
  role_in current_user ["admin"; "manager"; "cashier"] = true ->
  exists entries,
    get_top_products_today cashierName current_user now st
    = Response 200 entries
    /\ (List.length entries <= 10)%nat
    /\ StronglySorted (fun a b => sales b <= sales a) entries
    /\ (forall e, In e entries ->
          sales e = quantity_sold (tp_name e) (sold_today cashierName now st)
          /\ exists i, In i (sold_today cashierName now st)
                       /\ si_ItemName i = tp_name e)
    /\ (forall i, In i (sold_today cashierName now st) ->
          In i (SaleItems st)
          /\ exists s, In s (Sales st)
                       /\ si_SaleID i = s_SaleID s
                       /\ s_Status s = "completed"
                       /\ s_CashierName s = cashierName
                       /\ date_of (s_CreatedAt s) = date_of now).
Proof.
  intros Hrole. unfold get_top_products_today. rewrite Hrole. simpl.
  eexists. split; [reflexivity|].
  unfold top_products_rows.
  set (groups := group_by_name (sold_today cashierName now st)).
  split; [rewrite length_map; apply firstn_le_length|].
  split.
  { assert (Hs : StronglySorted (fun a b => sold_desc a b = true)
                   (firstn 10 (order_by sold_desc groups))).
    { apply StronglySorted_firstn, order_by_sorted.
      - intros a b. unfold sold_desc. rewrite !Z.leb_le. lia.
      - intros a b c. unfold sold_desc. rewrite !Z.leb_le. lia. }
    induction Hs as [|a l Hs IH Hall]; simpl; constructor; [exact IH|].
    rewrite Forall_map. eapply Forall_impl; [|exact Hall].
    intros b Hb. unfold sold_desc in Hb. apply Z.leb_le in Hb. exact Hb. }
  split; [|intros i; apply sold_today_In].
  intros e He. apply in_map_iff in He. destruct He as [[nm q] [<- Hin]].
  apply firstn_incl, order_by_In in Hin. simpl.
  now apply group_by_name_In.
Qed.

(** C9. With two products sold three times each, the entries are not in
    strictly descending order of summed quantity. *)
Lemma top_products_tie_not_strict :
  exists entries,
    get_top_products_today "ana" cashier_ana 86500 tied_store
    = Response 200 entries
    /\ ~ StronglySorted (fun a b => sales b < sales a) entries.
Proof.
  exists [ {| tp_name := "tea"; sales := 3 |};
           {| tp_name := "bun"; sales := 3 |} ].
  split; [vm_compute; reflexivity|].
  intros H. inversion H as [|a l Hs Hall]; subst.
  inversion Hall as [|b l' Hlt _]; subst. simpl in Hlt. lia.
Qed.

(* ===================================================================== *)
(** ** Properties: processing orders of a cashier *)
(* ===================================================================== *)

Lemma flat_map_ext_In {A B} (f g : A -> list B) (l : list A) :
  (forall x, In x l -> f x = g x) -> flat_map f l = flat_map g l.
Proof.
  induction l as [|a l IH]; intros H; simpl; [reflexivity|].
  rewrite (H a) by now left. f_equal. apply IH. intros x Hx. apply H. now right.
Qed.

Lemma filter_and_filter {A} (f g : A -> bool) (l : list A) :
  filter (fun x => f x && g x) (filter g l) = filter (fun x => f x && g x) l.
Proof.
  induction l as [|a l IH]; simpl; [reflexivity|].
  destruct (g a) eqn:E; simpl; rewrite ?E, IH, ?andb_false_r; reflexivity.
Qed.

Lemma items_of_own_sales (u : User) (st : Store) (s : Sale) :
  In s (Sales st) -> cashier_is (username u) s = true ->
  items_of (own_sales u st) (s_SaleID s) = items_of st (s_SaleID s).
Proof.
  intros Hin Hc. unfold items_of, own_sales. simpl.
  induction (SaleItems st) as [|i l IH]; simpl; [reflexivity|].
  destruct (Z.eqb_spec (si_SaleID i) (s_SaleID s)) as [E|Hne].
  - assert (K : existsb (fun s0 => cashier_is (username u) s0
                                   && (s_SaleID s0 =? si_SaleID i))
                  (Sales st) = true).
    { apply existsb_exists. exists s. split; [exact Hin|].
      now rewrite Hc, E, Z.eqb_refl. }
    rewrite K. simpl. rewrite E, Z.eqb_refl. f_equal. exact IH.
  - destruct (existsb _ (Sales st)); simpl; [|exact IH].
    destruct (Z.eqb_spec (si_SaleID i) (s_SaleID s)); [contradiction|exact IH].
Qed.

Lemma left_join_items_cashier (st : Store) (s : Sale)
    (p : Sale * option SaleItem) :
  In p (left_join_items st s) ->
  CashierName (joined_row p) = s_CashierName s.
Proof.
  unfold left_join_items. destruct (items_of st (s_SaleID s)) as [|i its].
  - intros [<-|[]]. reflexivity.
  - intros H. apply in_map_iff in H. destruct H as [i' [<- _]]. reflexivity.
Qed.

Section ProcessingOrdersProperties.
Context {RT : PyRuntime} {E : SqlEngine}.

Lemma processing_rows_own_sales (u : User) (st : Store) :
  processing_rows (own_sales u st) (Some (username u))
  = processing_rows st (Some (username u)).
Proof.
  unfold processing_rows.
  change (Sales (own_sales u st))
    with (filter (cashier_is (username u)) (Sales st)).
  rewrite (filter_and_filter status_listed (cashier_is (username u))).
  do 3 f_equal.
  apply flat_map_ext_In. intros s Hs.
  apply filter_In in Hs. destruct Hs as [Hin Hc].
  apply andb_true_iff in Hc. destruct Hc as [_ Hc].
  unfold left_join_items. now rewrite items_of_own_sales.
Qed.

(** C10. For a caller whose role is neither admin nor manager, the
    answer of the processing-orders query does not depend on the
    cashierName parameter, it is the answer computed on the caller's own
    sales alone, and every row it is computed from carries the caller's
    username as cashier name. *)
Theorem processing_orders_only_own_sales
    (cashierName1 cashierName2 : option string) (current_user : User)
    (st : Store) :
  role_in current_user ["admin"; "manager"] = false ->
  get_processing_orders cashierName1 current_user st
  = get_processing_orders cashierName2 current_user st
  /\ get_processing_orders cashierName1 current_user st
     = get_processing_orders cashierName1 current_user
         (own_sales current_user st)
  /\ (forall r,
        In r (processing_rows st
                (processing_filter cashierName1 current_user)) ->
        username current_user = Some (CashierName r)).
Proof.
  intros Hrole. unfold get_processing_orders, processing_filter.
  rewrite Hrole. split; [reflexivity|]. split.
  - now rewrite processing_rows_own_sales.
  - intros r Hr. unfold processing_rows in Hr.
    apply in_map_iff in Hr. destruct Hr as [p [<- Hp]].
    apply order_by_In in Hp.
    apply (Permutation_in _ (scan_order_perm _ _)) in Hp.
    apply in_flat_map in Hp. destruct Hp as [s [Hs Hp]].
    apply filter_In in Hs. destruct Hs as [_ Hc].
    apply andb_true_iff in Hc. destruct Hc as [_ Hc].
    rewrite (left_join_items_cashier _ _ _ Hp).
    unfold cashier_is in Hc. destruct (username current_user) as [n|];
      [|discriminate].
    apply String.eqb_eq in Hc. now subst.
Qed.
End ProcessingOrdersProperties.

Lemma processing_orders_witness :
  get_processing_orders (RT := plain_runtime) (E := table_order) None
    cashier_ana one_order_store
  = get_processing_orders (RT := plain_runtime) (E := table_order)
      (Some "bea") cashier_ana one_order_store.
Proof.
  apply (processing_orders_only_own_sales (RT := plain_runtime)
           (E := table_order) None (Some "bea") cashier_ana one_order_store).
  reflexivity.
Defined.

(* ===================================================================== *)
(** ** The theorems at concrete requests *)
(* ===================================================================== *)

Lemma cancel_without_manager_witness :
  let o := update_order_status (RT := plain_runtime) "SO-1"
             {| newStatus := cancelled; cancelDetails := None |}
             cashier_ana 100 no_answer one_order_store in
  db o = one_order_store
  /\ result o
     = HTTPException 400 "Manager username required for cancellation.".
Proof.
  destruct (cancel_without_manager_rejected (RT := plain_runtime) "SO-1"
              {| newStatus := cancelled; cancelDetails := None |}
              cashier_ana 100 no_answer one_order_store
              eq_refl (or_introl eq_refl)) as (H1 & _ & _ & H4).
  split; [exact H1|exact (H4 eq_refl 1 eq_refl)].
Defined.

Lemma cancellation_survives_witness :
  result (update_order_status (RT := plain_runtime) "SO-1"
            {| newStatus := cancelled; cancelDetails := Some "bea" |}
            manager_bea 100 no_answer one_order_store)
  = Response 200 "Order has been cancelled and inventory restock initiated.".
Proof.
  apply (cancellation_survives_restock_failure (RT := plain_runtime) "SO-1"
           {| newStatus := cancelled; cancelDetails := Some "bea" |}
           manager_bea 100 one_order_store 1 "bea");
    try reflexivity; vm_compute; discriminate.
Defined.

Lemma cancellation_records_witness :
  (List.length
     (records_of 1
        (run_calls (RT := plain_runtime) (firstn 1 cancel_twice)
           one_order_store)) <= 1)%nat.
Proof.
  apply (proj2 (cancellation_records_count (RT := plain_runtime) 1
                  (firstn 1 cancel_twice) one_order_store)).
  - reflexivity.
  - vm_compute. apply le_n.
Defined.

Lemma top_products_witness :
  exists entries,
    get_top_products_today "ana" cashier_ana 86500 tied_store
    = Response 200 entries
    /\ (List.length entries <= 10)%nat.
Proof.
  destruct (top_products_at_most_ten_descending "ana" cashier_ana 86500
              tied_store eq_refl) as (entries & H & Hlen & _).
  exists entries. split; assumption.
Defined.

(* ===================================================================== *)
(** ** Further properties: the Order Aggregator *)
(* ===================================================================== *)

Lemma Forall2_In_r {A B} (P : A -> B -> Prop) (l : list A) (l' : list B) y :
  Forall2 P l l' -> In y l' -> exists x, In x l /\ P x y.
Proof.
  induction 1 as [|a b l l' Hab _ IH]; simpl; [tauto|].
  intros [<-|Hin].
  - exists a. auto.
  - destruct (IH Hin) as [x [Hx Hp]]. exists x. auto.
Qed.

Lemma Forall2_functional {A B} (P : A -> B -> Prop) (l : list A)
    (l1 l2 : list B) :
  (forall x y1 y2, P x y1 -> P x y2 -> y1 = y2) ->
  Forall2 P l l1 -> Forall2 P l l2 -> l1 = l2.
Proof.
  intros Hfun H1. revert l2.
  induction H1 as [|a b l l1 Hab _ IH]; intros l2 H2; inversion H2; subst.
  - reflexivity.
  - f_equal; [eapply Hfun; eassumption|now apply IH].
Qed.

Lemma first_seen_app_disjoint (ks1 ks2 : list Z) :
  (forall k, In k ks1 -> ~ In k ks2) ->
  first_seen (ks1 ++ ks2) = first_seen ks1 ++ first_seen ks2.
Proof.
  induction ks2 as [|k ks2 IH] using rev_ind; intros Hd.
  - now rewrite !app_nil_r.
  - rewrite app_assoc, !first_seen_snoc, IH.
    2:{ intros x Hx Hin. apply (Hd x Hx). apply in_app_iff. now left. }
    rewrite existsb_app.
    assert (E : existsb (Z.eqb k) (first_seen ks1) = false).
    { apply not_true_is_false. intros H.
      apply existsb_eqb_In in H. apply -> first_seen_In in H.
      apply (Hd k H). apply in_app_iff. right. now left. }
    rewrite E. simpl.
    destruct (existsb (Z.eqb k) (first_seen ks2)); [reflexivity|].
    now rewrite app_assoc.
Qed.

Lemma key_items_absent (k : Z) (rows : list Row) :
  ~ In k (map SaleID rows) -> key_items k rows = [].
Proof.
  intros H. apply first_row_none_items.
  destruct (first_row k rows) as [r|] eqn:E; [|reflexivity].
  exfalso. apply H. apply find_some in E. destruct E as [Hin Hk].
  apply Z.eqb_eq in Hk. subst. now apply in_map.
Qed.

Lemma key_items_app (k : Z) (rows1 rows2 : list Row) :
  key_items k (rows1 ++ rows2) = key_items k rows1 ++ key_items k rows2.
Proof. unfold key_items. apply flat_map_app. Qed.

Lemma first_row_app (k : Z) (rows1 rows2 : list Row) :
  first_row k (rows1 ++ rows2)
  = match first_row k rows1 with
    | Some r => Some r
    | None => first_row k rows2
    end.
Proof.
  unfold first_row. induction rows1 as [|r rows1 IH]; simpl; [reflexivity|].
  destruct (SaleID r =? k); [reflexivity|exact IH].
Qed.

Lemma first_row_absent (k : Z) (rows : list Row) :
  ~ In k (map SaleID rows) -> first_row k rows = None.
Proof.
  intros H. destruct (first_row k rows) as [r|] eqn:E; [|reflexivity].
  exfalso. apply H. apply find_some in E. destruct E as [Hin Hk].
  apply Z.eqb_eq in Hk. subst. now apply in_map.
Qed.

Section AggregatorFurther.
Context {RT : PyRuntime}.
Variable with_gcash : bool.

Lemma emitted_functional (rows : list Row) (k : Z) (o1 o2 : ProcessingOrder) :
  emitted with_gcash rows k o1 -> emitted with_gcash rows k o2 -> o1 = o2.
Proof.
  intros (r1 & Hf1 & A1 & A2 & A3 & A4 & A5 & A6 & A7 & A8 & A9 & A10)
         (r2 & Hf2 & B1 & B2 & B3 & B4 & B5 & B6 & B7 & B8 & B9 & B10).
  rewrite Hf1 in Hf2. injection Hf2 as <-.
  destruct o1, o2. simpl in *. congruence.
Qed.

Lemma shown_item_quantity (it : ItemColumns) :
  quantity (shown_item it) = item_quantity it.
Proof.
  unfold shown_item, sale_item_of.
  destruct (addons_of it), (Category it); reflexivity.
Qed.

(** X1. In every emitted order the item count is the sum of the quantities
    of its order items, and it has no more order items than there are
    rows; no order is emitted only when an item row cannot be shown. *)
Theorem items_is_sum_of_order_items (rows : list Row) :
  match aggregate with_gcash rows with
  | Some orders =>
      Forall
        (fun o =>
           items o = sum_Z (map quantity (orderItems o))
           /\ (List.length (orderItems o) <= List.length rows)%nat)
        orders
  | None => rows_convert rows = false
  end.
Proof.
  destruct (rows_convert rows) eqn:Hc.
  2:{ now rewrite (proj2 (aggregate_raises with_gcash rows) Hc). }
  destruct (aggregate_emitted with_gcash rows Hc) as (orders & E & Hem).
  rewrite E. apply Forall_forall. intros o Hin.
  destruct (Forall2_In_r _ _ _ _ Hem Hin)
    as (k & _ & r & _ & _ & _ & _ & _ & _ & _ & _ & Hn & Hits & _).
  rewrite Hn, Hits, map_map. split.
  - f_equal. apply map_ext. intros it. symmetry. apply shown_item_quantity.
  - rewrite length_map. unfold key_items. clear.
    induction rows as [|r rows IH]; simpl; [lia|].
    rewrite length_app.
    destruct (SaleID r =? k); [destruct (has_item r)|]; simpl; lia.
Qed.

(** X2. Aggregation goes through concatenation: when no order key occurs
    in both row sequences, the orders of their concatenation are the orders
    of the first followed by the orders of the second, and it raises when
    the aggregation of either does. *)
Theorem aggregate_app_disjoint (rows1 rows2 : list Row) :
  (forall k, In k (map SaleID rows1) -> ~ In k (map SaleID rows2)) ->
  aggregate with_gcash (rows1 ++ rows2)
  = match aggregate with_gcash rows1, aggregate with_gcash rows2 with
    | Some orders1, Some orders2 => Some (orders1 ++ orders2)
    | _, _ => None
    end.
Proof.
  intros Hd.
  destruct (rows_convert rows1) eqn:Hc1.
  2:{ rewrite (proj2 (aggregate_raises with_gcash rows1) Hc1).
      apply aggregate_raises. now rewrite rows_convert_app, Hc1. }
  destruct (rows_convert rows2) eqn:Hc2.
  2:{ rewrite (proj2 (aggregate_raises with_gcash rows2) Hc2).
      rewrite (proj2 (aggregate_raises with_gcash (rows1 ++ rows2))).
      - now destruct (aggregate with_gcash rows1).
      - rewrite rows_convert_app, Hc2. apply andb_false_r. }
  destruct (aggregate_emitted with_gcash rows1 Hc1) as (os1 & E1 & H1).
  destruct (aggregate_emitted with_gcash rows2 Hc2) as (os2 & E2 & H2).
  assert (Hc : rows_convert (rows1 ++ rows2) = true)
    by now rewrite rows_convert_app, Hc1, Hc2.
  destruct (aggregate_emitted with_gcash (rows1 ++ rows2) Hc)
    as (os & E & H).
  rewrite E, E1, E2. f_equal.
  apply (Forall2_functional (emitted with_gcash (rows1 ++ rows2))
           (first_seen (map SaleID (rows1 ++ rows2)))).
  - apply emitted_functional.
  - exact H.
  - rewrite map_app, (first_seen_app_disjoint _ _ Hd).
    apply Forall2_app.
    + assert (Hk : forall k, In k (first_seen (map SaleID rows1)) ->
                             In k (map SaleID rows1))
        by (intros k; apply first_seen_In).
      clear E1. revert Hk. induction H1 as [|k o ks os' Hko _ IH];
        intros Hk; constructor.
      * destruct Hko as (r & Hfr & Hrest).
        exists r. rewrite first_row_app, Hfr, key_items_app.
        rewrite (key_items_absent k rows2), app_nil_r
          by (apply Hd, Hk; now left).
        split; [reflexivity|exact Hrest].
      * apply IH. intros k' Hk'. apply Hk. now right.
    + assert (Hk : forall k, In k (first_seen (map SaleID rows2)) ->
                             In k (map SaleID rows2))
        by (intros k; apply first_seen_In).
      clear E2. revert Hk. induction H2 as [|k o ks os' Hko _ IH];
        intros Hk; constructor.
      * destruct Hko as (r & Hfr & Hrest).
        assert (Hno : ~ In k (map SaleID rows1)).
        { intros Hin. apply (Hd k Hin). apply Hk. now left. }
        exists r. rewrite first_row_app, (first_row_absent k rows1 Hno),
                    Hfr, key_items_app.
        rewrite (key_items_absent k rows1 Hno). simpl.
        split; [reflexivity|exact Hrest].
      * apply IH. intros k' Hk'. apply Hk. now right.
Qed.
End AggregatorFurther.

Lemma aggregate_app_witness :
  aggregate (RT := plain_runtime) true (firstn 1 sample_rows ++ [order_2_row])
  = match aggregate (RT := plain_runtime) true (firstn 1 sample_rows),
          aggregate (RT := plain_runtime) true [order_2_row] with
    | Some orders1, Some orders2 => Some (orders1 ++ orders2)
    | _, _ => None
    end.
Proof.
  apply (aggregate_app_disjoint (RT := plain_runtime)).
  intros k [<-|[]] [E|[]]. discriminate E.
Defined.

(* ===================================================================== *)
(** ** Further properties: the order listings *)
(* ===================================================================== *)

Lemma first_seen_app_congr (xs xs' ys : list Z) :
  first_seen xs = first_seen xs' ->
  first_seen (xs ++ ys) = first_seen (xs' ++ ys).
Proof. unfold first_seen. rewrite !fold_left_app. now intros ->. Qed.

Lemma first_seen_app_repeat (xs ys : list Z) (k : Z) :
  ys <> [] -> Forall (eq k) ys ->
  first_seen (xs ++ ys) = first_seen (xs ++ [k]).
Proof.
  induction ys as [|y ys IH] using rev_ind; intros Hne Hall; [contradiction|].
  apply Forall_app in Hall. destruct Hall as [Hall Hy].
  inversion Hy as [|? ? E _]. subst y.
  destruct ys as [|y0 ys0]; [reflexivity|].
  rewrite app_assoc, first_seen_snoc, IH by (assumption || discriminate).
  rewrite first_seen_snoc.
  destruct (existsb (Z.eqb k) (first_seen xs)) eqn:E; [now rewrite E|].
  rewrite existsb_app. simpl. now rewrite Z.eqb_refl, orb_true_r.
Qed.

Lemma first_seen_NoDup_id (ks : list Z) : NoDup ks -> first_seen ks = ks.
Proof.
  induction ks as [|k ks IH] using rev_ind; intros Hnd; [reflexivity|].
  apply NoDup_remove in Hnd. rewrite app_nil_r in Hnd.
  destruct Hnd as [Hnd Hnot].
  rewrite first_seen_snoc, IH by assumption.
  destruct (existsb (Z.eqb k) ks) eqn:E; [|reflexivity].
  apply existsb_eqb_In in E. contradiction.
Qed.

Section OrderByPermutation.
Context {A : Type} (leb : A -> A -> bool).

Lemma insert_by_Permutation (x : A) (l : list A) :
  Permutation (insert_by leb x l) (x :: l).
Proof.
  induction l as [|y l IH]; simpl; [reflexivity|].
  destruct (leb x y); [reflexivity|].
  rewrite IH. apply perm_swap.
Qed.

Lemma order_by_Permutation (l : list A) : Permutation (order_by leb l) l.
Proof.
  induction l as [|y l IH]; simpl; [reflexivity|].
  rewrite insert_by_Permutation. now constructor.
Qed.
End OrderByPermutation.

Lemma filter_sale_ids_NoDup (keep : Sale -> bool) (sales : list Sale) :
  NoDup (map s_SaleID sales) -> NoDup (map s_SaleID (filter keep sales)).
Proof.
  induction sales as [|s sales IH]; cbn [map filter]; intros H;
    [constructor|].
  inversion H as [|? ? Hnot Hnd]; subst.
  destruct (keep s); cbn [map]; [|auto].
  constructor; [|auto].
  intros Hin. apply Hnot. apply in_map_iff in Hin.
  destruct Hin as [x [E Hx]]. apply filter_In in Hx.
  apply in_map_iff. exists x. tauto.
Qed.

Lemma created_asc_total (a b : Sale) :
  created_asc a b = true \/ created_asc b a = true.
Proof.
  unfold created_asc.
  destruct (Z.ltb_spec (s_CreatedAt a) (s_CreatedAt b)); [now left|].
  destruct (Z.ltb_spec (s_CreatedAt b) (s_CreatedAt a)); [now right|].
  assert (E : s_CreatedAt a = s_CreatedAt b) by lia.
  rewrite E, Z.eqb_refl. simpl.
  destruct (Z.leb_spec (s_SaleID a) (s_SaleID b)); [now left|].
  right. apply Z.leb_le. lia.
Qed.

Lemma created_asc_trans (a b c : Sale) :
  created_asc a b = true -> created_asc b c = true -> created_asc a c = true.
Proof.
  unfold created_asc. rewrite !orb_true_iff, !andb_true_iff.
  rewrite !Z.ltb_lt, !Z.eqb_eq, !Z.leb_le. lia.
Qed.

Lemma created_asc_spec (a b : Sale) :
  created_asc a b = true <->
  s_CreatedAt a < s_CreatedAt b
  \/ (s_CreatedAt a = s_CreatedAt b /\ s_SaleID a <= s_SaleID b).
Proof.
  unfold created_asc. rewrite orb_true_iff, andb_true_iff.
  now rewrite Z.ltb_lt, Z.eqb_eq, Z.leb_le.
Qed.

Lemma created_asc_antisym (a b : Sale) :
  created_asc a b = true -> created_asc b a = true ->
  s_SaleID a = s_SaleID b.
Proof. rewrite !created_asc_spec. lia. Qed.

Lemma sale_of_id (l : list Sale) (a b : Sale) :
  NoDup (map s_SaleID l) -> In a l -> In b l -> s_SaleID a = s_SaleID b ->
  a = b.
Proof.
  induction l as [|x l IH]; cbn [map]; intros Hnd Ha Hb E; [destruct Ha|].
  inversion Hnd as [|? ? Hnot Hnd']; subst.
  destruct Ha as [->|Ha], Hb as [->|Hb].
  - reflexivity.
  - exfalso. apply Hnot. rewrite E. now apply in_map.
  - exfalso. apply Hnot. rewrite <- E. now apply in_map.
  - now apply IH.
Qed.

Lemma filter_Permutation {A} (p : A -> bool) (l l' : list A) :
  Permutation l l' -> Permutation (filter p l) (filter p l').
Proof.
  induction 1 as [|x l l' _ IH|x y l|l l' l'' _ IH1 _ IH2]; simpl.
  - constructor.
  - destruct (p x); [now constructor|exact IH].
  - destruct (p x), (p y); try reflexivity. apply perm_swap.
  - now transitivity (filter p l').
Qed.

Lemma filter_nil_iff {A : Type} (p : A -> bool) (l : list A) :
  filter p l = [] <-> forall x, In x l -> p x = false.
Proof.
  induction l as [|a l IH]; simpl.
  - split; [intros _ x []|reflexivity].
  - destruct (p a) eqn:E.
    + split; [discriminate|]. intros H. rewrite (H a) in E by now left.
      discriminate.
    + rewrite IH. split.
      * intros H x [<-|Hx]; [exact E|now apply H].
      * intros H x Hx. apply H. now right.
Qed.

Lemma filter_twice {A : Type} (p q : A -> bool) (l : list A) :
  filter p (filter q l) = filter (fun x => q x && p x) l.
Proof.
  induction l as [|a l IH]; cbn [filter]; [reflexivity|].
  destruct (q a); cbn [filter andb]; [destruct (p a)|]; now rewrite IH.
Qed.

Lemma filter_none_rest {A} (p : A -> bool) (l : list A) :
  filter p l = [] -> filter (fun x => negb (p x)) l = l.
Proof.
  induction l as [|a l IH]; cbn [filter]; [reflexivity|].
  destruct (p a); [discriminate|]. intros H. cbn [negb]. now rewrite IH.
Qed.

Lemma filter_sorted {A} (R : A -> A -> Prop) (p : A -> bool) (l : list A) :
  StronglySorted R l -> StronglySorted R (filter p l).
Proof.
  induction 1 as [|a l Hs IH Hall]; cbn [filter]; [constructor|].
  destruct (p a); [|exact IH]. constructor; [exact IH|].
  rewrite Forall_forall in *. intros x Hx. apply filter_In in Hx.
  now apply Hall.
Qed.

Lemma map_of_flat_map {A B C} (h : B -> C) (g : A -> list B) (l : list A) :
  map h (flat_map g l) = flat_map (fun a => map h (g a)) l.
Proof.
  induction l as [|a l IH]; cbn [flat_map map]; [reflexivity|].
  now rewrite map_app, IH.
Qed.

(** Rows sorted by sale fall into one group per sale, in the order of the
    sales. *)
Section Grouping.
Context {X : Type} (leb : Sale -> Sale -> bool).
Hypothesis leb_refl : forall a, leb a a = true.
Hypothesis leb_antisym :
  forall a b, leb a b = true -> leb b a = true -> s_SaleID a = s_SaleID b.

Lemma sorted_head_group (s : Sale) (l : list (Sale * X)) :
  StronglySorted (fun a b => leb (fst a) (fst b) = true) l ->
  (forall p, In p l -> s_SaleID (fst p) = s_SaleID s -> fst p = s) ->
  (forall p, In p l -> leb s (fst p) = true) ->
  l = filter (of_sale s) l ++ filter (fun p => negb (of_sale s p)) l.
Proof.
  induction 1 as [|p l Hs IH Hall]; intros Hsame Hmin; [reflexivity|].
  cbn [filter]. destruct (of_sale s p) eqn:Ep; cbn [negb app].
  - f_equal. apply IH.
    + intros q Hq. apply Hsame. now right.
    + intros q Hq. apply Hmin. now right.
  - assert (Hnone : filter (of_sale s) l = []).
    { apply filter_nil_iff. intros q Hq.
      destruct (of_sale s q) eqn:Eq; [|reflexivity]. exfalso.
      unfold of_sale in Ep, Eq. apply Z.eqb_eq in Eq.
      assert (Hqs : fst q = s) by (apply Hsame; [now right|exact Eq]).
      rewrite Forall_forall in Hall. specialize (Hall q Hq). cbn in Hall.
      rewrite Hqs in Hall.
      pose proof (leb_antisym _ _ Hall (Hmin p (or_introl eq_refl))) as E.
      rewrite E, Z.eqb_refl in Ep. discriminate. }
    rewrite Hnone. cbn [app]. f_equal. symmetry.
    now apply filter_none_rest.
Qed.

Lemma sorted_groups (sales : list Sale) (l : list (Sale * X)) :
  NoDup (map s_SaleID sales) ->
  StronglySorted (fun a b => leb a b = true) sales ->
  StronglySorted (fun a b => leb (fst a) (fst b) = true) l ->
  (forall p, In p l -> In (fst p) sales) ->
  l = flat_map (fun s => filter (of_sale s) l) sales.
Proof.
  revert l. induction sales as [|s sales IH]; intros l Hnd Hss Hsl Hin.
  - destruct l as [|p l]; [reflexivity|]. destruct (Hin p). now left.
  - inversion Hnd as [|? ? Hnot Hnd']; subst.
    inversion Hss as [|? ? Hss' Hall]; subst.
    rewrite Forall_forall in Hall.
    assert (Hsame : forall p, In p l -> s_SaleID (fst p) = s_SaleID s ->
                              fst p = s).
    { intros p Hp E. destruct (Hin p Hp) as [<-|Hp']; [reflexivity|].
      exfalso. apply Hnot. rewrite <- E. now apply in_map. }
    assert (Hmin : forall p, In p l -> leb s (fst p) = true).
    { intros p Hp. destruct (Hin p Hp) as [<-|Hp']; [apply leb_refl|].
      now apply Hall. }
    cbn [flat_map].
    rewrite (sorted_head_group s l Hsl Hsame Hmin) at 1. f_equal.
    rewrite (IH (filter (fun p => negb (of_sale s p)) l) Hnd' Hss')
      at 1.
    + apply flat_map_ext_In. intros s' Hs'.
      rewrite filter_twice. apply filter_ext. intros p.
      unfold of_sale.
      destruct (Z.eqb_spec (s_SaleID (fst p)) (s_SaleID s')) as [E|_];
        [|apply andb_false_r].
      rewrite andb_true_r.
      destruct (Z.eqb_spec (s_SaleID (fst p)) (s_SaleID s)) as [E'|_];
        [|reflexivity].
      exfalso. apply Hnot. rewrite <- E', E. now apply in_map.
    + now apply filter_sorted.
    + intros p Hp. apply filter_In in Hp. destruct Hp as [Hp Hneg].
      destruct (Hin p Hp) as [E|Hp']; [|exact Hp'].
      cbv beta in Hneg. unfold of_sale in Hneg.
      rewrite <- E, Z.eqb_refl in Hneg. discriminate.
Qed.
End Grouping.

Lemma key_items_other_key (k k' : Z) (rows : list Row) :
  k' <> k -> Forall (fun r => SaleID r = k') rows -> key_items k rows = [].
Proof.
  intros Hne. induction rows as [|r rows IHr]; intros Hall; [reflexivity|].
  inversion Hall as [|? ? Hr Hall']; subst.
  unfold key_items in *. simpl.
  destruct (Z.eqb_spec (SaleID r) k); [contradiction|].
  simpl. now apply IHr.
Qed.

Lemma left_join_items_sale (st : Store) (s : Sale)
    (p : Sale * option SaleItem) :
  In p (left_join_items st s) -> fst p = s.
Proof.
  unfold left_join_items. destruct (items_of st (s_SaleID s)) as [|i its].
  - intros [<-|[]]. reflexivity.
  - intros H. apply in_map_iff in H. destruct H as [i' [<- _]]. reflexivity.
Qed.

Lemma left_join_items_nonempty (st : Store) (s : Sale) :
  left_join_items st s <> [].
Proof.
  unfold left_join_items. destruct (items_of st (s_SaleID s)); discriminate.
Qed.

Lemma pair_items_left_join (st : Store) (s : Sale) :
  pair_items (left_join_items st s) = items_of st (s_SaleID s).
Proof.
  unfold left_join_items, pair_items.
  destruct (items_of st (s_SaleID s)) as [|i its]; [reflexivity|].
  generalize (i :: its). intros l.
  induction l as [|a l IH]; cbn [map flat_map snd app]; [reflexivity|].
  now rewrite IH.
Qed.

Lemma pair_items_In (g : list (Sale * option SaleItem)) (i : SaleItem) :
  In i (pair_items g) <-> exists s, In (s, Some i) g.
Proof.
  unfold pair_items. rewrite in_flat_map. split.
  - intros ([s [j|]] & Hp & Hi); cbn in Hi; [|destruct Hi].
    destruct Hi as [<-|[]]. now exists s.
  - intros (s & Hp). exists (s, Some i). split; [exact Hp|]. now left.
Qed.

Lemma group_of_Permutation (st : Store) (s : Sale)
    (g : list (Sale * option SaleItem)) :
  Permutation g (left_join_items st s) -> group_of s g.
Proof.
  intros Hp. split.
  - intros ->. apply Permutation_nil in Hp.
    now apply (left_join_items_nonempty st s).
  - intros p Hin. apply (left_join_items_sale st).
    now apply (Permutation_in _ Hp).
Qed.

Lemma group_keys (s : Sale) (g : list (Sale * option SaleItem)) :
  group_of s g ->
  map joined_row g <> []
  /\ Forall (fun r => SaleID r = s_SaleID s) (map joined_row g).
Proof.
  intros [Hne Hall]. split.
  - intros E. apply map_eq_nil in E. contradiction.
  - apply Forall_forall. intros r Hr. apply in_map_iff in Hr.
    destruct Hr as [p [<- Hp]]. cbn. now rewrite (Hall p Hp).
Qed.

Section Groups.
Variable G : Sale -> list (Sale * option SaleItem).

Lemma groups_first_seen (l : list Sale) :
  (forall s, In s l -> group_of s (G s)) ->
  first_seen (map SaleID (group_rows G l)) = first_seen (map s_SaleID l).
Proof.
  unfold group_rows.
  induction l as [|s l IH] using rev_ind; intros Hg; [reflexivity|].
  rewrite flat_map_app, !map_app. cbn [flat_map map]. rewrite app_nil_r.
  rewrite (first_seen_app_congr _ _ _
             (IH (fun s' Hs' => Hg s' (in_or_app _ _ _ (or_introl Hs'))))).
  destruct (group_keys s (G s)) as [Hne Hall].
  { apply Hg, in_or_app. right. now left. }
  apply first_seen_app_repeat.
  - intros E. apply map_eq_nil in E. contradiction.
  - rewrite Forall_map. eapply Forall_impl; [|exact Hall].
    intros r Hr. now symmetry.
Qed.

Lemma groups_key_items_absent (l : list Sale) (k : Z) :
  (forall s, In s l -> group_of s (G s)) ->
  ~ In k (map s_SaleID l) ->
  key_items k (group_rows G l) = [].
Proof.
  unfold group_rows.
  induction l as [|a l IH]; cbn [map flat_map]; intros Hg Hnot;
    [reflexivity|].
  rewrite key_items_app, (key_items_other_key _ (s_SaleID a)).
  - apply IH.
    + intros s Hs. apply Hg. now right.
    + intros H. apply Hnot. now right.
  - intros E. apply Hnot. now left.
  - apply (group_keys a (G a)). apply Hg. now left.
Qed.

Lemma groups_key_items (l : list Sale) (s : Sale) :
  NoDup (map s_SaleID l) ->
  (forall s', In s' l -> group_of s' (G s')) ->
  In s l ->
  key_items (s_SaleID s) (group_rows G l)
  = key_items (s_SaleID s) (map joined_row (G s)).
Proof.
  induction l as [|a l IH]; intros Hnd Hg Hin; [destruct Hin|].
  inversion Hnd as [|? ? Hnot Hnd']; subst.
  change (group_rows G (a :: l))
    with (map joined_row (G a) ++ group_rows G l).
  rewrite key_items_app.
  destruct Hin as [->|Hin].
  - rewrite (groups_key_items_absent l (s_SaleID s)).
    + apply app_nil_r.
    + intros s' Hs'. apply Hg. now right.
    + exact Hnot.
  - rewrite (key_items_other_key _ (s_SaleID a)).
    + apply IH; [exact Hnd'| |exact Hin].
      intros s' Hs'. apply Hg. now right.
    + intros E. apply Hnot. rewrite E. now apply in_map.
    + apply (group_keys a (G a)). apply Hg. now left.
Qed.

Lemma groups_first_row (l : list Sale) (s : Sale) :
  NoDup (map s_SaleID l) ->
  (forall s', In s' l -> group_of s' (G s')) ->
  In s l ->
  exists r, first_row (s_SaleID s) (group_rows G l) = Some r
            /\ CreatedAt r = s_CreatedAt s /\ Status r = s_Status s
            /\ OrderType r = s_OrderType s
            /\ PaymentMethod r = s_PaymentMethod s
            /\ CashierName r = s_CashierName s
            /\ GCashReferenceNumber r = s_GCashReferenceNumber s
            /\ TotalDiscountAmount r = s_TotalDiscountAmount s.
Proof.
  unfold group_rows.
  induction l as [|a l IH]; cbn [map flat_map]; intros Hnd Hg Hin;
    [destruct Hin|].
  inversion Hnd as [|? ? Hnot Hnd']; subst.
  rewrite first_row_app.
  destruct Hin as [->|Hin].
  - destruct (Hg s (or_introl eq_refl)) as [Hne Hall].
    destruct (G s) as [|[s' oi] g]; [contradiction|].
    assert (Ep : s' = s) by (apply (Hall (s', oi)); now left). subst s'.
    unfold first_row. cbn [map find joined_row fst snd row_of SaleID].
    rewrite Z.eqb_refl.
    eexists. split; [reflexivity|]. cbn. repeat split; reflexivity.
  - assert (Hne : s_SaleID a <> s_SaleID s).
    { intros E. apply Hnot. rewrite E. now apply in_map. }
    rewrite (first_row_absent (s_SaleID s) (map joined_row (G a))).
    + apply IH; [exact Hnd'| |exact Hin].
      intros s' Hs'. apply Hg. now right.
    + intros H. apply in_map_iff in H. destruct H as [r [Hk Hr]].
      destruct (group_keys a (G a) (Hg a (or_introl eq_refl))) as [_ Hall].
      rewrite Forall_forall in Hall. apply Hall in Hr. congruence.
Qed.
End Groups.

Lemma key_items_pair (s : Sale) (oi : option SaleItem) :
  (forall i, oi = Some i -> si_SaleItemID i <> 0) ->
  key_items (s_SaleID s) [joined_row (s, oi)]
  = map columns_of (pair_items [(s, oi)]).
Proof.
  intros Hnz. unfold key_items, pair_items, has_item, joined_row.
  cbn. rewrite Z.eqb_refl.
  destruct oi as [i|]; [|reflexivity]. cbn.
  destruct (Z.eqb_spec (si_SaleItemID i) 0) as [Hz|_]; [|reflexivity].
  exfalso. now apply (Hnz i).
Qed.

Lemma pair_items_cons (p : Sale * option SaleItem)
    (g : list (Sale * option SaleItem)) :
  pair_items (p :: g) = pair_items [p] ++ pair_items g.
Proof. unfold pair_items. cbn [flat_map]. now rewrite app_nil_r. Qed.

Lemma key_items_group (s : Sale) (g : list (Sale * option SaleItem)) :
  (forall p, In p g -> fst p = s) ->
  (forall i, In i (pair_items g) -> si_SaleItemID i <> 0) ->
  key_items (s_SaleID s) (map joined_row g) = map columns_of (pair_items g).
Proof.
  induction g as [|[s' oi] g IH]; intros Hs Hnz; [reflexivity|].
  assert (E : s' = s) by (apply (Hs (s', oi)); now left). subst s'.
  rewrite pair_items_cons in *. rewrite map_app.
  change (map joined_row ((s, oi) :: g))
    with ([joined_row (s, oi)] ++ map joined_row g).
  rewrite key_items_app, IH, key_items_pair.
  - reflexivity.
  - intros i ->. apply Hnz. apply in_or_app. left. cbn. now left.
  - intros q Hq. apply Hs. now right.
  - intros i Hi. apply Hnz. apply in_or_app. now right.
Qed.

Lemma Forall2_of_keys {B} (P : Z -> B -> Prop) (l : list Sale)
    (os : list B) :
  Forall2 P (map s_SaleID l) os ->
  Forall2 (fun s o => P (s_SaleID s) o) l os.
Proof.
  revert os. induction l as [|s l IH]; intros os H; inversion H; subst;
    constructor; auto.
Qed.

Lemma Forall2_impl_In {A B} (P Q : A -> B -> Prop) (l : list A)
    (l' : list B) :
  (forall a b, In a l -> P a b -> Q a b) ->
  Forall2 P l l' -> Forall2 Q l l'.
Proof.
  intros Himp H. induction H as [|a b l l' Hab _ IH]; constructor.
  - apply Himp; [now left|exact Hab].
  - apply IH. intros a' b' Ha'. apply Himp. now right.
Qed.

Section ListingProperties.
Context {RT : PyRuntime}.

Lemma rows_convert_groups (st : Store) (l : list Sale)
    (G : Sale -> list (Sale * option SaleItem)) :
  item_ids_nonzero st ->
  (forall s, In s l -> Permutation (G s) (left_join_items st s)) ->
  rows_convert (group_rows G l) = sales_convert st l.
Proof.
  intros Hnz Hperm. apply eq_true_iff_eq.
  unfold rows_convert, sales_convert, group_rows.
  rewrite !forallb_forall. split.
  - intros H s Hs. apply forallb_forall. intros i Hi.
    rewrite <- pair_items_left_join in Hi.
    assert (Hi' : In i (pair_items (G s))).
    { unfold pair_items in *. eapply Permutation_in; [|exact Hi].
      apply Permutation_flat_map, Permutation_sym, Hperm, Hs. }
    apply pair_items_In in Hi'. destruct Hi' as (s' & Hp).
    assert (Hrow : (si_SaleItemID i =? 0) || item_converts (columns_of i)
                   = true).
    { apply (H (joined_row (s', Some i))).
      apply in_flat_map. exists s. split; [exact Hs|].
      apply in_map_iff. now exists (s', Some i). }
    destruct (Z.eqb_spec (si_SaleItemID i) 0) as [Hz|_]; [|exact Hrow].
    exfalso. apply (Hnz i); [|exact Hz].
    rewrite pair_items_left_join in Hi. unfold items_of in Hi.
    now apply filter_In in Hi.
  - intros H r Hr. apply in_flat_map in Hr. destruct Hr as (s & Hs & Hr).
    apply in_map_iff in Hr. destruct Hr as ([s' oi] & <- & Hp).
    destruct oi as [i|]; [|reflexivity].
    change ((si_SaleItemID i =? 0) || item_converts (columns_of i) = true).
    specialize (H s Hs). rewrite forallb_forall in H.
    rewrite (H i); [apply orb_true_r|].
    rewrite <- pair_items_left_join.
    unfold pair_items. eapply Permutation_in.
    + apply Permutation_flat_map, Hperm, Hs.
    + apply in_flat_map. exists (s', Some i). split; [exact Hp|]. now left.
Qed.

Lemma aggregate_groups (with_gcash : bool) (st : Store) (l : list Sale)
    (G : Sale -> list (Sale * option SaleItem)) :
  NoDup (map s_SaleID l) -> item_ids_nonzero st ->
  (forall s, In s l -> Permutation (G s) (left_join_items st s)) ->
  if sales_convert st l
  then exists orders,
         aggregate with_gcash (group_rows G l) = Some orders
         /\ Forall2 (lists_sale with_gcash st) l orders
  else aggregate with_gcash (group_rows G l) = None.
Proof.
  intros Hnd Hnz Hperm.
  pose proof (rows_convert_groups st l G Hnz Hperm) as Hrc.
  destruct (sales_convert st l) eqn:Hc; [|now apply aggregate_raises].
  destruct (aggregate_emitted with_gcash _ Hrc) as (orders & E & Hem).
  exists orders. split; [exact E|].
  assert (Hg : forall s, In s l -> group_of s (G s)).
  { intros s Hs. apply (group_of_Permutation st). now apply Hperm. }
  rewrite (groups_first_seen G l Hg), (first_seen_NoDup_id _ Hnd) in Hem.
  apply Forall2_of_keys in Hem.
  eapply Forall2_impl_In; [|exact Hem]. cbv beta.
  intros s o Hs (r & Hfr & A1 & A2 & A3 & A4 & A5 & A6 & A7 & A8 & A9 & _).
  destruct (groups_first_row G l s Hnd Hg Hs)
    as (r' & Hfr' & B1 & B2 & B3 & B4 & B5 & B6 & _).
  rewrite Hfr in Hfr'. injection Hfr' as <-.
  assert (Hpi : Permutation (pair_items (G s)) (items_of st (s_SaleID s))).
  { rewrite <- pair_items_left_join. unfold pair_items.
    apply Permutation_flat_map, Hperm, Hs. }
  assert (Hki : key_items (s_SaleID s) (group_rows G l)
                = map columns_of (pair_items (G s))).
  { rewrite (groups_key_items G l s Hnd Hg Hs).
    apply key_items_group; [apply Hg, Hs|].
    intros i Hi. apply Hnz.
    apply (Permutation_in _ Hpi) in Hi. unfold items_of in Hi.
    now apply filter_In in Hi. }
  unfold lists_sale.
  rewrite A1, A2, A3, A4, A5, A6, A7, A8, A9, B1, B2, B3, B4, B5, B6, Hki.
  repeat (split; [reflexivity|]). split.
  - rewrite map_map. cbn [columns_of item_quantity Quantity].
    apply sum_Z_Permutation, Permutation_map, Hpi.
  - exists (pair_items (G s)). split; [exact Hpi|].
    assert (Hconv : forall i, In i (pair_items (G s)) ->
                      item_converts (columns_of i) = true).
    { intros i Hi. apply (Permutation_in _ Hpi) in Hi.
      unfold sales_convert in Hc. rewrite forallb_forall in Hc.
      specialize (Hc s Hs). rewrite forallb_forall in Hc. now apply Hc. }
    clear - Hconv. induction (pair_items (G s)) as [|i its IH];
      cbn [map]; constructor.
    + apply shown_item_shown, Hconv. now left.
    + apply IH. intros j Hj. apply Hconv. now right.
Qed.
End ListingProperties.

Lemma filter_of_flat_map (st : Store)
    (keep : Sale * option SaleItem -> bool) (sales : list Sale) :
  filter keep (flat_map (left_join_items st) sales)
  = flat_map (fun s => filter keep (left_join_items st s)) sales.
Proof.
  induction sales as [|s sales IH]; cbn [flat_map]; [reflexivity|].
  now rewrite filter_app, IH.
Qed.

Lemma left_join_items_of_sale (st : Store) (s s0 : Sale) :
  filter (of_sale s) (left_join_items st s0)
  = if s_SaleID s0 =? s_SaleID s then left_join_items st s0 else [].
Proof.
  assert (H : forall l : list (Sale * option SaleItem),
            (forall p, In p l -> fst p = s0) ->
            filter (of_sale s) l
            = if s_SaleID s0 =? s_SaleID s then l else []).
  { induction l as [|p l IH]; intros Hall; cbn [filter].
    - now destruct (s_SaleID s0 =? s_SaleID s).
    - unfold of_sale at 1. rewrite (Hall p) by now left.
      rewrite IH by (intros q Hq; apply Hall; now right).
      now destruct (s_SaleID s0 =? s_SaleID s). }
  apply H. apply left_join_items_sale.
Qed.

Lemma join_of_sale_absent (st : Store) (l : list Sale) (s : Sale) :
  ~ In (s_SaleID s) (map s_SaleID l) ->
  flat_map (fun x => filter (of_sale s) (left_join_items st x)) l = [].
Proof.
  induction l as [|b l IH]; intros Hnot; [reflexivity|].
  cbn [flat_map]. rewrite left_join_items_of_sale.
  destruct (Z.eqb_spec (s_SaleID b) (s_SaleID s)) as [E|_].
  - exfalso. apply Hnot. cbn. now left.
  - apply IH. intros H. apply Hnot. cbn. now right.
Qed.

Lemma join_of_sale (st : Store) (l : list Sale) (s : Sale) :
  NoDup (map s_SaleID l) -> In s l ->
  filter (of_sale s) (flat_map (left_join_items st) l)
  = left_join_items st s.
Proof.
  intros Hnd Hin. rewrite filter_of_flat_map.
  induction l as [|a l IH]; [destruct Hin|].
  inversion Hnd as [|? ? Hnot Hnd']; subst.
  cbn [flat_map]. rewrite left_join_items_of_sale.
  destruct Hin as [->|Hin].
  - rewrite Z.eqb_refl, (join_of_sale_absent st l s Hnot).
    apply app_nil_r.
  - destruct (Z.eqb_spec (s_SaleID a) (s_SaleID s)) as [E|_].
    + exfalso. apply Hnot. rewrite E. now apply in_map.
    + cbn [app]. now apply IH.
Qed.

Section SortedJoin.
Context {E : SqlEngine}.
Variable leb : Sale -> Sale -> bool.
Hypothesis leb_total : forall a b, leb a b = true \/ leb b a = true.
Hypothesis leb_trans :
  forall a b c, leb a b = true -> leb b c = true -> leb a c = true.
Hypothesis leb_antisym :
  forall a b, leb a b = true -> leb b a = true -> s_SaleID a = s_SaleID b.

(** The rows of a listing query fall into one group per selected sale, in
    the order of the sales, each group a rearrangement of the join of its
    sale. *)
Lemma sorted_join_groups (st : Store) (selected : list Sale) :
  NoDup (map s_SaleID selected) ->
  let fetched :=
    order_by (fun a b => leb (fst a) (fst b))
      (scan_order (flat_map (left_join_items st) selected)) in
  map joined_row fetched
  = group_rows (fun s => filter (of_sale s) fetched) (order_by leb selected)
  /\ forall s, In s (order_by leb selected) ->
       Permutation (filter (of_sale s) fetched) (left_join_items st s).
Proof.
  intros Hnd fetched.
  assert (Hperm : Permutation fetched
                    (flat_map (left_join_items st) selected)).
  { unfold fetched. etransitivity; [apply order_by_Permutation|].
    apply scan_order_perm. }
  split.
  - unfold group_rows. rewrite <- map_of_flat_map. f_equal.
    apply (sorted_groups leb).
    + intros a. now destruct (leb_total a a).
    + exact leb_antisym.
    + eapply Permutation_NoDup; [|exact Hnd].
      apply Permutation_map, Permutation_sym, order_by_Permutation.
    + apply order_by_sorted; [exact leb_total|exact leb_trans].
    + apply (order_by_sorted (fun a b => leb (fst a) (fst b))).
      * intros a b. apply leb_total.
      * intros a b c. apply leb_trans.
    + intros p Hp. apply order_by_In.
      apply (Permutation_in _ Hperm) in Hp. apply in_flat_map in Hp.
      destruct Hp as (s & Hs & Hp).
      now rewrite (left_join_items_sale st s p Hp).
  - intros s Hs. apply order_by_In in Hs.
    rewrite <- (join_of_sale st selected s Hnd Hs).
    now apply filter_Permutation.
Qed.
End SortedJoin.

Lemma str_in_In (x : string) (xs : list string) :
  str_in x xs = true <-> In x xs.
Proof.
  unfold str_in. rewrite existsb_exists. split.
  - intros (y & Hy & E). apply String.eqb_eq in E. now subst.
  - intros H. exists x. split; [exact H|apply String.eqb_refl].
Qed.

Lemma sees_all_cashiers_role (u : User) :
  role_in u ["admin"; "manager"] = true <-> sees_all_cashiers u.
Proof.
  unfold role_in, sees_all_cashiers.
  destruct (userRole u) as [r|].
  - rewrite str_in_In. cbn. split.
    + intros [<-|[<-|[]]]; auto.
    + intros [H|H]; injection H as <-; auto.
  - split; [discriminate|]. intros [H|H]; discriminate.
Qed.

Lemma selected_sales_shown (cashierName : option string) (u : User)
    (st : Store) (s : Sale) :
  In s (selected_sales (processing_filter cashierName u) st)
  <-> In s (Sales st) /\ shown_to cashierName u s.
Proof.
  unfold selected_sales, shown_to, processing_filter, status_listed.
  rewrite filter_In, andb_true_iff, str_in_In.
  pose proof (sees_all_cashiers_role u) as Hrole.
  destruct (role_in u ["admin"; "manager"]).
  - assert (Hall : sees_all_cashiers u) by now apply Hrole.
    destruct cashierName as [n|].
    + destruct (String.eqb_spec n "") as [->|Hne].
      * intuition.
      * unfold cashier_is. rewrite String.eqb_eq. intuition.
    + intuition.
  - assert (Hnot : ~ sees_all_cashiers u).
    { intros H. apply Hrole in H. discriminate. }
    unfold cashier_is. destruct (username u) as [n|].
    + rewrite String.eqb_eq. split.
      * intros (Hs & Hst & <-). intuition.
      * intros (Hs & Hst & _ & Hown). specialize (Hown Hnot).
        injection Hown as ->. intuition.
    + split; [intros (_ & _ & H); discriminate|].
      intros (_ & _ & _ & Hown). specialize (Hown Hnot). discriminate.
Qed.

Lemma sorted_impl {A} (R R' : A -> A -> Prop) (l : list A) :
  (forall a b, R a b -> R' a b) ->
  StronglySorted R l -> StronglySorted R' l.
Proof.
  intros Himp. induction 1 as [|a l Hs IH Hall]; constructor; [exact IH|].
  eapply Forall_impl; [|exact Hall]. intros b. apply Himp.
Qed.

Section ListingTheorems.
Context {RT : PyRuntime} {E : SqlEngine}.

(** X3. The processing-orders listing: a caller without one of the four
    roles gets 403.  Otherwise, in a store with unique sale ids, the sales
    listed are those of a listed status that the request shows to its
    caller (for an admin or a manager all, or those of the cashier named;
    for the others the caller's own), oldest first by creation time and
    then id.  If each of their items can be shown, the answer is 200 with
    one order per listed sale, in that order, with the sale's columns and
    its items in an order of the engine's choosing; if an item cannot be
    shown (no category, or add-ons that do not decode), the answer is
    500. *)
Theorem processing_orders_listing (cashierName : option string)
    (current_user : User) (st : Store) :
  NoDup (map s_SaleID (Sales st)) ->
  item_ids_nonzero st ->
  if role_in current_user ["admin"; "manager"; "staff"; "cashier"]
  then
    exists listed,
      StronglySorted created_before listed
      /\ NoDup listed
      /\ (forall s, In s listed <->
                    In s (Sales st) /\ shown_to cashierName current_user s)
      /\ if sales_convert st listed
         then exists orders,
                get_processing_orders cashierName current_user st
                = Response 200 orders
                /\ Forall2 (lists_sale false st) listed orders
         else get_processing_orders cashierName current_user st
              = HTTPException 500 "Failed to fetch processing orders."
  else
    get_processing_orders cashierName current_user st
    = HTTPException 403 "You do not have permission to view orders.".
Proof.
  intros Hnd Hnz. unfold get_processing_orders.
  destruct (role_in current_user _); cbn [negb]; [|reflexivity].
  set (selected := selected_sales
                     (processing_filter cashierName current_user) st).
  assert (Hsel : NoDup (map s_SaleID selected))
    by now apply filter_sale_ids_NoDup.
  exists (order_by created_asc selected).
  assert (Hids : NoDup (map s_SaleID (order_by created_asc selected))).
  { eapply Permutation_NoDup; [|exact Hsel].
    apply Permutation_map, Permutation_sym, order_by_Permutation. }
  split.
  { apply (sorted_impl (fun a b => created_asc a b = true)).
    - intros a b. apply created_asc_spec.
    - apply order_by_sorted;
        [apply created_asc_total|apply created_asc_trans]. }
  split; [now apply NoDup_map_inv in Hids|].
  split.
  { intros s. rewrite order_by_In. apply selected_sales_shown. }
  destruct (sorted_join_groups created_asc created_asc_total
              created_asc_trans created_asc_antisym st selected Hsel)
    as [Hrows Hperm].
  change (processing_rows st (processing_filter cashierName current_user))
    with (map joined_row
            (order_by (fun a b => created_asc (fst a) (fst b))
               (scan_order (flat_map (left_join_items st) selected)))).
  cbv zeta in Hrows |- *. rewrite Hrows.
  pose proof (aggregate_groups false st (order_by created_asc selected) _
                Hids Hnz Hperm) as H.
  destruct (sales_convert st (order_by created_asc selected)).
  - destruct H as (orders & Eo & Hl). rewrite Eo. now exists orders.
  - now rewrite H.
Qed.

(** X4. The all-orders listing: a caller who is neither admin nor manager
    gets 403.  Otherwise, in a store with unique sale ids, the sales
    listed are those of a listed status, newest first by creation time and
    then id.  If each of their items can be shown, the answer is 200 with
    one order per listed sale, in that order, with the sale's columns,
    its payment reference and its items in an order of the engine's
    choosing; if an item cannot be shown, the answer is 500. *)
Theorem all_orders_listing (current_user : User) (st : Store) :
  NoDup (map s_SaleID (Sales st)) ->
  item_ids_nonzero st ->
  if role_in current_user ["admin"; "manager"]
  then
    exists listed,
      StronglySorted (fun a b => created_before b a) listed
      /\ NoDup listed
      /\ (forall s, In s listed <->
                    In s (Sales st)
                    /\ In (s_Status s)
                         ["processing"; "completed"; "cancelled"])
      /\ if sales_convert st listed
         then exists orders,
                get_all_orders current_user st = Response 200 orders
                /\ Forall2 (lists_sale true st) listed orders
         else get_all_orders current_user st
              = HTTPException 500 "Failed to fetch all orders."
  else
    get_all_orders current_user st
    = HTTPException 403 "You do not have permission to view all orders.".
Proof.
  intros Hnd Hnz. unfold get_all_orders.
  destruct (role_in current_user _); cbn [negb]; [|reflexivity].
  set (selected := filter status_listed (Sales st)).
  assert (Hsel : NoDup (map s_SaleID selected))
    by now apply filter_sale_ids_NoDup.
  assert (Htotal : forall a b,
            created_desc a b = true \/ created_desc b a = true).
  { intros a b. apply created_asc_total. }
  assert (Htrans : forall a b c, created_desc a b = true ->
            created_desc b c = true -> created_desc a c = true).
  { intros a b c Hab Hbc. exact (created_asc_trans _ _ _ Hbc Hab). }
  assert (Hanti : forall a b, created_desc a b = true ->
            created_desc b a = true -> s_SaleID a = s_SaleID b).
  { intros a b Hab Hba. exact (created_asc_antisym _ _ Hba Hab). }
  exists (order_by created_desc selected).
  assert (Hids : NoDup (map s_SaleID (order_by created_desc selected))).
  { eapply Permutation_NoDup; [|exact Hsel].
    apply Permutation_map, Permutation_sym, order_by_Permutation. }
  split.
  { apply (sorted_impl (fun a b => created_desc a b = true)).
    - intros a b. apply created_asc_spec.
    - now apply order_by_sorted. }
  split; [now apply NoDup_map_inv in Hids|].
  split.
  { intros s. unfold selected, status_listed.
    now rewrite order_by_In, filter_In, str_in_In. }
  destruct (sorted_join_groups created_desc Htotal Htrans Hanti st selected
              Hsel) as [Hrows Hperm].
  change (all_rows st)
    with (map joined_row
            (order_by (fun a b => created_desc (fst a) (fst b))
               (scan_order (flat_map (left_join_items st) selected)))).
  cbv zeta in Hrows |- *. rewrite Hrows.
  pose proof (aggregate_groups true st (order_by created_desc selected) _
                Hids Hnz Hperm) as H.
  destruct (sales_convert st (order_by created_desc selected)).
  - destruct H as (orders & Eo & Hl). rewrite Eo. now exists orders.
  - now rewrite H.
Qed.
End ListingTheorems.

(* ===================================================================== *)
(** ** Further properties: today's cancelled orders *)
(* ===================================================================== *)

Lemma flat_map_if_length {A B} (p : A -> bool) (g : list B) (l : list A) :
  List.length (flat_map (fun a => if p a then g else []) l)
  = (List.length (filter p l) * List.length g)%nat.
Proof.
  induction l as [|a l IH]; simpl; [reflexivity|].
  rewrite length_app, IH. destruct (p a); simpl; lia.
Qed.

Lemma flat_map_if_sum {A} (p : A -> bool) (g : list Z) (l : list A) :
  sum_Z (flat_map (fun a => if p a then g else []) l)
  = Z.of_nat (List.length (filter p l)) * sum_Z g.
Proof.
  assert (Happ : forall a b, sum_Z (a ++ b) = sum_Z a + sum_Z b).
  { intros a b. unfold sum_Z. induction a; simpl; lia. }
  induction l as [|a l IH]; [reflexivity|].
  cbn [flat_map filter]. rewrite Happ, IH.
  destruct (p a); cbn [List.length]; [|unfold sum_Z; simpl; lia].
  rewrite Nat2Z.inj_succ. lia.
Qed.

Lemma filter_map_fst_length {A B} (p : A -> bool) (ps : list (A * B)) :
  List.length (filter p (map fst ps))
  = List.length (filter (fun x => p (fst x)) ps).
Proof.
  induction ps as [|x ps IH]; simpl; [reflexivity|].
  destruct (p (fst x)); simpl; now rewrite IH.
Qed.

Lemma flat_map_fst {A B C} (f : A -> list C) (l : list (A * B)) :
  flat_map (fun p => f (fst p)) l = flat_map f (map fst l).
Proof. induction l as [|a l IH]; simpl; [reflexivity|]. now rewrite IH. Qed.

Lemma map_flat_map_if {A B C} (h : B -> C) (p : A -> bool) (g : list B)
    (l : list A) :
  map h (flat_map (fun a => if p a then g else []) l)
  = flat_map (fun a => if p a then map h g else []) l.
Proof.
  induction l as [|a l IH]; simpl; [reflexivity|].
  rewrite map_app, IH. now destruct (p a).
Qed.

(** The sales of today's-cancelled query paired with their records. *)
Lemma pairs_of_key_length (k : Z) (rec : Z -> CancelledOrder -> bool)
    (cos : list CancelledOrder) (fs : list Sale) (s : Sale) :
  NoDup (map s_SaleID fs) -> In s fs -> s_SaleID s = k ->
  List.length
    (filter (fun p : Sale * CancelledOrder => s_SaleID (fst p) =? k)
       (flat_map (fun s0 => map (fun co => (s0, co))
                              (filter (rec (s_SaleID s0)) cos)) fs))
  = List.length (filter (rec k) cos).
Proof.
  intros Hnd Hin <-.
  assert (Hpair : forall s0 (X : list CancelledOrder),
            filter (fun p : Sale * CancelledOrder =>
                      s_SaleID (fst p) =? s_SaleID s)
              (map (fun co => (s0, co)) X)
            = if s_SaleID s0 =? s_SaleID s
              then map (fun co => (s0, co)) X else []).
  { intros s0 X. induction X as [|x X IHX]; simpl.
    - now destruct (s_SaleID s0 =? s_SaleID s).
    - rewrite IHX. now destruct (s_SaleID s0 =? s_SaleID s). }
  induction fs as [|a fs IH]; simpl; [contradiction|].
  inversion Hnd as [|? ? Hnot Hnd']; subst.
  rewrite filter_app, length_app, Hpair.
  destruct Hin as [->|Hin].
  - rewrite Z.eqb_refl, length_map.
    assert (E : filter (fun p : Sale * CancelledOrder =>
                          s_SaleID (fst p) =? s_SaleID s)
                  (flat_map (fun s0 => map (fun co => (s0, co))
                                         (filter (rec (s_SaleID s0)) cos)) fs)
                = []).
    { clear - Hnot Hpair. induction fs as [|b fs IHf]; [reflexivity|].
      simpl. rewrite filter_app, Hpair.
      destruct (Z.eqb_spec (s_SaleID b) (s_SaleID s)) as [E|_].
      - exfalso. apply Hnot. simpl. now left.
      - apply IHf. intros H. apply Hnot. simpl. now right. }
    rewrite E. simpl. lia.
  - destruct (Z.eqb_spec (s_SaleID a) (s_SaleID s)) as [E|_].
    + exfalso. apply Hnot. rewrite E. now apply in_map.
    + simpl. now apply IH.
Qed.

Lemma left_join_items_In (st : Store) (s : Sale) (i : SaleItem) :
  In (s, Some i) (left_join_items st s) <-> In i (items_of st (s_SaleID s)).
Proof.
  rewrite <- pair_items_left_join, pair_items_In. split.
  - intros H. now exists s.
  - intros (s' & H).
    now rewrite <- (left_join_items_sale st s _ H) at 1.
Qed.

Lemma join_key_items (st : Store) (k : Z) (l : list Sale) :
  item_ids_nonzero st ->
  key_items k (group_rows (left_join_items st) l)
  = flat_map (fun s => if s_SaleID s =? k
                       then map columns_of (items_of st k) else []) l.
Proof.
  intros Hnz. unfold group_rows.
  induction l as [|s l IH]; [reflexivity|].
  cbn [flat_map]. rewrite key_items_app, IH. f_equal.
  destruct (Z.eqb_spec (s_SaleID s) k) as [<-|Hne].
  - rewrite key_items_group, pair_items_left_join; [reflexivity| |].
    + apply left_join_items_sale.
    + intros i Hi. rewrite pair_items_left_join in Hi. apply Hnz.
      unfold items_of in Hi. now apply filter_In in Hi.
  - apply (key_items_other_key k (s_SaleID s)); [exact Hne|].
    apply group_keys. split; [apply left_join_items_nonempty|].
    apply left_join_items_sale.
Qed.

Lemma key_items_Permutation (k : Z) (rows rows' : list Row) :
  Permutation rows rows' ->
  Permutation (key_items k rows) (key_items k rows').
Proof. intros H. unfold key_items. now apply Permutation_flat_map. Qed.

Section CancelledToday.
Context {RT : PyRuntime} {E : SqlEngine}.

Lemma cancelled_today_rows_Permutation (st : Store) (cashier : string)
    (now : Z) :
  Permutation (cancelled_today_rows st cashier now)
    (group_rows (left_join_items st)
       (map fst (cancelled_today_pairs st cashier now))).
Proof.
  unfold cancelled_today_rows, group_rows.
  rewrite <- flat_map_fst.
  etransitivity.
  { apply Permutation_map. etransitivity; [apply order_by_Permutation|].
    apply scan_order_perm. }
  rewrite map_of_flat_map.
  erewrite flat_map_ext; [reflexivity|].
  intros p. cbv beta. rewrite map_map. reflexivity.
Qed.

Lemma cancelled_rows_convert (st : Store) (l : list Sale) (keys : list Z) :
  item_ids_nonzero st ->
  (forall k, In k keys <-> In k (map s_SaleID l)) ->
  rows_convert (group_rows (left_join_items st) l)
  = forallb
      (fun k => forallb (fun i => item_converts (columns_of i))
                  (items_of st k))
      keys.
Proof.
  intros Hnz Hkeys. apply eq_true_iff_eq.
  unfold rows_convert, group_rows. rewrite !forallb_forall. split.
  - intros H k Hk. apply forallb_forall. intros i Hi.
    apply Hkeys, in_map_iff in Hk. destruct Hk as (s & <- & Hs).
    assert (Hrow : (si_SaleItemID i =? 0) || item_converts (columns_of i)
                   = true).
    { apply (H (joined_row (s, Some i))). apply in_flat_map.
      exists s. split; [exact Hs|]. apply in_map_iff.
      exists (s, Some i). split; [reflexivity|].
      now apply left_join_items_In. }
    destruct (Z.eqb_spec (si_SaleItemID i) 0) as [Hz|_]; [|exact Hrow].
    exfalso. apply (Hnz i); [|exact Hz].
    unfold items_of in Hi. now apply filter_In in Hi.
  - intros H r Hr. apply in_flat_map in Hr. destruct Hr as (s & Hs & Hr).
    apply in_map_iff in Hr. destruct Hr as ([s' oi] & <- & Hp).
    destruct oi as [i|]; [|reflexivity].
    change ((si_SaleItemID i =? 0) || item_converts (columns_of i) = true).
    pose proof (left_join_items_sale st s _ Hp) as Es. cbn in Es. subst s'.
    apply left_join_items_In in Hp.
    assert (Hk : In (s_SaleID s) keys) by (apply Hkeys; now apply in_map).
    specialize (H _ Hk). rewrite forallb_forall in H.
    rewrite (H i Hp). apply orb_true_r.
Qed.

(** X5. Today's cancelled orders: a caller without one of the three roles
    gets 403.  Otherwise, in a store with unique sale ids, the orders
    listed are those of the cancelled sales of the cashier that have a
    Cancellation Record dated today.  If each of their items can be shown,
    the answer is 200 with one order per such sale, and the join with the
    records counts the sale's items once per record: a sale with [n]
    records dated today is listed once with [n] times its items, whatever
    the order in which the engine returns the rows; if an item cannot be
    shown, the answer is 500. *)
Theorem cancelled_today_listing (cashierName : string) (current_user : User)
    (now : Z) (st : Store) :
  NoDup (map s_SaleID (Sales st)) ->
  item_ids_nonzero st ->
  if role_in current_user ["admin"; "manager"; "cashier"]
  then
    exists keys,
      NoDup keys
      /\ (forall k,
            In k keys <->
            exists s, In s (Sales st) /\ s_SaleID s = k
                      /\ s_Status s = "cancelled"%string
                      /\ s_CashierName s = cashierName
                      /\ todays_records k now st <> [])
      /\ if forallb
              (fun k => forallb (fun i => item_converts (columns_of i))
                          (items_of st k))
              keys
         then
           exists orders,
             get_todays_cancelled_orders cashierName current_user now st
             = Response 200 orders
             /\ Forall2
                  (fun k o =>
                     id o = ("SO-" ++ str_of_int k)%string
                     /\ items o
                        = Z.of_nat (List.length (todays_records k now st))
                          * sum_Z (map si_Quantity (items_of st k))
                     /\ List.length (orderItems o)
                        = (List.length (todays_records k now st)
                           * List.length (items_of st k))%nat)
                  keys orders
         else
           get_todays_cancelled_orders cashierName current_user now st
           = HTTPException 500 "Failed to fetch today's cancelled orders."
  else
    get_todays_cancelled_orders cashierName current_user now st
    = HTTPException 403 "You do not have permission to view this data.".
Proof.
  intros Hnd Hnz. unfold get_todays_cancelled_orders.
  destruct (role_in current_user _); cbn [negb]; [|reflexivity].
  set (rows := cancelled_today_rows st cashierName now).
  set (fs := filter (fun s => String.eqb (s_Status s) "cancelled"
                              && String.eqb (s_CashierName s) cashierName)
               (Sales st)).
  set (rec := fun (k : Z) (co : CancelledOrder) =>
                (co_SaleID co =? k)
                && (date_of (co_CancelledAt co) =? date_of now)).
  set (pairs := cancelled_today_pairs st cashierName now).
  set (l := map fst pairs).
  pose proof (cancelled_today_rows_Permutation st cashierName now) as Hperm.
  fold rows pairs l in Hperm.
  exists (first_seen (map SaleID rows)).
  split; [apply first_seen_NoDup|].
  assert (Hfs : NoDup (map s_SaleID fs)) by now apply filter_sale_ids_NoDup.
  assert (Hl : forall k, In k (map s_SaleID l) <->
                         exists s, In s fs /\ s_SaleID s = k
                                   /\ todays_records k now st <> []).
  { intros k. unfold l. rewrite map_map, in_map_iff. split.
    - intros ([s co] & Hk & Hin). simpl in Hk.
      unfold pairs, cancelled_today_pairs in Hin.
      apply in_flat_map in Hin. destruct Hin as (s0 & Hs0 & Hin).
      apply in_map_iff in Hin. destruct Hin as (co0 & E0 & Hco).
      inversion E0; subst s0 co0. exists s.
      split; [exact Hs0|]. split; [exact Hk|].
      subst k. unfold todays_records. intros Hnil.
      rewrite Hnil in Hco. contradiction.
    - intros (s & Hs & Hk & Hrec).
      unfold todays_records in Hrec.
      destruct (filter _ (CancelledOrders st)) as [|co cos] eqn:E0;
        [contradiction|].
      exists (s, co). split; [exact Hk|].
      unfold pairs, cancelled_today_pairs. apply in_flat_map.
      exists s. split; [exact Hs|]. apply in_map_iff. exists co.
      split; [reflexivity|]. rewrite Hk, E0. now left. }
  assert (Hrows : forall k, In k (map SaleID rows) <-> In k (map s_SaleID l)).
  { intros k. split; intros H.
    - apply (Permutation_in _ (Permutation_map SaleID Hperm)) in H.
      apply in_map_iff in H. destruct H as (r & <- & Hr).
      unfold group_rows in Hr. apply in_flat_map in Hr.
      destruct Hr as (s & Hs & Hr). apply in_map_iff in Hr.
      destruct Hr as (p & <- & Hp). cbn.
      rewrite (left_join_items_sale st s p Hp). now apply in_map.
    - apply (Permutation_in _ (Permutation_sym
                                 (Permutation_map SaleID Hperm))).
      apply in_map_iff in H. destruct H as (s & <- & Hs).
      destruct (left_join_items st s) as [|p g] eqn:Ej.
      + now destruct (left_join_items_nonempty st s).
      + apply in_map_iff. exists (joined_row p). split.
        * cbn. rewrite (left_join_items_sale st s p); [reflexivity|].
          rewrite Ej. now left.
        * unfold group_rows. apply in_flat_map. exists s.
          split; [exact Hs|]. rewrite Ej. now left. }
  split.
  { intros k. rewrite first_seen_In, Hrows, Hl. split.
    - intros (s & Hs & Hk & Hrec). exists s. unfold fs in Hs.
      apply filter_In in Hs. destruct Hs as [Hs Hc].
      apply andb_true_iff in Hc. destruct Hc as [Hc1 Hc2].
      apply String.eqb_eq in Hc1, Hc2. auto.
    - intros (s & Hs & Hk & Hst & Hcn & Hrec). exists s.
      split; [|auto]. unfold fs. apply filter_In. split; [exact Hs|].
      now rewrite Hst, Hcn, !String.eqb_refl. }
  assert (Hconv : rows_convert rows
                  = forallb
                      (fun k => forallb
                                  (fun i => item_converts (columns_of i))
                                  (items_of st k))
                      (first_seen (map SaleID rows))).
  { rewrite (rows_convert_Permutation _ _ Hperm).
    apply cancelled_rows_convert; [exact Hnz|].
    intros k. now rewrite first_seen_In, Hrows. }
  rewrite <- Hconv.
  destruct (rows_convert rows) eqn:Hc.
  2:{ now rewrite (proj2 (aggregate_raises true rows) Hc). }
  destruct (aggregate_emitted true rows Hc) as (orders & Eo & Hem).
  rewrite Eo. exists orders. split; [reflexivity|].
  eapply Forall2_impl_In; [|exact Hem]. clear Hem.
  intros k o Hk (r & Hfr & A1 & _ & _ & _ & _ & _ & _ & A8 & A9 & _).
  split; [exact A1|].
  apply -> first_seen_In in Hk. apply Hrows, Hl in Hk.
  destruct Hk as (s & Hs & Hks & _).
  assert (Hcount : List.length (filter (fun s0 => s_SaleID s0 =? k) l)
                   = List.length (todays_records k now st)).
  { unfold l.
    transitivity (List.length
                    (filter (fun p : Sale * CancelledOrder =>
                               s_SaleID (fst p) =? k) pairs)).
    - apply (filter_map_fst_length (fun s0 : Sale => s_SaleID s0 =? k)).
    - unfold pairs, cancelled_today_pairs, todays_records.
      apply (pairs_of_key_length k rec (CancelledOrders st) fs s Hfs Hs
               Hks). }
  pose proof (key_items_Permutation k _ _ Hperm) as Hki.
  rewrite (join_key_items st k l Hnz) in Hki.
  rewrite A8, A9, length_map.
  rewrite (sum_Z_Permutation _ _ (Permutation_map item_quantity Hki)).
  rewrite (Permutation_length Hki).
  rewrite map_flat_map_if, flat_map_if_sum, flat_map_if_length, Hcount.
  rewrite !map_map, length_map. split; reflexivity.
Qed.
End CancelledToday.

Lemma one_order_store_ids :
  NoDup (map s_SaleID (Sales one_order_store))
  /\ item_ids_nonzero one_order_store.
Proof.
  split.
  - repeat constructor. simpl. tauto.
  - intros i [<-|[<-|[]]]; discriminate.
Qed.

Lemma undecodable_store_ids :
  NoDup (map s_SaleID (Sales undecodable_store))
  /\ item_ids_nonzero undecodable_store.
Proof.
  split.
  - repeat constructor; cbn; intuition discriminate.
  - intros i [<-|[<-|[<-|[]]]]; discriminate.
Qed.

Lemma order_3_shown : shown_to None manager_bea order_3.
Proof.
  split; [cbn; auto|]. split; [trivial|].
  intros Hn. exfalso. apply Hn. now right.
Qed.

Lemma processing_orders_listing_witness :
  (exists orders,
     get_processing_orders (RT := plain_runtime) (E := reverse_order) None
       manager_bea one_order_store = Response 200 orders)
  /\ get_processing_orders (RT := plain_runtime) (E := reverse_order) None
       manager_bea undecodable_store
     = HTTPException 500 "Failed to fetch processing orders.".
Proof.
  split.
  - destruct (processing_orders_listing (RT := plain_runtime)
                (E := reverse_order) None manager_bea one_order_store
                (proj1 one_order_store_ids) (proj2 one_order_store_ids))
      as (listed & _ & _ & Hmem & H).
    assert (Hc : sales_convert (RT := plain_runtime) one_order_store listed
                 = true).
    { apply forallb_forall. intros s Hs. apply Hmem in Hs.
      destruct Hs as [[<-|[]] _]. reflexivity. }
    rewrite Hc in H. destruct H as (orders & Eo & _).
    exists orders. exact Eo.
  - destruct (processing_orders_listing (RT := plain_runtime)
                (E := reverse_order) None manager_bea undecodable_store
                (proj1 undecodable_store_ids) (proj2 undecodable_store_ids))
      as (listed & _ & _ & Hmem & H).
    assert (Hc : sales_convert (RT := plain_runtime) undecodable_store
                   listed = false).
    { destruct (sales_convert undecodable_store listed) eqn:Hc;
        [|reflexivity].
      unfold sales_convert in Hc. rewrite forallb_forall in Hc.
      assert (Hin : In order_3 listed).
      { apply Hmem. split; [cbn; auto|exact order_3_shown]. }
      specialize (Hc order_3 Hin). discriminate Hc. }
    rewrite Hc in H. exact H.
Defined.

Lemma all_orders_listing_witness :
  (exists orders,
     get_all_orders (RT := plain_runtime) (E := reverse_order) manager_bea
       one_order_store = Response 200 orders)
  /\ get_all_orders (RT := plain_runtime) (E := reverse_order) manager_bea
       undecodable_store
     = HTTPException 500 "Failed to fetch all orders.".
Proof.
  split.
  - destruct (all_orders_listing (RT := plain_runtime) (E := reverse_order)
                manager_bea one_order_store
                (proj1 one_order_store_ids) (proj2 one_order_store_ids))
      as (listed & _ & _ & Hmem & H).
    assert (Hc : sales_convert (RT := plain_runtime) one_order_store listed
                 = true).
    { apply forallb_forall. intros s Hs. apply Hmem in Hs.
      destruct Hs as [[<-|[]] _]. reflexivity. }
    rewrite Hc in H. destruct H as (orders & Eo & _).
    exists orders. exact Eo.
  - destruct (all_orders_listing (RT := plain_runtime) (E := reverse_order)
                manager_bea undecodable_store
                (proj1 undecodable_store_ids) (proj2 undecodable_store_ids))
      as (listed & _ & _ & Hmem & H).
    assert (Hc : sales_convert (RT := plain_runtime) undecodable_store
                   listed = false).
    { destruct (sales_convert undecodable_store listed) eqn:Hc;
        [|reflexivity].
      unfold sales_convert in Hc. rewrite forallb_forall in Hc.
      assert (Hin : In order_3 listed).
      { apply Hmem. split; cbn; auto. }
      specialize (Hc order_3 Hin). discriminate Hc. }
    rewrite Hc in H. exact H.
Defined.

(** The engine's order shows in the listing: the two items of SO-1 come
    in table order under one engine and reversed under the other. *)
Example listing_item_order_is_the_engines :
  (match get_all_orders (RT := plain_runtime) (E := table_order) manager_bea
           one_order_store with
   | Response _ orders =>
       map (fun o : @ProcessingOrder plain_runtime =>
              map name (orderItems o)) orders
   | HTTPException _ _ => []
   end = [["tea"; "bun"]])
  /\ (match get_all_orders (RT := plain_runtime) (E := reverse_order)
              manager_bea one_order_store with
      | Response _ orders =>
          map (fun o : @ProcessingOrder plain_runtime =>
                 map name (orderItems o)) orders
      | HTTPException _ _ => []
      end = [["bun"; "tea"]]).
Proof. split; vm_compute; reflexivity. Qed.

Lemma twice_cancelled_store_ids :
  NoDup (map s_SaleID (Sales twice_cancelled_store))
  /\ item_ids_nonzero twice_cancelled_store.
Proof.
  split.
  - repeat constructor. simpl. tauto.
  - intros i [<-|[<-|[]]]; discriminate.
Qed.

Lemma cancelled_today_listing_witness :
  exists orders,
    get_todays_cancelled_orders (RT := plain_runtime) (E := reverse_order)
      "ana" manager_bea 300 twice_cancelled_store = Response 200 orders.
Proof.
  destruct (cancelled_today_listing (RT := plain_runtime)
              (E := reverse_order) "ana" manager_bea 300
              twice_cancelled_store (proj1 twice_cancelled_store_ids)
              (proj2 twice_cancelled_store_ids))
    as (keys & _ & Hmem & H).
  assert (Hc : forallb
                 (fun k => forallb
                             (fun i => item_converts (RT := plain_runtime)
                                         (columns_of i))
                             (items_of twice_cancelled_store k))
                 keys = true).
  { apply forallb_forall. intros k Hk. apply Hmem in Hk.
    destruct Hk as (s & [<-|[]] & <- & _). reflexivity. }
  rewrite Hc in H. destruct H as (orders & Eo & _).
  exists orders. exact Eo.
Defined.

Example cancelled_twice_listed_once_items_doubled :
  match get_todays_cancelled_orders (RT := plain_runtime)
          (E := reverse_order) "ana" manager_bea 300
          twice_cancelled_store with
  | Response _ orders =>
      map (fun o : @ProcessingOrder plain_runtime =>
             (id o, items o, List.length (orderItems o))) orders
  | HTTPException _ _ => []
  end = [("SO-1", 12, 4%nat)].
Proof. vm_compute. reflexivity. Qed.

(* ===================================================================== *)
(** ** Further properties: status updates *)
(* ===================================================================== *)

Lemma set_status_columns (new_status : string) (now k : Z) (s : Sale) :
  same_order_columns s (set_status new_status now k s).
Proof.
  unfold set_status, same_order_columns.
  destruct (s_SaleID s =? k); simpl; repeat split; reflexivity.
Qed.

Lemma set_status_other (new_status : string) (now k : Z) (s : Sale) :
  s_SaleID s <> k -> set_status new_status now k s = s.
Proof.
  intros H. unfold set_status.
  destruct (Z.eqb_spec (s_SaleID s) k); [contradiction|reflexivity].
Qed.

Section StatusUpdateFurther.
Context {RT : PyRuntime}.

(** The store a status update leaves: the store as it was, or the store
    with the status of the addressed sale rewritten and, for a
    cancellation, one record appended. *)
Lemma update_order_status_db (order_id : string)
    (request : UpdateOrderStatusRequest) (current_user : User) (now : Z)
    (network : RestockCall -> CallResult) (st : Store) :
  let o := update_order_status order_id request current_user now network st in
  db o = st
  \/ exists parsed_id recs,
       py_int (last_segment order_id "") = Some parsed_id
       /\ db o
          = {| Sales := map (set_status (status_name (newStatus request)) now
                               parsed_id) (Sales st);
               SaleItems := SaleItems st;
               CancelledOrders := CancelledOrders st ++ recs;
               CashierSessions := CashierSessions st |}
       /\ exists code body, result o = Response code body.
Proof.
  unfold update_order_status.
  destruct (role_in current_user _); simpl; [|now left].
  destruct (py_int (last_segment order_id "")) as [parsed_id|]; simpl;
    [|now left].
  destruct (newStatus request) eqn:Enew.
  - destruct (Nat.eqb _ 0); simpl; [now left|].
    right. exists parsed_id, []. rewrite app_nil_r.
    split; [reflexivity|]. split; [reflexivity|]. eauto.
  - destruct (cancelDetails request) as [manager|]; simpl; [|now left].
    destruct (String.eqb manager ""); simpl; [now left|].
    unfold cancel_body, insert_cancellation.
    destruct (Nat.eqb _ 0); simpl; [now left|].
    destruct (existsb _ _); simpl; [now left|].
    right. exists parsed_id, [mkCancelledOrder parsed_id manager now].
    split; [reflexivity|].
    destruct (items_of _ parsed_id); simpl;
      (split; [reflexivity|eauto]).
  - destruct (Nat.eqb _ 0); simpl; [now left|].
    right. exists parsed_id, []. rewrite app_nil_r.
    split; [reflexivity|]. split; [reflexivity|]. eauto.
Qed.

Lemma update_order_status_tables (order_id : string)
    (request : UpdateOrderStatusRequest) (current_user : User) (now : Z)
    (network : RestockCall -> CallResult) (st : Store) :
  let o := update_order_status order_id request current_user now network st in
  SaleItems (db o) = SaleItems st
  /\ CashierSessions (db o) = CashierSessions st.
Proof.
  cbv zeta.
  destruct (update_order_status_db order_id request current_user now network
              st) as [E|(parsed_id & recs & _ & E & _)];
    rewrite E; split; reflexivity.
Qed.

(** X6. Whatever the request and the answers of the inventory service, a
    status update leaves the line items and the cashier sessions as they
    were, keeps every Cancellation Record in place, touches no sale but
    the addressed one, and changes no column of a sale other than its
    status and its update time; a rejected request changes nothing. *)
Theorem update_order_status_frame (order_id : string)
    (request : UpdateOrderStatusRequest) (current_user : User) (now : Z)
    (network : RestockCall -> CallResult) (st : Store) :
  let o := update_order_status order_id request current_user now network st in
  SaleItems (db o) = SaleItems st
  /\ CashierSessions (db o) = CashierSessions st
  /\ (exists recs, CancelledOrders (db o) = CancelledOrders st ++ recs)
  /\ Forall2 same_order_columns (Sales st) (Sales (db o))
  /\ (forall s, In s (Sales st) ->
        py_int (last_segment order_id "") <> Some (s_SaleID s) ->
        In s (Sales (db o)))
  /\ (forall code detail,
        result o = HTTPException code detail -> db o = st /\ sent o = []).
Proof.
  cbv zeta.
  assert (Hsame : Forall2 same_order_columns (Sales st) (Sales st)).
  { induction (Sales st); constructor; [|assumption].
    repeat split; reflexivity. }
  destruct (update_order_status_db order_id request current_user now network
              st) as [E|(parsed_id & recs & Hid & E & code & body & Hres)].
  - rewrite E. split; [reflexivity|]. split; [reflexivity|].
    split; [exists []; now rewrite app_nil_r|]. split; [exact Hsame|].
    split; [intros s Hs _; exact Hs|].
    intros code detail Hres. split; [reflexivity|]. clear E Hsame.
    unfold update_order_status in *.
    destruct (role_in current_user _); simpl in *; [|reflexivity].
    destruct (py_int _); simpl in *; [|reflexivity].
    destruct (newStatus request); simpl in *.
    + destruct (Nat.eqb _ 0); simpl in *; [reflexivity|discriminate].
    + destruct (cancelDetails request) as [m|]; simpl in *; [|reflexivity].
      destruct (String.eqb m ""); simpl in *; [reflexivity|].
      destruct (cancel_body _ _ _ _ _) as [[st' its]|]; simpl in *;
        [|reflexivity].
      destruct its; simpl in *; discriminate.
    + destruct (Nat.eqb _ 0); simpl in *; [reflexivity|discriminate].
  - rewrite E. cbn [Sales SaleItems CancelledOrders CashierSessions].
    split; [reflexivity|]. split; [reflexivity|].
    split; [now exists recs|]. split.
    + clear. induction (Sales st); simpl; constructor; [|assumption].
      apply set_status_columns.
    + split.
      * intros s Hs Hne. apply in_map_iff. exists s. split; [|exact Hs].
        apply set_status_other. intros Heq. apply Hne. now rewrite Hid, Heq.
      * intros c d Hc. rewrite Hres in Hc. discriminate.
Qed.
End StatusUpdateFurther.

Section StatusUpdateOutcomes.
Context {RT : PyRuntime}.

(** X7. A status update to completed or processing of an existing order
    answers 200, sets the status and the update time of the addressed
    sale, issues no restock call and leaves the Cancellation Records as
    they are: an order set back from cancelled keeps its record. *)
Theorem plain_status_update_succeeds (order_id : string)
    (request : UpdateOrderStatusRequest) (current_user : User) (now : Z)
    (network : RestockCall -> CallResult) (st : Store) (parsed_id : Z) :
  role_in current_user ["admin"; "manager"; "staff"; "cashier"] = true ->
  py_int (last_segment order_id "") = Some parsed_id ->
  newStatus request <> cancelled ->
  rowcount parsed_id st <> 0%nat ->
  let o := update_order_status order_id request current_user now network st in
  result o
  = Response 200
      ("Order status successfully updated to '"
       ++ status_name (newStatus request) ++ "'.")%string
  /\ (forall s', In s' (Sales (db o)) -> s_SaleID s' = parsed_id ->
        s_Status s' = status_name (newStatus request)
        /\ s_UpdatedAt s' = Some now)
  /\ (exists s', In s' (Sales (db o)) /\ s_SaleID s' = parsed_id)
  /\ CancelledOrders (db o) = CancelledOrders st
  /\ sent o = [] /\ logged o = [].
Proof.
  intros Hrole Hid Hnew Hrows. unfold update_order_status.
  rewrite Hrole, Hid. simpl.
  assert (Hset : forall nm s', In s' (map (set_status nm now parsed_id)
                                        (Sales st)) ->
                   s_SaleID s' = parsed_id ->
                   s_Status s' = nm /\ s_UpdatedAt s' = Some now).
  { intros nm s' Hin Hk. apply in_map_iff in Hin.
    destruct Hin as [s [<- _]]. unfold set_status in *.
    destruct (Z.eqb_spec (s_SaleID s) parsed_id); simpl in *;
      [split; reflexivity|contradiction]. }
  assert (Hex : forall nm, exists s',
               In s' (map (set_status nm now parsed_id) (Sales st))
               /\ s_SaleID s' = parsed_id).
  { intros nm. unfold rowcount in Hrows.
    destruct (filter _ (Sales st)) as [|s l] eqn:E; [contradiction|].
    assert (Hs : In s (filter (fun s => s_SaleID s =? parsed_id) (Sales st)))
      by (rewrite E; now left).
    apply filter_In in Hs. destruct Hs as [Hs Hk]. apply Z.eqb_eq in Hk.
    exists (set_status nm now parsed_id s). split; [now apply in_map|].
    unfold set_status. destruct (s_SaleID s =? parsed_id); exact Hk. }
  destruct (Nat.eqb_spec (rowcount parsed_id st) 0) as [E|_];
    [contradiction|].
  destruct (newStatus request); [|contradiction|]; simpl;
    (split; [reflexivity|]); (split; [apply Hset|]);
    (split; [apply Hex|]); repeat split; reflexivity.
Qed.

(** X8. An order id that matches no sale: a status update to completed or
    processing answers 404, while a cancellation that names its manager
    answers 500, because the 404 it raises is caught by its own handler of
    database errors; neither changes the store. *)
Theorem status_update_of_missing_order (order_id : string)
    (request : UpdateOrderStatusRequest) (current_user : User) (now : Z)
    (network : RestockCall -> CallResult) (st : Store) (parsed_id : Z) :
  role_in current_user ["admin"; "manager"; "staff"; "cashier"] = true ->
  py_int (last_segment order_id "") = Some parsed_id ->
  rowcount parsed_id st = 0%nat ->
  let o := update_order_status order_id request current_user now network st in
  db o = st
  /\ result o
     = match newStatus request, cancelDetails request with
       | cancelled, Some manager =>
           if String.eqb manager ""
           then HTTPException 400
                  "Manager username required for cancellation."
           else HTTPException 500 "Failed to save cancellation to DB."
       | cancelled, None =>
           HTTPException 400 "Manager username required for cancellation."
       | _, _ =>
           HTTPException 404 ("Order '" ++ order_id ++ "' not found.")%string
       end.
Proof.
  intros Hrole Hid Hrows. unfold update_order_status.
  rewrite Hrole, Hid. simpl. unfold cancel_body. rewrite Hrows. simpl.
  destruct (newStatus request), (cancelDetails request) as [m|]; simpl;
    try (split; reflexivity).
  destruct (String.eqb m ""); split; reflexivity.
Qed.

(** X9. A cancellation that commits for an order without line items
    answers 200 and issues no restock call at all. *)
Theorem cancellation_without_items_sends_nothing (order_id : string)
    (request : UpdateOrderStatusRequest) (current_user : User) (now : Z)
    (network : RestockCall -> CallResult) (st : Store) (parsed_id : Z)
    (manager : string) :
  role_in current_user ["admin"; "manager"; "staff"; "cashier"] = true ->
  py_int (last_segment order_id "") = Some parsed_id ->
  newStatus request = cancelled ->
  cancelDetails request = Some manager ->
  manager <> ""%string ->
  rowcount parsed_id st <> 0%nat ->
  existsb (same_cancellation (mkCancelledOrder parsed_id manager now))
    (CancelledOrders st) = false ->
  items_of st parsed_id = [] ->
  let o := update_order_status order_id request current_user now network st in
  result o = Response 200 cancelled_message
  /\ sent o = [] /\ logged o = []
  /\ CancelledOrders (db o)
     = CancelledOrders st ++ [mkCancelledOrder parsed_id manager now].
Proof.
  intros Hrole Hid Hnew Hdet Hman Hrows Hfresh Hitems.
  unfold update_order_status. rewrite Hrole, Hid, Hnew, Hdet. simpl.
  destruct (String.eqb_spec manager "") as [E|_]; [contradiction|].
  unfold cancel_body, insert_cancellation.
  destruct (Nat.eqb_spec (rowcount parsed_id st) 0) as [E|_]; [contradiction|].
  cbn [update_sales CancelledOrders]. rewrite Hfresh.
  change (items_of _ parsed_id) with (items_of st parsed_id).
  rewrite Hitems. repeat split; reflexivity.
Qed.

(** X10. The restock log has an entry exactly for the calls that did not
    answer 200: it is empty if and only if every call returned status 200,
    and it never has more entries than there were calls. *)
Theorem restock_log_records_failures (i : nat) (results : list CallResult) :
  (restock_log i results = [] <->
   Forall (fun res => exists text, res = Returned 200 text) results)
  /\ (List.length (restock_log i results) <= List.length results)%nat.
Proof.
  revert i. induction results as [|res results IH]; intros i; simpl.
  - split; [split; [constructor|reflexivity]|lia].
  - destruct (IH (S i)) as [IH1 IH2]. rewrite length_app.
    unfold restock_log_entry.
    destruct res as [code text|e]; simpl.
    + destruct (Z.eqb_spec code 200) as [->|Hne]; simpl.
      * split; [|lia]. rewrite IH1. split.
        -- intros H. constructor; [eauto|exact H].
        -- intros H. now inversion H.
      * split; [|lia]. split; [discriminate|].
        intros H. inversion H as [|? ? [t Ht] _]; subst.
        inversion Ht. contradiction.
    + split; [|lia]. split; [discriminate|].
      intros H. inversion H as [|? ? [t Ht] _]. discriminate.
Qed.

(** X11. Along every sequence of status updates the Cancellation Records
    only grow: the records of the start stay in place, each further record
    is the one a request of the sequence asked for, and the line items and
    the cashier sessions stay as they were. *)
Theorem cancellation_records_append_only (calls : list StatusUpdateCall)
    (st : Store) :
  exists recs,
    CancelledOrders (run_calls calls st) = CancelledOrders st ++ recs
    /\ Forall (fun rec => exists c, In c calls
                                    /\ cancellation_record c = Some rec) recs
    /\ SaleItems (run_calls calls st) = SaleItems st
    /\ CashierSessions (run_calls calls st) = CashierSessions st.
Proof.
  revert st. induction calls as [|c calls IH]; intros st; simpl.
  - exists []. rewrite app_nil_r. repeat split. constructor.
  - destruct (IH (db (apply_call c st))) as (recs & H1 & H2 & H3 & H4).
    pose proof (apply_call_records c st) as Hc.
    destruct (update_order_status_tables (call_order_id c) (call_request c)
                (call_user c) (call_now c) (call_network c) st)
      as (F1 & F2).
    fold (apply_call c st) in F1, F2.
    rewrite H1, H3, H4, Hc, F1, F2, <- app_assoc.
    eexists. split; [reflexivity|]. split; [|split; reflexivity].
    apply Forall_app. split.
    + destruct (cancellation_record c) as [rec|] eqn:Erec; [|constructor].
      destruct (result (apply_call c st)); constructor; [|constructor].
      exists c. split; [now left|exact Erec].
    + eapply Forall_impl; [|exact H2].
      intros rec (c' & Hc' & Hrec). exists c'. split; [now right|exact Hrec].
Qed.
End StatusUpdateOutcomes.

Lemma plain_status_update_witness :
  result (update_order_status (RT := plain_runtime) "SO-1"
            {| newStatus := completed; cancelDetails := None |}
            manager_bea 100 no_answer one_order_store)
  = Response 200 "Order status successfully updated to 'completed'.".
Proof.
  refine (proj1 (plain_status_update_succeeds (RT := plain_runtime) "SO-1"
                   {| newStatus := completed; cancelDetails := None |}
                   manager_bea 100 no_answer one_order_store 1 _ _ _ _)).
  - reflexivity.
  - reflexivity.
  - discriminate.
  - vm_compute. discriminate.
Defined.

Lemma status_update_of_missing_order_witness :
  result (update_order_status (RT := plain_runtime) "SO-9"
            {| newStatus := cancelled; cancelDetails := Some "bea" |}
            manager_bea 100 no_answer one_order_store)
  = HTTPException 500 "Failed to save cancellation to DB.".
Proof.
  refine (proj2 (status_update_of_missing_order (RT := plain_runtime) "SO-9"
                   {| newStatus := cancelled; cancelDetails := Some "bea" |}
                   manager_bea 100 no_answer one_order_store 9 _ _ _)).
  - reflexivity.
  - reflexivity.
  - reflexivity.
Defined.

Lemma cancellation_without_items_witness :
  sent (update_order_status (RT := plain_runtime) "SO-2"
          {| newStatus := cancelled; cancelDetails := Some "bea" |}
          manager_bea 100 no_answer itemless_store)
  = [].
Proof.
  refine (proj1 (proj2
            (cancellation_without_items_sends_nothing (RT := plain_runtime)
               "SO-2"
               {| newStatus := cancelled; cancelDetails := Some "bea" |}
               manager_bea 100 no_answer itemless_store 2 "bea"
               _ _ _ _ _ _ _ _))).
  - reflexivity.
  - reflexivity.
  - reflexivity.
  - reflexivity.
  - discriminate.
  - vm_compute. discriminate.
  - reflexivity.
  - reflexivity.
Defined.


(* ===================================================================== *)
(** ** Further properties: order ids *)
(* ===================================================================== *)

Lemma last_segment_no_dash (t acc : string) :
  no_dash t = true -> last_segment t acc = (acc ++ t)%string.
Proof.
  revert acc. induction t as [|c t IH]; intros acc H; simpl in *.
  - clear H. induction acc as [|a acc IHa]; simpl; [reflexivity|].
    now rewrite <- IHa.
  - apply andb_true_iff in H. destruct H as [Hc Ht].
    destruct (Ascii.eqb c "-"); [discriminate|].
    rewrite IH by exact Ht. clear.
    induction acc as [|a acc IHa]; simpl; [reflexivity|]. now rewrite IHa.
Qed.

Lemma last_segment_after_dash (pre t acc : string) :
  last_segment (pre ++ String "-" t) acc = last_segment t "".
Proof.
  revert acc. induction pre as [|c pre IH]; intros acc; simpl.
  - reflexivity.
  - destruct (Ascii.eqb c "-"); apply IH.
Qed.

Lemma no_dash_uint (d : Decimal.uint) :
  no_dash (NilEmpty.string_of_uint d) = true.
Proof. induction d; simpl; auto. Qed.

Lemma no_dash_str_of_int (n : Z) : 0 <= n -> no_dash (str_of_int n) = true.
Proof.
  intros Hn. unfold str_of_int. destruct n as [|p|p]; [reflexivity| |lia].
  unfold Z.to_int, NilZero.string_of_int, NilZero.string_of_uint.
  destruct (Pos.to_uint p); try reflexivity; apply no_dash_uint.
Qed.

(** X12. The id a listing renders is read back by the status update:
    the part of "SO-<n>" after its last dash is the text of [n] when [n]
    is not negative; for a negative [n] the sign is taken for a separator
    and the text read back is that of [-n]. *)
Theorem order_id_round_trip (n : Z) :
  last_segment ("SO-" ++ str_of_int n) "" = str_of_int (Z.abs n).
Proof.
  destruct (Z.leb_spec 0 n) as [Hn|Hn].
  - rewrite Z.abs_eq by exact Hn.
    change ("SO-" ++ str_of_int n)%string
      with ("SO" ++ String "-" (str_of_int n))%string.
    rewrite last_segment_after_dash.
    now rewrite last_segment_no_dash by now apply no_dash_str_of_int.
  - destruct n as [|p|p]; try lia.
    change (Z.abs (Z.neg p)) with (Z.pos p).
    assert (E : str_of_int (Z.neg p)
                = String "-" (str_of_int (Z.pos p))).
    { unfold str_of_int, Z.to_int, NilZero.string_of_int. reflexivity. }
    rewrite E.
    change ("SO-" ++ String "-" (str_of_int (Z.pos p)))%string
      with ("SO-" ++ String "-" (str_of_int (Z.pos p)))%string.
    rewrite (last_segment_after_dash "SO-").
    now rewrite last_segment_no_dash by (apply no_dash_str_of_int; lia).
Qed.

(* ===================================================================== *)
(** ** Further properties: cashier sessions *)
(* ===================================================================== *)

Lemma active_sessions_insert (c c' : string) (q : Q) (now : Z) (st : Store) :
  active_sessions c (insert_session c' q now st)
  = active_sessions c st
    ++ (if String.eqb c' c then [started_row c' q now st] else []).
Proof.
  unfold active_sessions, insert_session. cbn [CashierSessions].
  rewrite filter_app. f_equal. cbn [filter]. unfold active_for.
  cbn [cs_CashierName cs_Status].
  destruct (String.eqb c' c); reflexivity.
Qed.

Lemma active_after_close (c : string) (session_id now : Z) (a b : Decimal)
    (l : list CashierSession) :
  filter (active_for c) (map (close_row session_id now a b) l)
  = filter (fun cs => active_for c cs && negb (cs_SessionID cs =? session_id))
      l.
Proof.
  induction l as [|cs l IH]; [reflexivity|]. cbn [map filter].
  rewrite IH. unfold close_row at 1 2.
  destruct (cs_SessionID cs =? session_id) eqn:E; cbn [negb].
  - unfold active_for at 1. cbn [cs_Status cs_CashierName].
    replace (String.eqb "Closed" "Active") with false by reflexivity.
    rewrite !andb_false_r. reflexivity.
  - rewrite andb_true_r. reflexivity.
Qed.

Lemma close_row_id (session_id now : Z) (a b : Decimal)
    (l : list CashierSession) :
  map cs_SessionID (map (close_row session_id now a b) l)
  = map cs_SessionID l.
Proof.
  rewrite map_map. apply map_ext. intros cs. unfold close_row.
  destruct (cs_SessionID cs =? session_id); reflexivity.
Qed.

Lemma filter_and_length {A : Type} (p q : A -> bool) (l : list A) :
  (List.length (filter (fun x => p x && q x) l)
   <= List.length (filter p l))%nat.
Proof.
  induction l as [|a l IH]; simpl; [lia|].
  destruct (p a), (q a); simpl; lia.
Qed.

Lemma start_session_cases (initial_cash : Q) (user_data : User) (now : Z)
    (st : Store) :
  (exists code detail,
     start_session initial_cash user_data now st
     = (HTTPException code detail, st))
  \/ (exists cashier_name,
        username user_data = Some cashier_name
        /\ active_sessions cashier_name st = []
        /\ start_session initial_cash user_data now st
           = (Response 201
                [("message",
                  JStr ("Cashier session for '" ++ cashier_name
                        ++ "' started successfully."))],
              insert_session cashier_name initial_cash now st)).
Proof.
  unfold start_session.
  destruct (userRole user_data) as [role|]; [|left; eauto].
  destruct (negb (str_in role _)); [left; eauto|].
  destruct (username user_data) as [c|]; [|left; eauto].
  destruct (String.eqb c ""); [left; eauto|].
  destruct (Qlt_le_dec initial_cash 0); [left; eauto|].
  destruct (active_sessions c st) eqn:E; [|left; eauto].
  right. exists c. split; [reflexivity|]. split; [exact E|reflexivity].
Qed.

Lemma close_session_cases (request : CloseSessionRequest)
    (current_user : User) (now : Z) (st : Store) :
  (exists code detail,
     (code = 403 \/ code = 500)
     /\ close_session request current_user now st
        = (HTTPException code detail, st))
  \/ (exists session_row a b,
        find_active_session (sessionId request) st = Some session_row
        /\ close_session request current_user now st
           = (Response 200
                [("message", JStr "Session closed successfully");
                 ("sessionId", JInt (sessionId request))],
              {| Sales := Sales st;
                 SaleItems := SaleItems st;
                 CancelledOrders := CancelledOrders st;
                 CashierSessions :=
                   map (close_row (sessionId request) now a b)
                     (CashierSessions st) |})).
Proof.
  unfold close_session, close_session_body.
  destruct (negb (role_in current_user _)); [left; eauto 6|].
  destruct (find_active_session (sessionId request) st) as [row|];
    [|left; eauto 6].
  right. eauto 6.
Qed.

(** A start whose check and write no other write comes between is
    start_session. *)
Lemma start_session_steps (initial_cash : Q) (user_data : User) (now : Z)
    (st : Store) :
  start_session initial_cash user_data now st
  = match start_session_check initial_cash user_data st with
    | inl e => (e, st)
    | inr cashier_name =>
        start_session_write cashier_name initial_cash now st
    end.
Proof.
  unfold start_session, start_session_check, start_session_write.
  destruct (userRole user_data) as [role|]; [|reflexivity].
  destruct (negb (str_in role _)); [reflexivity|].
  destruct (username user_data) as [c|]; [|reflexivity].
  destruct (String.eqb c ""); [reflexivity|].
  destruct (Qlt_le_dec initial_cash 0); [reflexivity|].
  destruct (active_sessions c st); reflexivity.
Qed.

Lemma start_session_check_passed (initial_cash : Q) (user_data : User)
    (st : Store) (cashier_name : string) :
  start_session_check initial_cash user_data st = inr cashier_name ->
  active_sessions cashier_name st = [].
Proof.
  unfold start_session_check.
  destruct (userRole user_data) as [role|]; [|discriminate].
  destruct (negb (str_in role _)); [discriminate|].
  destruct (username user_data) as [c|]; [|discriminate].
  destruct (String.eqb c ""); [discriminate|].
  destruct (Qlt_le_dec initial_cash 0); [discriminate|].
  destruct (active_sessions c st) eqn:E; [|discriminate].
  intros H. injection H as <-. exact E.
Qed.

Lemma insert_session_ids_unique (cashier_name : string) (initial_cash : Q)
    (now : Z) (st : Store) :
  session_ids_unique st ->
  session_ids_unique (insert_session cashier_name initial_cash now st).
Proof.
  intros Hids. unfold session_ids_unique, insert_session.
  cbn [CashierSessions]. rewrite map_app. cbn [map cs_SessionID].
  apply Permutation_NoDup
    with (l := next_session_id st :: map cs_SessionID (CashierSessions st)).
  { apply Permutation_cons_append. }
  constructor; [|exact Hids].
  intros Hin. apply in_map_iff in Hin. destruct Hin as [cs [Hk Hcs]].
  apply session_ids_below_next in Hcs. lia.
Qed.

(** X13. Closing a session and starting one without interruption keep the
    session table well formed, and interleaved starts do not: if session
    ids are unique and no cashier has two Active sessions, the same holds
    after any call of close_session and after any start_session whose
    check and write run on the same store; but when two starts of one
    cashier both run their check before either writes, both pass it, and
    after the two writes the cashier has two Active sessions. *)
Theorem sessions_stay_well_formed (st : Store) :
  session_ids_unique st -> one_active_session_each st ->
  (forall request current_user now,
     let st' := snd (close_session request current_user now st) in
     session_ids_unique st' /\ one_active_session_each st')
  /\ (forall initial_cash user_data now,
        let st' := snd (start_session initial_cash user_data now st) in
        session_ids_unique st' /\ one_active_session_each st')
  /\ (forall cash1 cash2 user1 user2 now1 now2 cashier_name,
        start_session_check cash1 user1 st = inr cashier_name ->
        start_session_check cash2 user2 st = inr cashier_name ->
        let st1 := snd (start_session_write cashier_name cash1 now1 st) in
        let st2 := snd (start_session_write cashier_name cash2 now2 st1) in
        session_ids_unique st2
        /\ List.length (active_sessions cashier_name st2) = 2%nat
        /\ ~ one_active_session_each st2).
Proof.
  intros Hids Hone. split; [|split].
  - intros req u now.
    destruct (close_session_cases req u now st)
      as [(code & detail & _ & E)|(row & a & b & _ & E)];
      rewrite E; cbn [snd].
    + split; assumption.
    + split.
      * unfold session_ids_unique. cbn [CashierSessions].
        rewrite close_row_id. exact Hids.
      * intros c. unfold active_sessions. cbn [CashierSessions].
        rewrite active_after_close.
        eapply Nat.le_trans; [apply filter_and_length|apply Hone].
  - intros q u now.
    destruct (start_session_cases q u now st)
      as [(code & detail & E)|(c & _ & Hnone & E)]; rewrite E; cbn [snd].
    + split; assumption.
    + split; [now apply insert_session_ids_unique|].
      intros c'. rewrite active_sessions_insert.
      destruct (String.eqb_spec c c') as [<-|_].
      * rewrite Hnone. cbn. lia.
      * rewrite app_nil_r. apply Hone.
  - intros q1 q2 u1 u2 now1 now2 c H1 _. cbv zeta.
    unfold start_session_write. cbn [snd].
    apply start_session_check_passed in H1.
    assert (Hlen : List.length
                     (active_sessions c
                        (insert_session c q2 now2
                           (insert_session c q1 now1 st))) = 2%nat).
    { rewrite !active_sessions_insert, H1, String.eqb_refl. reflexivity. }
    split; [now do 2 apply insert_session_ids_unique|].
    split; [exact Hlen|].
    intros Hbad. specialize (Hbad c). rewrite Hlen in Hbad. lia.
Qed.

Lemma sessions_stay_well_formed_witness :
  List.length
    (active_sessions "ana"
       (snd (start_session_write "ana" (70 # 1) 90200
               (snd (start_session_write "ana" (50 # 1) 90100
                       closed_session_store)))))
  = 2%nat.
Proof.
  refine (proj1 (proj2
            (proj2 (proj2 (sessions_stay_well_formed closed_session_store
                             _ _))
               (50 # 1) (70 # 1) cashier_ana cashier_ana 90100 90200 "ana"
               _ _))).
  - unfold session_ids_unique. cbn. constructor; [intros []|constructor].
  - intros c. unfold active_sessions.
    cbn [closed_session_store CashierSessions filter].
    destruct (active_for c _) eqn:E; [|cbn; lia].
    unfold active_for in E. cbn in E. rewrite andb_false_r in E.
    discriminate.
  - reflexivity.
  - reflexivity.
Defined.

(** X14. Closing a session touches one row of one table: whatever the
    request, the sales, the line items and the Cancellation Records stay as
    they are, no session row is added or removed, a row of another id is
    unchanged, and the row of the requested id, if it changes at all,
    becomes Closed with its end time set and keeps its id, cashier,
    initial cash and start; an answer that is an error leaves the whole
    store as it was. *)
Theorem close_session_frame (request : CloseSessionRequest)
    (current_user : User) (now : Z) (st : Store) :
  let r := close_session request current_user now st in
  Sales (snd r) = Sales st
  /\ SaleItems (snd r) = SaleItems st
  /\ CancelledOrders (snd r) = CancelledOrders st
  /\ Forall2
       (fun cs cs' =>
          cs' = cs
          \/ (cs_SessionID cs = sessionId request
              /\ cs_Status cs' = "Closed"
              /\ cs_SessionEnd cs' = Some now
              /\ same_session_columns cs cs'))
       (CashierSessions st) (CashierSessions (snd r))
  /\ (forall code detail, fst r = HTTPException code detail -> snd r = st).
Proof.
  cbv zeta.
  destruct (close_session_cases request current_user now st)
    as [(code & detail & _ & E)|(row & a & b & _ & E)];
    rewrite E; cbn [fst snd Sales SaleItems CancelledOrders CashierSessions].
  - repeat (split; [reflexivity|]). split; [|reflexivity].
    clear E. induction (CashierSessions st); constructor; auto.
  - repeat (split; [reflexivity|]). split; [|discriminate].
    clear E. induction (CashierSessions st) as [|cs l IH]; cbn [map];
      [constructor|]. constructor; [|exact IH].
    unfold close_row.
    destruct (Z.eqb_spec (cs_SessionID cs) (sessionId request)) as [Hk|_];
      [right|left; reflexivity].
    unfold same_session_columns. cbn. repeat split; try reflexivity.
    exact Hk.
Qed.

(** X15. Closed is terminal for close_session: once a session has been
    closed with answer 200, every further request to close the same id is
    answered 403 or 500 and leaves the store as it is. *)
Theorem closed_session_stays_closed (request : CloseSessionRequest)
    (current_user : User) (now : Z) (st st' : Store) (body : JObject) :
  close_session request current_user now st = (Response 200 body, st') ->
  forall request' user' now',
    sessionId request' = sessionId request ->
    exists code detail,
      (code = 403 \/ code = 500)
      /\ close_session request' user' now' st'
         = (HTTPException code detail, st').
Proof.
  intros Hclose request' user' now' Hid.
  destruct (close_session_cases request current_user now st)
    as [(code & detail & _ & E)|(row & a & b & _ & E)];
    rewrite E in Hclose; [discriminate|].
  injection Hclose as _ <-.
  destruct (close_session_cases request' user' now'
              {| Sales := Sales st; SaleItems := SaleItems st;
                 CancelledOrders := CancelledOrders st;
                 CashierSessions :=
                   map (close_row (sessionId request) now a b)
                     (CashierSessions st) |})
    as [(code & detail & Hc & E')|(row' & a' & b' & Hfind & _)].
  - exists code, detail. split; assumption.
  - exfalso. unfold find_active_session in Hfind.
    apply find_some in Hfind. destruct Hfind as [Hin Htest].
    cbn [CashierSessions] in Hin. apply in_map_iff in Hin.
    destruct Hin as [cs [<- _]]. rewrite Hid in Htest.
    unfold close_row in Htest.
    destruct (cs_SessionID cs =? sessionId request) eqn:Hk.
    + cbn in Htest. rewrite andb_false_r in Htest. discriminate.
    + rewrite Hk in Htest. discriminate.
Qed.

Lemma closed_session_stays_closed_witness :
  exists code detail,
    (code = 403 \/ code = 500)
    /\ close_session {| sessionId := 7; cashCounts := [("coins1", 5)] |}
         manager_bea 90100
         (snd (close_session {| sessionId := 7; cashCounts := [] |}
                 cashier_ana 90000 open_session_store))
       = (HTTPException code detail,
          snd (close_session {| sessionId := 7; cashCounts := [] |}
                 cashier_ana 90000 open_session_store)).
Proof.
  refine (closed_session_stays_closed
            {| sessionId := 7; cashCounts := [] |} cashier_ana 90000
            open_session_store _ _ _
            {| sessionId := 7; cashCounts := [("coins1", 5)] |}
            manager_bea 90100 _).
  - reflexivity.
  - reflexivity.
Defined.

Lemma find_active_session_In (session_id : Z) (st : Store)
    (session_row : CashierSession) :
  find_active_session session_id st = Some session_row ->
  In session_row (CashierSessions st)
  /\ cs_SessionID session_row = session_id
  /\ cs_Status session_row = "Active".
Proof.
  intros H. apply find_some in H. destruct H as [Hin Ht].
  apply andb_true_iff in Ht. destruct Ht as [Hk Hs].
  apply Z.eqb_eq in Hk. apply String.eqb_eq in Hs. auto.
Qed.

Lemma length_le_1_In {A : Type} (l : list A) (x y : A) :
  (List.length l <= 1)%nat -> In x l -> In y l -> x = y.
Proof.
  destruct l as [|a [|b l]]; simpl; intros Hl Hx Hy; try lia;
    intuition congruence.
Qed.

(** X16. After a session is closed its cashier can start again: if the
    closed session was the cashier's only Active one, a start_session for
    that cashier on the store the close leaves answers 201 and appends a
    fresh Active session. *)
Theorem close_then_start_again (request : CloseSessionRequest)
    (closer starter : User) (now now' : Z) (initial_cash : Q) (st : Store)
    (session_row : CashierSession) (role : string) :
  role_in closer ["admin"; "manager"; "cashier"] = true ->
  find_active_session (sessionId request) st = Some session_row ->
  (List.length (active_sessions (cs_CashierName session_row) st) <= 1)%nat ->
  userRole starter = Some role ->
  str_in role ["cashier"; "manager"; "admin"] = true ->
  username starter = Some (cs_CashierName session_row) ->
  cs_CashierName session_row <> ""%string ->
  (0 <= initial_cash)%Q ->
  let st1 := snd (close_session request closer now st) in
  start_session initial_cash starter now' st1
  = (Response 201
       [("message",
         JStr ("Cashier session for '" ++ cs_CashierName session_row
               ++ "' started successfully."))],
     insert_session (cs_CashierName session_row) initial_cash now' st1)
  /\ active_sessions (cs_CashierName session_row)
       (snd (start_session initial_cash starter now' st1))
     = [started_row (cs_CashierName session_row) initial_cash now' st1].
Proof.
  intros Hrole Hfind Hone Hur Hin Hname Hne Hcash. cbv zeta.
  rewrite (close_session_active request closer now st session_row Hrole
             Hfind).
  cbn [snd].
  set (st1 := {| Sales := Sales st; SaleItems := SaleItems st;
                 CancelledOrders := CancelledOrders st;
                 CashierSessions := _ |}).
  assert (Hnone : active_sessions (cs_CashierName session_row) st1 = []).
  { unfold active_sessions, st1. cbn [CashierSessions].
    rewrite active_after_close. apply filter_nil_iff. intros cs Hcs.
    destruct (active_for (cs_CashierName session_row) cs) eqn:Hact;
      [|reflexivity].
    cbn [andb]. apply negb_false_iff, Z.eqb_eq.
    destruct (find_active_session_In _ _ _ Hfind) as (Hrow & Hk & Hs).
    rewrite <- Hk. f_equal.
    apply (length_le_1_In _ _ _ Hone).
    - apply filter_In. split; [exact Hcs|exact Hact].
    - apply filter_In. split; [exact Hrow|]. unfold active_for.
      rewrite String.eqb_refl, Hs. reflexivity. }
  assert (Estart : start_session initial_cash starter now' st1
                   = (Response 201
                        [("message",
                          JStr ("Cashier session for '"
                                ++ cs_CashierName session_row
                                ++ "' started successfully."))],
                      insert_session (cs_CashierName session_row)
                        initial_cash now' st1)).
  { unfold start_session. rewrite Hur, Hin, Hname. cbn [negb].
    destruct (String.eqb_spec (cs_CashierName session_row) "") as [E|_];
      [contradiction|].
    destruct (Qlt_le_dec initial_cash 0) as [Hlt|_].
    - exfalso. apply (Qlt_not_le _ _ Hlt Hcash).
    - rewrite Hnone. reflexivity. }
  split; [exact Estart|]. rewrite Estart. cbn [snd].
  rewrite active_sessions_insert, Hnone, String.eqb_refl. reflexivity.
Qed.

Lemma close_then_start_again_witness :
  fst (start_session (50 # 1) cashier_ana 90100
         (snd (close_session {| sessionId := 7; cashCounts := [] |}
                 manager_bea 90000 open_session_store)))
  = Response 201
      [("message", JStr "Cashier session for 'ana' started successfully.")].
Proof.
  refine (f_equal fst
            (proj1 (close_then_start_again
                      {| sessionId := 7; cashCounts := [] |}
                      manager_bea cashier_ana 90000 90100 (50 # 1)
                      open_session_store
                      {| cs_SessionID := 7; cs_CashierName := "ana";
                         cs_Status := "Active"; cs_InitialCash := 100 # 1;
                         cs_SessionStart := 86400; cs_SessionEnd := None;
                         cs_ClosingCash := None;
                         cs_CashSalesAtClose := None |}
                      "cashier" _ _ _ _ _ _ _ _))).
  - reflexivity.
  - reflexivity.
  - cbn. lia.
  - reflexivity.
  - reflexivity.
  - reflexivity.
  - discriminate.
  - discriminate.
Defined.

(** X17. start_session writes at most one row and nothing else: whatever
    the request, the sales, the line items and the Cancellation Records
    stay as they are and the session rows already there stay in place;
    an answer that is an error leaves the whole store as it was, and an
    answer 201 appends exactly one row, which is Active, belongs to the
    caller, carries the initial cash and the clock of the call, and has
    an id no other row has. *)
Theorem start_session_frame (initial_cash : Q) (user_data : User) (now : Z)
    (st : Store) :
  let r := start_session initial_cash user_data now st in
  Sales (snd r) = Sales st
  /\ SaleItems (snd r) = SaleItems st
  /\ CancelledOrders (snd r) = CancelledOrders st
  /\ (forall code detail, fst r = HTTPException code detail -> snd r = st)
  /\ (forall code body, fst r = Response code body ->
        code = 201
        /\ exists cashier_name,
             username user_data = Some cashier_name
             /\ CashierSessions (snd r)
                = CashierSessions st
                  ++ [started_row cashier_name initial_cash now st]
             /\ ~ In (next_session_id st)
                     (map cs_SessionID (CashierSessions st))).
Proof.
  cbv zeta.
  destruct (start_session_cases initial_cash user_data now st)
    as [(code & detail & E)|(c & Hname & _ & E)]; rewrite E; cbn [fst snd].
  - do 3 (split; [reflexivity|]). split; [reflexivity|discriminate].
  - unfold insert_session.
    cbn [Sales SaleItems CancelledOrders CashierSessions].
    do 3 (split; [reflexivity|]). split; [discriminate|].
    intros code body Hr. injection Hr as <- _. split; [reflexivity|].
    exists c. split; [exact Hname|]. split; [reflexivity|].
    intros Hin. apply in_map_iff in Hin. destruct Hin as [cs [Hk Hcs]].
    apply session_ids_below_next in Hcs. lia.
Qed.

Section SessionStatusProperties.
Variable isoformat : Z -> string.

(** X18. The status endpoint follows the life of a session: when a
    start_session answers 201 for a cashier, the status of that cashier
    read before the start has no active session, the status read after it
    shows the new session with its id, initial cash and start time, and
    the status read after that session is closed has no active session
    again. *)
Theorem session_status_follows_lifecycle (initial_cash : Q)
    (starter reader : User) (now : Z) (st st1 : Store) (body : JObject)
    (cashier_name role : string) :
  start_session initial_cash starter now st = (Response 201 body, st1) ->
  username starter = Some cashier_name ->
  userRole reader = Some role ->
  str_in role ["manager"; "admin"; "cashier"] = true ->
  get_session_status isoformat cashier_name reader st
  = Response 200
      [("hasActiveSession", SBool false); ("cashierName", SStr cashier_name)]
  /\ get_session_status isoformat cashier_name reader st1
     = Response 200
         [("hasActiveSession", SBool true);
          ("cashierName", SStr cashier_name);
          ("sessionId", SInt (next_session_id st));
          ("initialCash", SNum initial_cash);
          ("sessionStart", SStr (isoformat now))]
  /\ (forall request closer now',
        sessionId request = next_session_id st ->
        role_in closer ["admin"; "manager"; "cashier"] = true ->
        get_session_status isoformat cashier_name reader
          (snd (close_session request closer now' st1))
        = Response 200
            [("hasActiveSession", SBool false);
             ("cashierName", SStr cashier_name)]).
Proof.
  intros Hstart Hname Hur Hin.
  destruct (start_session_cases initial_cash starter now st)
    as [(code & detail & E)|(c & Hname' & Hnone & E)];
    rewrite E in Hstart; [discriminate|].
  rewrite Hname in Hname'. injection Hname' as <-.
  injection Hstart as _ <-.
  unfold get_session_status. rewrite Hur, Hin. cbn [negb].
  split; [now rewrite Hnone|]. split.
  - rewrite active_sessions_insert, Hnone, String.eqb_refl. reflexivity.
  - intros request closer now' Hid Hrole.
    destruct (close_session_cases request closer now'
                (insert_session cashier_name initial_cash now st))
      as [(code & detail & _ & E')|(row & a & b & _ & E')];
      rewrite E'; cbn [snd].
    + exfalso.
      assert (Hfind : find_active_session (sessionId request)
                        (insert_session cashier_name initial_cash now st)
                      = None).
      { unfold close_session, close_session_body in E'.
        rewrite Hrole in E'. cbn [negb] in E'.
        destruct (find_active_session _ _); [discriminate|reflexivity]. }
      rewrite find_active_session_none in Hfind.
      apply (Hfind (started_row cashier_name initial_cash now st)).
      * unfold insert_session. cbn [CashierSessions]. apply in_or_app.
        right. now left.
      * now rewrite Hid.
      * reflexivity.
    + unfold active_sessions. cbn [CashierSessions].
      rewrite active_after_close.
      replace (filter _ (CashierSessions
                           (insert_session cashier_name initial_cash now st)))
        with (@nil CashierSession); [reflexivity|].
      symmetry. apply filter_nil_iff. intros cs Hcs.
      unfold insert_session in Hcs. cbn [CashierSessions] in Hcs.
      apply in_app_or in Hcs. destruct Hcs as [Hcs|[<-|[]]].
      * assert (Hf : active_for cashier_name cs = false).
        { unfold active_sessions in Hnone.
          rewrite filter_nil_iff in Hnone. now apply Hnone. }
        now rewrite Hf.
      * cbn [cs_SessionID]. rewrite Hid, Z.eqb_refl.
        now rewrite andb_false_r.
Qed.
End SessionStatusProperties.

Lemma session_status_follows_lifecycle_witness :
  get_session_status str_of_int "ana" manager_bea
    (snd (start_session (50 # 1) cashier_ana 90100 closed_session_store))
  = Response 200
      [("hasActiveSession", SBool true);
       ("cashierName", SStr "ana");
       ("sessionId", SInt 8);
       ("initialCash", SNum (50 # 1));
       ("sessionStart", SStr "90100")].
Proof.
  refine (proj1 (proj2 (session_status_follows_lifecycle str_of_int (50 # 1)
                          cashier_ana manager_bea 90100 closed_session_store
                          _ _ "ana" "manager" _ _ _ _))).
  - reflexivity.
  - reflexivity.
  - reflexivity.
  - reflexivity.
Defined.

(* ===================================================================== *)
(** ** Further properties: sales metrics *)
(* ===================================================================== *)

Lemma add_exact_zero_r (a : Decimal) :
  exponent a <= 0 -> add_exact a (of_int 0) = a.
Proof.
  destruct a as [c e]. unfold add_exact, of_int. cbn [coefficient exponent].
  intros He. rewrite Z.min_l by exact He. rewrite Z.sub_diag.
  f_equal. change (10 ^ 0) with 1. lia.
Qed.

Lemma pow10_nonzero (s : Z) : 0 <= s -> ~ (inject_Z (10 ^ s) == 0)%Q.
Proof.
  intros Hs H. unfold Qeq in H. cbn in H.
  assert (0 < 10 ^ s) by (apply Z.pow_pos_nonneg; lia). lia.
Qed.

Lemma value_add_exact (a b : Decimal) :
  (value (add_exact a b) == value a + value b)%Q.
Proof.
  set (s := Z.max 0 (Z.max (- exponent a) (- exponent b))).
  assert (Hs : 0 <= s) by lia.
  assert (Ha : - s <= exponent a) by lia.
  assert (Hb : - s <= exponent b) by lia.
  rewrite (value_units s (add_exact a b))
    by (rewrite ?exponent_add_exact; lia).
  rewrite (value_units s a Ha Hs), (value_units s b Hb Hs).
  rewrite (units_add_exact s a b Ha Hb), inject_Z_plus.
  field. now apply pow10_nonzero.
Qed.

Lemma value_line_total (i : SaleItem) :
  (value (line_total i) == value (si_UnitPrice i) * inject_Z (si_Quantity i))%Q.
Proof.
  unfold line_total, value. cbn [coefficient exponent].
  destruct (0 <=? exponent (si_UnitPrice i)) eqn:E.
  - rewrite <- inject_Z_mult. apply inject_Z_injective. ring.
  - apply Z.leb_gt in E.
    change (coefficient (si_UnitPrice i) * si_Quantity i # 1)
      with (inject_Z (coefficient (si_UnitPrice i) * si_Quantity i)).
    change (coefficient (si_UnitPrice i) # 1)
      with (inject_Z (coefficient (si_UnitPrice i))).
    rewrite inject_Z_mult. field. apply pow10_nonzero. lia.
Qed.

Section SumFold.
Context {A : Type} (f : A -> Decimal).

Lemma sum_fold_exponent (l : list A) (acc : Decimal) :
  exponent acc <= 0 ->
  exponent (fold_left (fun acc x => add_exact acc (f x)) l acc) <= 0.
Proof.
  revert acc. induction l as [|x l IH]; intros acc H; cbn [fold_left];
    [exact H|].
  apply IH. rewrite exponent_add_exact. lia.
Qed.

Lemma sum_fold_value (l : list A) (acc : Decimal) :
  (value (fold_left (fun acc x => add_exact acc (f x)) l acc)
   == value acc + sum_Q (map (fun x => value (f x)) l))%Q.
Proof.
  revert acc. induction l as [|x l IH]; intros acc; cbn [fold_left map].
  - unfold sum_Q. cbn [fold_right]. ring.
  - rewrite IH, value_add_exact. unfold sum_Q. cbn [fold_right]. ring.
Qed.
End SumFold.

Lemma sum_line_totals_fold (its : list SaleItem) :
  sum_line_totals its
  = fold_left (fun acc i => add_exact acc (line_total i)) its (of_int 0).
Proof. reflexivity. Qed.

Lemma sum_paid_by_filter (method : string) (rows : list (Sale * SaleItem)) :
  sum_paid_by method rows
  = sum_line_totals
      (map snd
         (filter (fun r => String.eqb (s_PaymentMethod (fst r)) method)
            rows)).
Proof.
  unfold sum_paid_by. rewrite sum_line_totals_fold.
  assert (H : forall acc, exponent acc <= 0 ->
            fold_left
              (fun acc r =>
                 add_exact acc
                   (if String.eqb (s_PaymentMethod (fst r)) method
                    then line_total (snd r) else of_int 0)) rows acc
            = fold_left (fun acc i => add_exact acc (line_total i))
                (map snd
                   (filter
                      (fun r => String.eqb (s_PaymentMethod (fst r)) method)
                      rows)) acc);
    [|apply H; cbn; lia].
  induction rows as [|r rows IH]; intros acc Hacc; [reflexivity|].
  cbn [fold_left filter].
  destruct (String.eqb (s_PaymentMethod (fst r)) method).
  - cbn [map fold_left]. apply IH. rewrite exponent_add_exact. lia.
  - rewrite add_exact_zero_r by exact Hacc. now apply IH.
Qed.

Lemma joined_filter_items {B : Type} (p : Sale -> bool)
    (g : Sale -> list B) (l : list Sale) :
  map snd (filter (fun r => p (fst r))
             (flat_map (fun s => map (pair s) (g s)) l))
  = flat_map g (filter p l).
Proof.
  induction l as [|s l IH]; [reflexivity|]. cbn [flat_map filter].
  rewrite filter_app, map_app, IH.
  assert (E : map snd (filter (fun r => p (fst r)) (map (pair s) (g s)))
              = if p s then g s else []).
  { induction (g s) as [|b bs IHb]; cbn [map filter fst].
    - now destruct (p s).
    - destruct (p s); cbn [map snd]; [now rewrite IHb|exact IHb]. }
  rewrite E. destruct (p s); reflexivity.
Qed.

Lemma joined_sales_items (keep : Sale -> bool) (st : Store) :
  map snd (joined_sales keep st)
  = flat_map (fun s => items_of st (s_SaleID s)) (filter keep (Sales st)).
Proof.
  unfold joined_sales.
  induction (filter keep (Sales st)) as [|s l IH]; [reflexivity|].
  cbn [flat_map]. rewrite map_app, IH, map_map. cbn [snd].
  now rewrite map_id.
Qed.

Section SalesMetricsProperties.
Context {RT : PyRuntime}.

(** X19. Without sales to count the current-session metrics are the zero
    ones: when the cashier has no Active session, or no completed sale of
    the cashier with a line item was created since the session started,
    the answer is 200 with 0.0 for the three amounts and 0 items. *)
Theorem current_session_metrics_zero (cashierName : string)
    (current_user : User) (st : Store) :
  role_in current_user ["admin"; "manager"; "cashier"] = true ->
  (forall session_row,
     In session_row (active_sessions cashierName st) ->
     joined_sales (completed_since cashierName (cs_SessionStart session_row))
       st = []) ->
  get_current_session_sales_metrics cashierName current_user st
  = Response 200 zero_metrics.
Proof.
  intros Hrole Hnone. unfold get_current_session_sales_metrics.
  rewrite Hrole. cbn [negb].
  destruct (active_sessions cashierName st) as [|row rest]; [reflexivity|].
  rewrite (Hnone row) by now left. reflexivity.
Qed.

(** X20. The cash sales the metrics show for the current session are the
    cash sales close_session stores for it: when the session a close
    request names is the cashier's first Active one, the row it closes
    holds a CashSalesAtClose whose float is the cashSales that the
    current-session metrics answered on the store before the close. *)
Theorem cash_sales_metric_is_cash_sales_at_close
    (request : CloseSessionRequest) (closer reader : User) (now : Z)
    (st : Store) (session_row : CashierSession)
    (others : list CashierSession) :
  role_in closer ["admin"; "manager"; "cashier"] = true ->
  role_in reader ["admin"; "manager"; "cashier"] = true ->
  find_active_session (sessionId request) st = Some session_row ->
  active_sessions (cs_CashierName session_row) st = session_row :: others ->
  exists m cs' d,
    get_current_session_sales_metrics (cs_CashierName session_row) reader st
    = Response 200 m
    /\ In cs' (CashierSessions (snd (close_session request closer now st)))
    /\ cs_SessionID cs' = sessionId request
    /\ cs_Status cs' = "Closed"
    /\ cs_CashSalesAtClose cs' = Some d
    /\ cashSales m = float_of_Decimal d.
Proof.
  intros Hcl Hrd Hfind Hact.
  rewrite (close_session_active request closer now st session_row Hcl Hfind).
  cbn [snd CashierSessions].
  unfold get_current_session_sales_metrics. rewrite Hrd, Hact. cbn [negb].
  destruct (find_active_session_In _ _ _ Hfind) as (Hin & Hk & _).
  eexists. eexists. eexists. split; [reflexivity|].
  split; [apply in_map; exact Hin|].
  unfold close_row. rewrite Hk, Z.eqb_refl.
  cbn [cs_SessionID cs_Status cs_CashSalesAtClose].
  split; [reflexivity|]. split; [reflexivity|]. split; [reflexivity|].
  cbn [metrics_of cashSales]. f_equal.
  rewrite sum_paid_by_filter. f_equal. unfold joined_sales, cash_sale_items.
  rewrite (joined_filter_items
             (fun s => String.eqb (s_PaymentMethod s) "Cash")).
  f_equal. rewrite filter_twice. apply filter_ext. intros s.
  unfold completed_since.
  destruct (String.eqb (s_Status s) "completed"),
    (String.eqb (s_CashierName s) (cs_CashierName session_row)),
    (cs_SessionStart session_row <=? s_CreatedAt s),
    (String.eqb (s_PaymentMethod s) "Cash"); reflexivity.
Qed.

(** X21. Today's metrics add up: the answer is 200, itemsSold is the sum
    of the quantities of the items of the cashier's sales completed today,
    the three amounts are floats of exact sums, the total being the sum of
    unit price times quantity over those items, and if each of those sales
    was paid by Cash or by GCash the total is the cash amount plus the
    GCash amount. *)
Theorem todays_metrics_add_up (cashierName : string) (current_user : User)
    (now : Z) (st : Store) :
  role_in current_user ["admin"; "manager"; "cashier"] = true ->
  exists dt dc dg,
    get_todays_sales_metrics cashierName current_user now st
    = Response 200
        {| totalSales := float_of_Decimal dt;
           cashSales := float_of_Decimal dc;
           gcashSales := float_of_Decimal dg;
           itemsSold :=
             sum_Z (map si_Quantity (sold_today cashierName now st)) |}
    /\ (value dt
        == sum_Q (map (fun i => value (si_UnitPrice i)
                                * inject_Z (si_Quantity i))
                    (sold_today cashierName now st)))%Q
    /\ ((forall s, In s (Sales st) ->
                   completed_today cashierName now s = true ->
                   cash_or_gcash s) ->
        (value dt == value dc + value dg)%Q).
Proof.
  intros Hrole. unfold get_todays_sales_metrics. rewrite Hrole. cbn [negb].
  set (rows := joined_sales (completed_today cashierName now) st).
  exists (sum_line_totals (map snd rows)), (sum_paid_by "Cash" rows),
    (sum_paid_by "GCash" rows).
  assert (Hitems : map snd rows = sold_today cashierName now st)
    by apply joined_sales_items.
  split; [|split].
  - unfold metrics_of. f_equal. f_equal. rewrite <- Hitems, map_map.
    reflexivity.
  - rewrite Hitems, sum_line_totals_fold, sum_fold_value.
    change (value (of_int 0)) with (inject_Z (0 * 10 ^ 0)).
    change (inject_Z (0 * 10 ^ 0)) with 0%Q. rewrite Qplus_0_l.
    clear Hitems. induction (sold_today cashierName now st) as [|i l IH];
      unfold sum_Q in *; cbn [map fold_right]; [reflexivity|].
    now rewrite IH, value_line_total.
  - intros Hpaid.
    assert (Hrows : forall r, In r rows -> cash_or_gcash (fst r)).
    { intros r Hr. unfold rows, joined_sales in Hr.
      apply in_flat_map in Hr. destruct Hr as [s [Hs Hr]].
      apply in_map_iff in Hr. destruct Hr as [i [<- _]]. cbn [fst].
      apply filter_In in Hs. destruct Hs as [Hs Hc]. now apply Hpaid. }
    rewrite sum_line_totals_fold. unfold sum_paid_by.
    rewrite (sum_fold_value
               (fun r => if String.eqb (s_PaymentMethod (fst r)) "Cash"
                         then line_total (snd r) else of_int 0)),
      (sum_fold_value
         (fun r => if String.eqb (s_PaymentMethod (fst r)) "GCash"
                   then line_total (snd r) else of_int 0)),
      sum_fold_value.
    change (value (of_int 0)) with 0%Q. rewrite !Qplus_0_l.
    clearbody rows. clear Hitems.
    induction rows as [|r rows IH]; unfold sum_Q in *;
      cbn [map fold_right]; [ring|].
    rewrite IH by (intros r' Hr'; apply Hrows; now right).
    assert (Ecc : String.eqb "Cash" "Cash" = true) by reflexivity.
    assert (Ecg : String.eqb "Cash" "GCash" = false) by reflexivity.
    assert (Egg : String.eqb "GCash" "GCash" = true) by reflexivity.
    assert (Egc : String.eqb "GCash" "Cash" = false) by reflexivity.
    assert (E0 : (value (of_int 0) == 0)%Q) by reflexivity.
    destruct (Hrows r (or_introl eq_refl)) as [E|E]; rewrite E.
    + rewrite Ecc, Ecg, E0. ring.
    + rewrite Egg, Egc, E0. ring.
Qed.
End SalesMetricsProperties.

Lemma current_session_metrics_zero_witness :
  get_current_session_sales_metrics (RT := plain_runtime) "ana" cashier_ana
    closed_session_store
  = Response 200 zero_metrics.
Proof.
  refine (current_session_metrics_zero (RT := plain_runtime) "ana"
            cashier_ana closed_session_store _ _).
  - reflexivity.
  - intros session_row [].
Defined.

Lemma cash_sales_metric_witness :
  exists m cs' d,
    get_current_session_sales_metrics (RT := plain_runtime) "ana"
      manager_bea open_session_store
    = Response 200 m
    /\ In cs' (CashierSessions
                 (snd (close_session {| sessionId := 7; cashCounts := [] |}
                         cashier_ana 90000 open_session_store)))
    /\ cs_SessionID cs' = 7
    /\ cs_Status cs' = "Closed"
    /\ cs_CashSalesAtClose cs' = Some d
    /\ cashSales m = float_of_Decimal d.
Proof.
  refine (cash_sales_metric_is_cash_sales_at_close (RT := plain_runtime)
            {| sessionId := 7; cashCounts := [] |} cashier_ana manager_bea
            90000 open_session_store
            {| cs_SessionID := 7; cs_CashierName := "ana";
               cs_Status := "Active"; cs_InitialCash := 100 # 1;
               cs_SessionStart := 86400; cs_SessionEnd := None;
               cs_ClosingCash := None; cs_CashSalesAtClose := None |}
            [] _ _ _ _).
  - reflexivity.
  - reflexivity.
  - reflexivity.
  - reflexivity.
Defined.

Lemma todays_metrics_add_up_witness :
  exists dt dc dg,
    get_todays_sales_metrics (RT := plain_runtime) "ana" cashier_ana 86400
      tied_store
    = Response 200
        {| totalSales := float_of_Decimal dt;
           cashSales := float_of_Decimal dc;
           gcashSales := float_of_Decimal dg;
           itemsSold := sum_Z (map si_Quantity
                                 (sold_today "ana" 86400 tied_store)) |}
    /\ (value dt
        == sum_Q (map (fun i => value (si_UnitPrice i)
                                * inject_Z (si_Quantity i))
                    (sold_today "ana" 86400 tied_store)))%Q
    /\ ((forall s, In s (Sales tied_store) ->
                   completed_today "ana" 86400 s = true ->
                   cash_or_gcash s) ->
        (value dt == value dc + value dg)%Q).
Proof.
  refine (todays_metrics_add_up (RT := plain_runtime) "ana" cashier_ana
            86400 tied_store _).
  reflexivity.
Defined.

(* ===================================================================== *)
(** ** Further properties: top products *)
(* ===================================================================== *)

Lemma group_get_Some_In (groups : list (string * Z)) (nm : string) (q : Z) :
  group_get groups nm = Some q -> In (nm, q) groups.
Proof.
  induction groups as [|[n' q'] groups IH]; cbn [group_get]; [discriminate|].
  destruct (String.eqb_spec n' nm) as [->|_].
  - intros H. injection H as ->. now left.
  - intros H. right. now apply IH.
Qed.

Lemma group_by_name_NoDup (its : list SaleItem) :
  NoDup (map fst (group_by_name its)).
Proof.
  unfold group_by_name. apply (proj1 (group_fold its [])). constructor.
Qed.

Lemma group_by_name_sold (its : list SaleItem) (i : SaleItem) :
  In i its ->
  In (si_ItemName i, quantity_sold (si_ItemName i) its) (group_by_name its).
Proof.
  intros Hi. apply group_get_Some_In. unfold group_by_name.
  rewrite (proj2 (group_fold its [])). cbn [group_get].
  replace (existsb _ its) with true; [reflexivity|].
  symmetry. apply existsb_exists. exists i. split; [exact Hi|].
  apply String.eqb_refl.
Qed.

Lemma add_to_group_sum (nm : string) (q : Z) (groups : list (string * Z)) :
  sum_Z (map snd (add_to_group nm q groups)) = sum_Z (map snd groups) + q.
Proof.
  induction groups as [|[n' q'] groups IH]; cbn [add_to_group].
  - cbn. lia.
  - destruct (String.eqb n' nm); cbn [map snd sum_Z fold_right] in *.
    + unfold sum_Z. lia.
    + unfold sum_Z in *. lia.
Qed.

Lemma group_by_name_sum (its : list SaleItem) :
  sum_Z (map snd (group_by_name its)) = sum_Z (map si_Quantity its).
Proof.
  unfold group_by_name.
  assert (H : forall g,
            sum_Z (map snd
                     (fold_left
                        (fun g i => add_to_group (si_ItemName i)
                                      (si_Quantity i) g) its g))
            = sum_Z (map snd g) + sum_Z (map si_Quantity its)).
  { induction its as [|i its IH]; intros g; cbn [fold_left map].
    - cbn. lia.
    - rewrite IH, add_to_group_sum. unfold sum_Z. cbn [fold_right]. lia. }
  rewrite H. cbn. reflexivity.
Qed.

Lemma StronglySorted_app_le {A : Type} (R : A -> A -> Prop) (l1 l2 : list A) :
  StronglySorted R (l1 ++ l2) ->
  forall a b, In a l1 -> In b l2 -> R a b.
Proof.
  induction l1 as [|x l1 IH]; cbn [app]; intros Hs a b Ha Hb; [destruct Ha|].
  inversion Hs as [|? ? Hs' Hall]; subst. destruct Ha as [<-|Ha].
  - rewrite Forall_forall in Hall. apply Hall, in_or_app. now right.
  - now apply (IH Hs').
Qed.

Lemma sum_Z_app (l1 l2 : list Z) : sum_Z (l1 ++ l2) = sum_Z l1 + sum_Z l2.
Proof.
  induction l1 as [|x l1 IH]; cbn [app]; unfold sum_Z in *;
    cbn [fold_right]; lia.
Qed.

Lemma sum_Z_nonneg (l : list Z) : Forall (fun x => 0 <= x) l -> 0 <= sum_Z l.
Proof.
  induction 1 as [|x l Hx _ IH]; unfold sum_Z in *; cbn [fold_right]; lia.
Qed.

Lemma top_products_names (cashier : string) (now : Z) (st : Store) :
  NoDup (map fst (top_products_rows cashier now st)).
Proof.
  unfold top_products_rows.
  set (sorted := order_by sold_desc _).
  assert (Hnd : NoDup (map fst sorted)).
  { apply Permutation_NoDup
      with (l := map fst (group_by_name (sold_today cashier now st))).
    - apply Permutation_map. symmetry. apply order_by_Permutation.
    - apply group_by_name_NoDup. }
  rewrite <- (firstn_skipn 10 sorted), map_app in Hnd.
  now apply NoDup_app_remove_r in Hnd.
Qed.

(** X22. The top products name each product once, name every product sold
    when at most ten names were sold, and leave out no product that
    outsells a listed one: an item name sold in the cashier's sales
    completed today that is not in the answer has a summed quantity no
    larger than that of any entry. *)
Theorem top_products_leave_out_the_least (cashierName : string)
    (current_user : User) (now : Z) (st : Store) :
  let sold := sold_today cashierName now st in
  if role_in current_user ["admin"; "manager"; "cashier"] then
    exists entries,
      get_top_products_today cashierName current_user now st
      = Response 200 entries
      /\ NoDup (map tp_name entries)
      /\ ((List.length (group_by_name sold) <= 10)%nat ->
          forall i, In i sold -> In (si_ItemName i) (map tp_name entries))
      /\ (forall i e,
            In i sold -> ~ In (si_ItemName i) (map tp_name entries) ->
            In e entries ->
            quantity_sold (si_ItemName i) sold <= sales e)
  else
    get_top_products_today cashierName current_user now st
    = HTTPException 403 "Permission denied.".
Proof.
  cbv zeta. unfold get_top_products_today.
  destruct (role_in current_user _); cbn [negb]; [|reflexivity].
  eexists. split; [reflexivity|].
  rewrite map_map. cbn [tp_name].
  set (sold := sold_today cashierName now st).
  assert (Hrows : top_products_rows cashierName now st
                  = firstn 10 (order_by sold_desc (group_by_name sold)))
    by reflexivity.
  set (sorted := order_by sold_desc (group_by_name sold)) in *.
  assert (Hin : forall i, In i sold ->
                  In (si_ItemName i, quantity_sold (si_ItemName i) sold)
                    sorted).
  { intros i Hi. apply order_by_In. now apply group_by_name_sold. }
  split; [apply top_products_names|]. split.
  - intros Hlen i Hi. rewrite Hrows.
    rewrite firstn_all2.
    + apply in_map_iff. exists (si_ItemName i, quantity_sold (si_ItemName i)
                                                 sold).
      split; [reflexivity|now apply Hin].
    + unfold sorted.
      rewrite (Permutation_length (order_by_Permutation sold_desc _)).
      exact Hlen.
  - intros i e Hi Hnot He. rewrite Hrows in *.
    apply in_map_iff in He. destruct He as [[nm q] [<- He]]. cbn [sales].
    assert (Hs : StronglySorted (fun a b => sold_desc a b = true) sorted).
    { apply order_by_sorted.
      - intros a b. unfold sold_desc. rewrite !Z.leb_le. lia.
      - intros a b c. unfold sold_desc. rewrite !Z.leb_le. lia. }
    rewrite <- (firstn_skipn 10 sorted) in Hs.
    specialize (Hin i Hi). rewrite <- (firstn_skipn 10 sorted) in Hin.
    apply in_app_or in Hin. destruct Hin as [Hin|Hin].
    + exfalso. apply Hnot. apply in_map_iff.
      exists (si_ItemName i, quantity_sold (si_ItemName i) sold).
      split; [reflexivity|exact Hin].
    + pose proof (StronglySorted_app_le _ _ _ Hs _ _ He Hin) as Hle.
      unfold sold_desc in Hle. cbn [snd] in Hle. now apply Z.leb_le in Hle.
Qed.

Section TopProductsAndMetrics.
Context {RT : PyRuntime}.

(** X23. The top products and today's metrics count the same items: for a
    caller both accept, the quantities the top products list add up to the
    itemsSold of today's metrics when at most ten names were sold, and to
    no more than it when no line item has a negative quantity. *)
Theorem top_products_sum_to_items_sold (cashierName : string)
    (current_user : User) (now : Z) (st : Store) :
  role_in current_user ["admin"; "manager"; "cashier"] = true ->
  exists entries m,
    get_top_products_today cashierName current_user now st
    = Response 200 entries
    /\ get_todays_sales_metrics cashierName current_user now st
       = Response 200 m
    /\ ((List.length (group_by_name (sold_today cashierName now st)) <= 10)%nat
        -> sum_Z (map sales entries) = itemsSold m)
    /\ ((forall i, In i (SaleItems st) -> 0 <= si_Quantity i) ->
        sum_Z (map sales entries) <= itemsSold m).
Proof.
  intros Hrole. unfold get_top_products_today, get_todays_sales_metrics.
  rewrite Hrole. cbn [negb]. eexists. eexists.
  split; [reflexivity|]. split; [reflexivity|].
  rewrite map_map. cbn [sales metrics_of itemsSold].
  rewrite <- (map_map snd si_Quantity), joined_sales_items.
  fold (sold_today cashierName now st).
  set (sold := sold_today cashierName now st).
  unfold top_products_rows. fold sold.
  set (sorted := order_by sold_desc (group_by_name sold)).
  assert (Hsum : sum_Z (map snd sorted) = sum_Z (map si_Quantity sold)).
  { rewrite <- group_by_name_sum. apply sum_Z_Permutation, Permutation_map.
    apply order_by_Permutation. }
  split.
  - intros Hlen. rewrite firstn_all2; [exact Hsum|].
    unfold sorted.
    rewrite (Permutation_length (order_by_Permutation sold_desc _)).
    exact Hlen.
  - intros Hq.
    change (sum_Z (map snd (firstn 10 sorted))
            <= sum_Z (map si_Quantity sold)).
    assert (Hsplit : sum_Z (map snd sorted)
                     = sum_Z (map snd (firstn 10 sorted))
                       + sum_Z (map snd (skipn 10 sorted)))
      by (now rewrite <- sum_Z_app, <- map_app, firstn_skipn).
    assert (0 <= sum_Z (map snd (skipn 10 sorted))); [|lia].
    apply sum_Z_nonneg, Forall_forall. intros x Hx.
    apply in_map_iff in Hx. destruct Hx as [[nm q] [<- Hx]]. cbn [snd].
    assert (Hg : In (nm, q) (group_by_name sold)).
    { apply (order_by_In sold_desc). rewrite <- (firstn_skipn 10).
      apply in_or_app. right. exact Hx. }
    apply group_by_name_In in Hg. destruct Hg as [-> _].
    unfold quantity_sold. apply sum_Z_nonneg, Forall_forall.
    intros y Hy. apply in_map_iff in Hy. destruct Hy as [i [<- Hi]].
    apply filter_In in Hi. destruct Hi as [Hi _].
    apply Hq. now apply (sold_today_In cashierName now st i).
Qed.
End TopProductsAndMetrics.

Lemma top_products_sum_witness :
  exists entries m,
    get_top_products_today "ana" cashier_ana 86400 tied_store
    = Response 200 entries
    /\ get_todays_sales_metrics (RT := plain_runtime) "ana" cashier_ana
         86400 tied_store
       = Response 200 m
    /\ ((List.length (group_by_name (sold_today "ana" 86400 tied_store))
         <= 10)%nat
        -> sum_Z (map sales entries) = itemsSold m)
    /\ ((forall i, In i (SaleItems tied_store) -> 0 <= si_Quantity i) ->
        sum_Z (map sales entries) <= itemsSold m).
Proof.
  refine (top_products_sum_to_items_sold (RT := plain_runtime) "ana"
            cashier_ana 86400 tied_store _).
  reflexivity.
Defined.

(* ===================================================================== *)
(** ** Further properties: the cash count *)
(* ===================================================================== *)

Lemma counted_cash_known (cashCounts : list (string * Z)) :
  counted_cash cashCounts
  = counted_cash (filter known_denomination cashCounts).
Proof.
  unfold counted_cash. generalize (of_int 0).
  induction cashCounts as [|e l IH]; intros acc; [reflexivity|].
  cbn [fold_left filter]. unfold known_denomination at 1.
  unfold count_entry at 2.
  destruct (denomination (fst e) denominations) eqn:E.
  - cbn [fold_left]. unfold count_entry at 3. rewrite E. apply IH.
  - apply IH.
Qed.

(** X24. close_session reads only the recognized keys of the cash count:
    two requests for the same session whose counts agree on the entries
    with a key of the Cash Denomination Table, in order, get the same
    answer and leave the same store, whatever other keys they carry. *)
Theorem close_session_ignores_unknown_keys
    (request request' : CloseSessionRequest) (current_user : User) (now : Z)
    (st : Store) :
  sessionId request' = sessionId request ->
  filter known_denomination (cashCounts request')
  = filter known_denomination (cashCounts request) ->
  close_session request' current_user now st
  = close_session request current_user now st.
Proof.
  intros Hid Hcounts. unfold close_session, close_session_body.
  rewrite Hid, (counted_cash_known (cashCounts request')), Hcounts,
    <- (counted_cash_known (cashCounts request)).
  reflexivity.
Qed.

Lemma close_session_ignores_unknown_keys_witness :
  close_session
    {| sessionId := 7; cashCounts := [("tips", 40); ("bills100", 7)] |}
    cashier_ana 90000 open_session_store
  = close_session {| sessionId := 7; cashCounts := [("bills100", 7)] |}
      cashier_ana 90000 open_session_store.
Proof.
  refine (close_session_ignores_unknown_keys
            {| sessionId := 7; cashCounts := [("bills100", 7)] |}
            {| sessionId := 7; cashCounts := [("tips", 40); ("bills100", 7)] |}
            cashier_ana 90000 open_session_store _ _).
  - reflexivity.
  - reflexivity.
Defined.

(** X25. Without 10- and 5-centavo coins the stored cash count is exact:
    when a close succeeds for a count that has no cents10 and no cents05
    entry and whose amounts stay within 28 digits, the closed row holds a
    ClosingCash whose value is the sum of denomination value times count
    over the recognized keys, negative counts included. *)
Theorem closing_cash_exact_without_small_coins
    (request : CloseSessionRequest) (current_user : User) (now : Z)
    (st : Store) (session_row : CashierSession) :
  role_in current_user ["admin"; "manager"; "cashier"] = true ->
  find_active_session (sessionId request) st = Some session_row ->
  (forall key n, In (key, n) (cashCounts request) ->
                 key <> "cents10"%string /\ key <> "cents05"%string) ->
  gross_centavos (cashCounts request) < 10 ^ prec ->
  exists cs' d,
    In cs' (CashierSessions (snd (close_session request current_user now st)))
    /\ cs_SessionID cs' = sessionId request
    /\ cs_ClosingCash cs' = Some d
    /\ (value d
        == inject_Z (spec_counted_centavos (cashCounts request))
           / inject_Z 100)%Q.
Proof.
  intros Hrole Hfind Hkeys Hfits.
  rewrite (close_session_active request current_user now st session_row
             Hrole Hfind).
  cbn [snd CashierSessions].
  destruct (find_active_session_In _ _ _ Hfind) as (Hin & Hk & _).
  eexists. eexists. split; [apply in_map; exact Hin|].
  unfold close_row. rewrite Hk, Z.eqb_refl.
  cbn [cs_SessionID cs_ClosingCash].
  split; [reflexivity|]. split; [reflexivity|].
  destruct (counted_cash_exact (cashCounts request) Hkeys Hfits) as [He Hu].
  rewrite (value_units 2) by lia. rewrite Hu. reflexivity.
Qed.

Lemma closing_cash_exact_witness :
  exists cs' d,
    In cs' (CashierSessions
              (snd (close_session
                      {| sessionId := 7;
                         cashCounts := [("bills100", 7); ("cents25", -2)] |}
                      cashier_ana 90000 open_session_store)))
    /\ cs_SessionID cs' = 7
    /\ cs_ClosingCash cs' = Some d
    /\ (value d
        == inject_Z (spec_counted_centavos
                       [("bills100", 7%Z); ("cents25", (-2)%Z)])
           / inject_Z 100)%Q.
Proof.
  refine (closing_cash_exact_without_small_coins
            {| sessionId := 7;
               cashCounts := [("bills100", 7); ("cents25", -2)] |}
            cashier_ana 90000 open_session_store
            {| cs_SessionID := 7; cs_CashierName := "ana";
               cs_Status := "Active"; cs_InitialCash := 100 # 1;
               cs_SessionStart := 86400; cs_SessionEnd := None;
               cs_ClosingCash := None; cs_CashSalesAtClose := None |}
            _ _ _ _).
  - reflexivity.
  - reflexivity.
  - intros key n [H|[H|[]]]; injection H as <- _; split; discriminate.
  - reflexivity.
Defined.

(* ===================================================================== *)
(** ** Properties: the tally a close persists *)
(* ===================================================================== *)

















